(** * Sales dashboard: row normalisation, week ranges and the filter pipeline

    A shallow embedding of [src/app/page.tsx]: the aggregation done by
    [fetchData], the week-range generator [getWeeksOfMonth] and the filter
    effect of [DashboardPage], followed by the properties the specification
    states about them.

    Conventions.
    - A JavaScript [number] holding a revenue is a binary64 float
      ([PrimFloat.float]); a counter that only ever receives [+= 1] is a [Z]
      (array lengths stay below 2^32, where binary64 is exact).
    - An optional string field of a sheet row is an [option string];
      JavaScript truthiness of such a field is [truthy].
    - A plain object used as a dictionary is an association list of its own
      properties in insertion order; [Object_values] and [Object_entries]
      enumerate it the way ECMAScript orders own keys.  Where the key can be
      any text (the salesperson, a column header), reading and writing
      follow the prototype chain: the methods inherited from
      [Object.prototype] and the accessor [__proto__].
    - What the page obtains from its runtime (string to number coercion and
      back, the text of a built-in function, the date parser of dayjs, the
      clock, locale collation) is the record [Env].
    - A dayjs instant is a civil local date and the milliseconds elapsed in
      that day.  As in JavaScript, a date exists only within 100,000,000
      days of 1 January 1970; every operation that builds a date gives the
      invalid date outside that range.  Local time is taken to be UTC, so
      that the range ends with 13 September 275760, 00:00; time-zone
      transitions are outside the model. *)

From Stdlib Require Import ZArith List String Ascii Bool Lia Floats.
From Stdlib Require Import DecimalString Permutation Sorted OrderedTypeEx.
Import ListNotations.

Set Warnings "-inexact-float".
Local Open Scope string_scope.
Local Open Scope Z_scope.

(** ** JavaScript values used by the page *)

Module JS.

(** [x && ...] on an optional string: absent and empty are falsy. *)
Definition truthy (o : option string) : bool :=
  match o with
  | Some s => negb (s =? "")%string
  | None => false
  end.

(** [x || d] on an optional string. *)
Definition orElse (o : option string) (d : string) : string :=
  match o with
  | Some s => if (s =? "")%string then d else s
  | None => d
  end.

(** Falsy numbers: NaN, +0 and -0. *)
Definition falsy (f : float) : bool :=
  PrimFloat.is_nan f || PrimFloat.eqb f 0%float.

(** [f || 0] on a number. *)
Definition orZero (f : float) : float :=
  if falsy f then 0%float else f.

(** [String(n)] of an integer. *)
Definition string_of_Z (z : Z) : string :=
  NilZero.string_of_int (Z.to_int z).

Fixpoint repeat_string (n : nat) (pad : string) : string :=
  match n with
  | O => ""
  | S k => pad ++ repeat_string k pad
  end.

(** [padStart] as dayjs uses it: strings already long enough are kept. *)
Definition padStart (len : nat) (pad : string) (s : string) : string :=
  if (len <=? String.length s)%nat then s
  else repeat_string (len - String.length s) pad ++ s.

(** [s.split(' ')]. *)
Fixpoint split_space (s : string) : list string :=
  match s with
  | EmptyString => [""]
  | String c r =>
      if (c =? " ")%char then "" :: split_space r
      else match split_space r with
           | [] => [String c ""]
           | h :: t => String c h :: t
           end
  end.

(** A canonical array index: the decimal numeral of an integer below
    2^32 - 1, without leading zeros.  Such keys are enumerated first. *)
Definition is_digit (c : ascii) : bool :=
  let n := Z.of_N (N_of_ascii c) in (48 <=? n) && (n <=? 57).

Fixpoint digits_value (acc : Z) (s : string) : option Z :=
  match s with
  | EmptyString => Some acc
  | String c r =>
      if is_digit c
      then digits_value (10 * acc + (Z.of_N (N_of_ascii c) - 48)) r
      else None
  end.

Definition arrayIndex (s : string) : option Z :=
  match s with
  | EmptyString => None
  | String c r =>
      if (c =? "0")%char && negb (r =? "")%string then None
      else match digits_value 0 s with
           | Some n => if n <? 4294967295 then Some n else None
           | None => None
           end
  end.

Section Objects.
Context {V : Type}.

Definition Obj := list (string * V).

Fixpoint get (k : string) (o : Obj) : option V :=
  match o with
  | [] => None
  | (k', v) :: r => if (k' =? k)%string then Some v else get k r
  end.

(** [o[k] = v] when [k] is not yet an own key. *)
Definition define (k : string) (v : V) (o : Obj) : Obj := (o ++ [(k, v)])%list.

(** In-place update of the value stored under [k]. *)
Fixpoint modify (k : string) (f : V -> V) (o : Obj) : Obj :=
  match o with
  | [] => []
  | (k', v) :: r =>
      if (k' =? k)%string then (k', f v) :: r else (k', v) :: modify k f r
  end.

Fixpoint insert_index (e : Z * (string * V)) (l : list (Z * (string * V)))
  : list (Z * (string * V)) :=
  match l with
  | [] => [e]
  | e' :: r => if fst e <=? fst e' then e :: l else e' :: insert_index e r
  end.

Fixpoint split_keys (o : Obj) : list (Z * (string * V)) * Obj :=
  match o with
  | [] => ([], [])
  | (k, v) :: r =>
      let (ix, named) := split_keys r in
      match arrayIndex k with
      | Some n => (insert_index (n, (k, v)) ix, named)
      | None => (ix, (k, v) :: named)
      end
  end.

(** Own enumerable string keys: array indices ascending, then the other
    keys in insertion order. *)
Definition Object_entries (o : Obj) : list (string * V) :=
  let (ix, named) := split_keys o in (map snd ix ++ named)%list.

Definition Object_values (o : Obj) : list V := map snd (Object_entries o).

End Objects.

Section Arrays.
Context {A : Type}.

Fixpoint insert_sorted (cmp : A -> A -> Z) (x : A) (l : list A) : list A :=
  match l with
  | [] => [x]
  | y :: r => if cmp x y <=? 0 then x :: l else y :: insert_sorted cmp x r
  end.

(** [arr.sort(cmp)]: a stable sort. *)
Fixpoint sort (cmp : A -> A -> Z) (l : list A) : list A :=
  match l with
  | [] => []
  | x :: r => insert_sorted cmp x (sort cmp r)
  end.

End Arrays.

Definition includes (l : list string) (s : string) : bool :=
  existsb (fun x => (x =? s)%string) l.

(** [o[k] = v] on own properties: the value of an own key is replaced in
    place, a new key comes last. *)
Definition Object_set {V : Type} (k : string) (v : V) (o : @Obj V) : @Obj V :=
  match get k o with
  | Some _ => modify k (fun _ => v) o
  | None => define k v o
  end.

(** [o[k] = v] on a plain object, for a [v] that is not an object: the
    setter of the accessor [__proto__] ignores such a value; under any
    other key the value becomes, or replaces, an own property. *)
Definition write {V : Type} (k : string) (v : V) (o : @Obj V) : @Obj V :=
  if (k =? "__proto__")%string then o else Object_set k v o.

(** A running total: a number, or the string that [+=] leaves once one
    of its operands was not a number. *)
Inductive Value :=
| VNumber (f : float)
| VString (s : string).

Definition truthyValue (v : Value) : bool :=
  match v with
  | VNumber f => negb (falsy f)
  | VString s => negb (s =? "")%string
  end.

(** The functions a plain object inherits from [Object.prototype]. *)
Definition prototypeMethods : list string :=
  ["constructor"; "__defineGetter__"; "__defineSetter__"; "hasOwnProperty";
   "__lookupGetter__"; "__lookupSetter__"; "isPrototypeOf";
   "propertyIsEnumerable"; "toString"; "valueOf"; "toLocaleString"].

(** What [o[k]] reads on a plain object: an own property, else what the
    prototype chain gives. *)
Inductive Slot :=
| Own (v : Value)
| Method
| Prototype
| Undefined.

Definition read (k : string) (o : @Obj Value) : Slot :=
  match get k o with
  | Some v => Own v
  | None =>
      if (k =? "__proto__")%string then Prototype
      else if includes prototypeMethods k then Method
      else Undefined
  end.

(** A key that an empty plain object reads as [undefined]. *)
Definition plainKey (k : string) : bool :=
  negb (k =? "__proto__")%string && negb (includes prototypeMethods k).

(** Functions and objects are truthy, [undefined] is not. *)
Definition truthySlot (s : Slot) : bool :=
  match s with
  | Own v => truthyValue v
  | Method | Prototype => true
  | Undefined => false
  end.

(** [Array.from(new Set(l))]: first occurrences, in order. *)
Fixpoint unique_from (seen : list string) (l : list string) : list string :=
  match l with
  | [] => []
  | x :: r =>
      if includes seen x then unique_from seen r
      else x :: unique_from (x :: seen) r
  end.

Definition unique (l : list string) : list string := unique_from [] l.

End JS.

(** ** The dayjs operations the page calls *)

Module Dayjs.

(** A valid instant: civil local date ([month] counts from 0 as in
    JavaScript) and the milliseconds elapsed since local midnight. *)
Record Civil := mkCivil { year : Z; month : Z; date : Z; time : Z }.

(** A dayjs object; [None] is the object wrapping an invalid date. *)
Definition t := option Civil.

Definition msPerDay : Z := 86400000.

Definition isLeapYear (y : Z) : bool :=
  (y mod 4 =? 0) && (negb (y mod 100 =? 0) || (y mod 400 =? 0)).

Definition daysInMonth (y m : Z) : Z :=
  match m with
  | 1 => if isLeapYear y then 29 else 28
  | 3 | 5 | 8 | 10 => 30
  | _ => 31
  end.

Definition wf (c : Civil) : Prop :=
  0 <= month c < 12 /\ 1 <= date c <= daysInMonth (year c) (month c)
  /\ 0 <= time c < msPerDay.

(** A day of the calendar, whatever the time of day. *)
Definition calendarDay (c : Civil) : Prop :=
  0 <= month c < 12 /\ 1 <= date c <= daysInMonth (year c) (month c).

Definition monthShift (m : Z) : Z :=
  match m with
  | 0 => 0 | 1 => 3 | 2 => 2 | 3 => 5 | 4 => 0 | 5 => 3
  | 6 => 5 | 7 => 1 | 8 => 4 | 9 => 6 | 10 => 2 | _ => 4
  end.

(** The day of the week of a calendar date, 0 for Sunday. *)
Definition dayOfWeek (y m d : Z) : Z :=
  let y' := if m <? 2 then y - 1 else y in
  (y' + y' / 4 - y' / 100 + y' / 400 + monthShift m + d) mod 7.

(** [getDay()] *)
Definition getDay (c : Civil) : Z := dayOfWeek (year c) (month c) (date c).

Definition nextDay (c : Civil) : Civil :=
  if date c <? daysInMonth (year c) (month c)
  then mkCivil (year c) (month c) (date c + 1) (time c)
  else if month c <? 11
       then mkCivil (year c) (month c + 1) 1 (time c)
       else mkCivil (year c + 1) 0 1 (time c).

Definition prevDay (c : Civil) : Civil :=
  if 1 <? date c
  then mkCivil (year c) (month c) (date c - 1) (time c)
  else if 0 <? month c
       then mkCivil (year c) (month c - 1)
                    (daysInMonth (year c) (month c - 1)) (time c)
       else mkCivil (year c - 1) 11 31 (time c).

Definition addDays (n : Z) (c : Civil) : Civil :=
  if 0 <=? n then Nat.iter (Z.to_nat n) nextDay c
  else Nat.iter (Z.to_nat (- n)) prevDay c.

(** A day number counted within month [m] of year [y]: months and days out
    of range carry into the neighbouring months and years. *)
Definition carryDate (y m d ms : Z) : Civil :=
  addDays (d - 1) (mkCivil (y + m / 12) (m mod 12) 1 ms).

(** The Date constructor reads the years 0 to 99 as 1900 to 1999. *)
Definition fullYear (y : Z) : Z :=
  if (0 <=? y) && (y <=? 99) then 1900 + y else y.

(** The day number of 1 January of year [y], counted from 1 January 1970
    (DayFromYear of ECMAScript). *)
Definition dayFromYear (y : Z) : Z :=
  365 * (y - 1970) + (y - 1969) / 4 - (y - 1901) / 100 + (y - 1601) / 400.

(** The days of year [y] that precede its month [m]. *)
Definition daysBeforeMonth (y m : Z) : Z :=
  match m with
  | 0 => 0 | 1 => 31 | 2 => 59 | 3 => 90 | 4 => 120 | 5 => 151
  | 6 => 181 | 7 => 212 | 8 => 243 | 9 => 273 | 10 => 304 | _ => 334
  end + (if isLeapYear y && (2 <=? m) then 1 else 0).

(** The time value of a date: its milliseconds since 1 January 1970. *)
Definition timeValue (c : Civil) : Z :=
  (dayFromYear (year c) + daysBeforeMonth (year c) (month c) + (date c - 1))
  * msPerDay + time c.

(** The largest time value of a Date: 100,000,000 days. *)
Definition maxTime : Z := 8640000000000000.

Definition inRange (c : Civil) : bool :=
  (- maxTime <=? timeValue c) && (timeValue c <=? maxTime).

(** TimeClip: a time value out of range makes the date invalid. *)
Definition timeClip (c : Civil) : t := if inRange c then Some c else None.

(** [new Date(y, m, d)], local midnight of the day. *)
Definition newDate (y m d : Z) : t := timeClip (carryDate (fullYear y) m d 0).

(** [setDate(d)] on the date of [c]. *)
Definition setDate (c : Civil) (d : Z) : t :=
  timeClip (carryDate (year c) (month c) d (time c)).

(** Comparison of the underlying time values. *)
Definition ltb (a b : Civil) : bool :=
  (year a <? year b)
  || ((year a =? year b)
      && ((month a <? month b)
          || ((month a =? month b)
              && ((date a <? date b)
                  || ((date a =? date b) && (time a <? time b)))))).

Definition leb (a b : Civil) : bool := negb (ltb b a).

Definition isValid (d : t) : bool :=
  match d with Some _ => true | None => false end.

Definition startOfDay (c : Civil) : Civil :=
  mkCivil (year c) (month c) (date c) 0.

Definition endOfDay (c : Civil) : Civil :=
  mkCivil (year c) (month c) (date c) (msPerDay - 1).

(** [.startOf('day')] and [.endOf('day')]: [setHours] on a copy of the
    date. *)
Definition startOf_day (d : t) : t :=
  match d with
  | Some c => timeClip (startOfDay c)
  | None => None
  end.

Definition endOf_day (d : t) : t :=
  match d with
  | Some c => timeClip (endOfDay c)
  | None => None
  end.

(** [.startOf('month')] *)
Definition startOf_month (d : t) : t :=
  match d with
  | Some c => newDate (year c) (month c) 1
  | None => None
  end.

(** [.endOf('month')]: day 0 of the following month, then the end of that
    day. *)
Definition endOf_month (d : t) : t :=
  match d with
  | Some c => endOf_day (newDate (year c) (month c + 1) 0)
  | None => None
  end.

(** [.endOf('week')] with the default locale, whose weeks start on Sunday:
    the Saturday of the week, then the end of that day. *)
Definition endOf_week (d : t) : t :=
  match d with
  | Some c => endOf_day (newDate (year c) (month c) (date c + (6 - getDay c)))
  | None => None
  end.

(** [.add(n, 'day')] and [.subtract(n, 'day')]: the time of day is kept. *)
Definition add_day (n : Z) (d : t) : t :=
  match d with
  | Some c => setDate c (date c + n)
  | None => None
  end.

Definition subtract_day (n : Z) (d : t) : t := add_day (- n) d.

(** [a.isBefore(b)], [a.isAfter(b)], [a.isSame(b, 'day')]; every
    comparison that involves an invalid date is false. *)
Definition isBefore (a b : t) : bool :=
  match a, b with
  | Some x, Some y => ltb x y
  | _, _ => false
  end.

Definition isAfter (a b : t) : bool :=
  match a, b with
  | Some x, Some y => ltb y x
  | _, _ => false
  end.

Definition isSame_day (a b : t) : bool :=
  match startOf_day a, endOf_day a, b with
  | Some s, Some e, Some y => leb s y && leb y e
  | _, _, _ => false
  end.

Definition monthNames : list string :=
  ["January"; "February"; "March"; "April"; "May"; "June"; "July";
   "August"; "September"; "October"; "November"; "December"].

Definition YYYY (c : Civil) : string :=
  JS.padStart 4 "0" (JS.string_of_Z (year c)).

Definition MM (c : Civil) : string :=
  JS.padStart 2 "0" (JS.string_of_Z (month c + 1)).

Definition DD (c : Civil) : string :=
  JS.padStart 2 "0" (JS.string_of_Z (date c)).

Definition MMMM (c : Civil) : string :=
  nth (Z.to_nat (month c)) monthNames "".

Definition invalidDateString : string := "Invalid Date".

(** [.format('YYYY-MM-DD')], [.format('MMMM')], [.format('YYYY')] *)
Definition format_YYYY_MM_DD (d : t) : string :=
  match d with
  | Some c => YYYY c ++ "-" ++ MM c ++ "-" ++ DD c
  | None => invalidDateString
  end.

Definition format_MMMM (d : t) : string :=
  match d with Some c => MMMM c | None => invalidDateString end.

Definition format_YYYY (d : t) : string :=
  match d with Some c => YYYY c | None => invalidDateString end.

End Dayjs.

(** ** What the page takes from its runtime *)

Record Env := mkEnv {
  (** [Number(s)] on a string *)
  Number : string -> float;
  (** [String(n)] on a number *)
  numberText : float -> string;
  (** [String(f)] on the built-in function that [Object.prototype] holds
      under a name *)
  functionText : string -> string;
  (** [dayjs(s)] on a string *)
  dayjs : string -> Dayjs.t;
  (** [dayjs()], the instant at which the filter effect runs *)
  now : Dayjs.Civil;
  (** [a.localeCompare(b)] *)
  localeCompare : string -> string -> Z
}.

(** ** Data model *)

Module RawRow.
Record t := mk {
  Date : option string;
  Sales : option string;
  SalesPerson : option string;
  Client : option string;
  Revenue : option string;
  State : option string
}.
End RawRow.

Module AggregatedRow.
Record t := mk {
  Date : string;
  SalesCount : Z;
  Revenue : float;
  Clients : list string;
  Month : string;
  Year : string
}.
End AggregatedRow.

Module WeekRange.
Record t := mk { start : string; end_ : string }.
End WeekRange.

Module PersonTotal.
(** The revenue is typed as a number; at run time it is what [personMap]
    holds. *)
Record t := mk { name : string; revenue : JS.Value }.
End PersonTotal.

(** ** The page: [getWeeksOfMonth], [fetchData] and the filter effect *)

Inductive FilterMode := Daily | Weekly | Monthly | AllData.

Inductive ChartKind := SalesChart | RevenueChart | PersonChart.

Module PageState.
Record t := mk {
  data : list AggregatedRow.t;
  filteredData : list AggregatedRow.t;
  salesByPerson : list PersonTotal.t;
  filter : FilterMode;
  selectedMonth : string;
  availableMonths : list string;
  showWeekPicker : bool;
  selectedWeek : option WeekRange.t;
  selectedChart : ChartKind;
  selectedYear : string
}.
End PageState.

(** What a click or a selection does to the page. *)
Inductive UiEvent :=
| ClickToday
| ClickThisWeek
| ClickThisMonth
| ClickAllData
| SelectMonth (m : string)
| PickWeek (i : nat)
| CancelWeekPicker
| SelectChart (c : ChartKind)
| SelectYear (y : string).

Section Page.
Context (env : Env).

(** *** [getWeeksOfMonth] *)

Definition formatRange (weekStart weekEnd : Dayjs.t) : WeekRange.t :=
  WeekRange.mk (Dayjs.format_YYYY_MM_DD weekStart)
               (Dayjs.format_YYYY_MM_DD weekEnd).

(** The [while] loop; [fuel] bounds the number of iterations and [None]
    means that the bound was reached. *)
Fixpoint weeksLoop (fuel : nat) (endOfMonth current : Dayjs.t)
  : option (list WeekRange.t) :=
  if Dayjs.isBefore current endOfMonth || Dayjs.isSame_day current endOfMonth
  then
    match fuel with
    | O => None
    | S fuel' =>
        let weekStart := current in
        let weekEnd := Dayjs.endOf_week weekStart in
        let weekEnd :=
          if Dayjs.isAfter weekEnd endOfMonth then endOfMonth else weekEnd in
        option_map (cons (formatRange weekStart weekEnd))
                   (weeksLoop fuel' endOfMonth (Dayjs.add_day 1 weekEnd))
    end
  else Some [].

(** The string handed to dayjs: [`${monthName} 1, ${year}`]. *)
Definition monthStartText (monthYear : string) : string :=
  let parts := JS.split_space monthYear in
  let monthName := nth 0 parts "undefined" in
  let year := nth 1 parts "undefined" in
  monthName ++ " 1, " ++ year.

Definition getWeeksOfMonth (fuel : nat) (monthYear : string)
  : option (list WeekRange.t) :=
  let startOfMonth := Dayjs.startOf_month (dayjs env (monthStartText monthYear)) in
  let endOfMonth := Dayjs.endOf_month startOfMonth in
  weeksLoop fuel endOfMonth startOfMonth.

(** *** [fetchData]: from sheet rows to aggregates *)

Definition validRow (r : RawRow.t) : bool :=
  JS.truthy (RawRow.Date r) && JS.truthy (RawRow.Revenue r).

Definition validRows (sheetData : list RawRow.t) : list RawRow.t :=
  List.filter validRow sheetData.

(** [dayjs(row.Date)]; without an argument dayjs gives the current instant. *)
Definition dateObj (row : RawRow.t) : Dayjs.t :=
  match RawRow.Date row with
  | Some s => dayjs env s
  | None => Some (now env)
  end.

Definition dateKey (row : RawRow.t) : string :=
  if Dayjs.isValid (dateObj row)
  then Dayjs.format_YYYY_MM_DD (dateObj row) else "Unknown".

Definition monthOf (row : RawRow.t) : string :=
  if Dayjs.isValid (dateObj row)
  then Dayjs.format_MMMM (dateObj row) else "Unknown".

Definition yearOf (row : RawRow.t) : string :=
  if Dayjs.isValid (dateObj row)
  then Dayjs.format_YYYY (dateObj row) else "Unknown".

(** [Number(row.Revenue) || 0] *)
Definition revenueOf (row : RawRow.t) : float :=
  JS.orZero (match RawRow.Revenue row with
             | Some s => Number env s
             | None => PrimFloat.nan
             end).

Definition newEntry (row : RawRow.t) : AggregatedRow.t :=
  AggregatedRow.mk (dateKey row) 0 0%float [] (monthOf row) (yearOf row).

Definition pushClient (row : RawRow.t) (clients : list string) : list string :=
  match RawRow.Client row with
  | Some c =>
      if negb (c =? "")%string && negb (JS.includes clients c)
      then (clients ++ [c])%list else clients
  | None => clients
  end.

(** The three updates of [dailyMap[date]] made for one row. *)
Definition addSale (row : RawRow.t) (a : AggregatedRow.t) : AggregatedRow.t :=
  AggregatedRow.mk
    (AggregatedRow.Date a)
    (AggregatedRow.SalesCount a + 1)
    (AggregatedRow.Revenue a + revenueOf row)%float
    (pushClient row (AggregatedRow.Clients a))
    (AggregatedRow.Month a)
    (AggregatedRow.Year a).

Definition dailyStep (dailyMap : @JS.Obj AggregatedRow.t) (row : RawRow.t)
  : @JS.Obj AggregatedRow.t :=
  let date := dateKey row in
  let dailyMap :=
    match JS.get date dailyMap with
    | None => JS.define date (newEntry row) dailyMap
    | Some _ => dailyMap
    end in
  JS.modify date (addSale row) dailyMap.

(** [personMap[person] + n] for a number [n]: numbers add; a string, or an
    object or function turned into its text, is joined with the text of
    [n]. *)
Definition plusNumber (person : string) (s : JS.Slot) (n : float) : JS.Value :=
  match s with
  | JS.Own (JS.VNumber f) => JS.VNumber (f + n)
  | JS.Own (JS.VString text) => JS.VString (text ++ numberText env n)
  | JS.Method => JS.VString (functionText env person ++ numberText env n)
  | JS.Prototype => JS.VString ("[object Object]" ++ numberText env n)
  | JS.Undefined => JS.VNumber (PrimFloat.nan + n)
  end.

Definition personStep (personMap : @JS.Obj JS.Value) (row : RawRow.t)
  : @JS.Obj JS.Value :=
  let person := JS.orElse (RawRow.SalesPerson row) "Unknown" in
  let personMap :=
    if JS.truthySlot (JS.read person personMap) then personMap
    else JS.write person (JS.VNumber 0) personMap in
  JS.write person
    (plusNumber person (JS.read person personMap) (revenueOf row)) personMap.

Definition dailyMap (sheetData : list RawRow.t) : @JS.Obj AggregatedRow.t :=
  fold_left dailyStep (validRows sheetData) [].

Definition personMap (sheetData : list RawRow.t) : @JS.Obj JS.Value :=
  fold_left personStep (validRows sheetData) [].

Definition byDate (a b : AggregatedRow.t) : Z :=
  localeCompare env (AggregatedRow.Date a) (AggregatedRow.Date b).

Definition aggregated (sheetData : list RawRow.t) : list AggregatedRow.t :=
  JS.sort byDate (JS.Object_values (dailyMap sheetData)).

Definition personArray (sheetData : list RawRow.t) : list PersonTotal.t :=
  map (fun e => PersonTotal.mk (fst e) (snd e))
      (JS.Object_entries (personMap sheetData)).

Definition monthLabel (r : AggregatedRow.t) : string :=
  AggregatedRow.Month r ++ " " ++ AggregatedRow.Year r.

Definition uniqueMonths (sheetData : list RawRow.t) : list string :=
  JS.unique (map monthLabel (aggregated sheetData)).

(** The four state updates at the end of [fetchData]. *)
Definition fetched (sheetData : list RawRow.t) (st : PageState.t) : PageState.t :=
  PageState.mk
    (aggregated sheetData) (aggregated sheetData) (personArray sheetData)
    (PageState.filter st) (PageState.selectedMonth st)
    (uniqueMonths sheetData)
    (PageState.showWeekPicker st) (PageState.selectedWeek st)
    (PageState.selectedChart st) (PageState.selectedYear st).

(** *** The filter effect *)

Definition itemDate (item : AggregatedRow.t) : Dayjs.t :=
  dayjs env (AggregatedRow.Date item).

Definition applyFilters (filter : FilterMode) (selectedMonth : string)
    (selectedWeek : option WeekRange.t) (data : list AggregatedRow.t)
  : list AggregatedRow.t :=
  let filtered :=
    match filter with
    | Daily =>
        List.filter
          (fun item => Dayjs.isSame_day (itemDate item) (Some (now env))) data
    | Weekly =>
        match selectedWeek, (selectedMonth =? "all")%string with
        | Some week, false =>
            let start := dayjs env (WeekRange.start week) in
            let end_ := dayjs env (WeekRange.end_ week) in
            List.filter
              (fun item =>
                 let d := itemDate item in
                 negb (Dayjs.isBefore d start) && negb (Dayjs.isAfter d end_))
              data
        | _, _ =>
            List.filter
              (fun item =>
                 Dayjs.isAfter (itemDate item)
                               (Dayjs.subtract_day 7 (Some (now env)))) data
        end
    | Monthly =>
        List.filter
          (fun item =>
             Dayjs.isAfter (itemDate item)
                           (Dayjs.subtract_day 30 (Some (now env)))) data
    | AllData => data
    end in
  if negb (selectedMonth =? "all")%string
     && negb (match filter with Weekly => true | _ => false end)
  then List.filter (fun r => (monthLabel r =? selectedMonth)%string) filtered
  else filtered.

Definition setFilteredData (l : list AggregatedRow.t) (st : PageState.t)
  : PageState.t :=
  PageState.mk
    (PageState.data st) l (PageState.salesByPerson st)
    (PageState.filter st) (PageState.selectedMonth st)
    (PageState.availableMonths st)
    (PageState.showWeekPicker st) (PageState.selectedWeek st)
    (PageState.selectedChart st) (PageState.selectedYear st).

(** The effect on [filter, data, selectedMonth, selectedWeek]; with no data
    it returns before touching [filteredData]. *)
Definition filterEffect (st : PageState.t) : PageState.t :=
  match PageState.data st with
  | [] => st
  | _ :: _ =>
      setFilteredData
        (applyFilters (PageState.filter st) (PageState.selectedMonth st)
                      (PageState.selectedWeek st) (PageState.data st)) st
  end.

(** *** Event handlers *)

Definition setFilter (f : FilterMode) (st : PageState.t) : PageState.t :=
  PageState.mk
    (PageState.data st) (PageState.filteredData st) (PageState.salesByPerson st)
    f (PageState.selectedMonth st) (PageState.availableMonths st)
    (PageState.showWeekPicker st) (PageState.selectedWeek st)
    (PageState.selectedChart st) (PageState.selectedYear st).

Definition setSelectedMonth (m : string) (st : PageState.t) : PageState.t :=
  PageState.mk
    (PageState.data st) (PageState.filteredData st) (PageState.salesByPerson st)
    (PageState.filter st) m (PageState.availableMonths st)
    (PageState.showWeekPicker st) (PageState.selectedWeek st)
    (PageState.selectedChart st) (PageState.selectedYear st).

Definition setShowWeekPicker (b : bool) (st : PageState.t) : PageState.t :=
  PageState.mk
    (PageState.data st) (PageState.filteredData st) (PageState.salesByPerson st)
    (PageState.filter st) (PageState.selectedMonth st)
    (PageState.availableMonths st) b (PageState.selectedWeek st)
    (PageState.selectedChart st) (PageState.selectedYear st).

Definition setSelectedWeek (w : option WeekRange.t) (st : PageState.t)
  : PageState.t :=
  PageState.mk
    (PageState.data st) (PageState.filteredData st) (PageState.salesByPerson st)
    (PageState.filter st) (PageState.selectedMonth st)
    (PageState.availableMonths st) (PageState.showWeekPicker st) w
    (PageState.selectedChart st) (PageState.selectedYear st).

Definition setSelectedChart (c : ChartKind) (st : PageState.t) : PageState.t :=
  PageState.mk
    (PageState.data st) (PageState.filteredData st) (PageState.salesByPerson st)
    (PageState.filter st) (PageState.selectedMonth st)
    (PageState.availableMonths st) (PageState.showWeekPicker st)
    (PageState.selectedWeek st) c (PageState.selectedYear st).

Definition setSelectedYear (y : string) (st : PageState.t) : PageState.t :=
  PageState.mk
    (PageState.data st) (PageState.filteredData st) (PageState.salesByPerson st)
    (PageState.filter st) (PageState.selectedMonth st)
    (PageState.availableMonths st) (PageState.showWeekPicker st)
    (PageState.selectedWeek st) (PageState.selectedChart st) y.

(** The week buttons of the picker; a month has at most 31 weeks. *)
Definition weeks (st : PageState.t) : list WeekRange.t :=
  if (PageState.selectedMonth st =? "all")%string then []
  else match getWeeksOfMonth 31 (PageState.selectedMonth st) with
       | Some ws => ws
       | None => []
       end.

Definition handle (e : UiEvent) (st : PageState.t) : PageState.t :=
  match e with
  | ClickToday => setSelectedWeek None (setFilter Daily st)
  | ClickThisWeek =>
      let st' := setFilter Weekly st in
      if negb (PageState.selectedMonth st =? "all")%string
      then setShowWeekPicker true st'
      else setSelectedWeek None st'
  | ClickThisMonth => setSelectedWeek None (setFilter Monthly st)
  | ClickAllData => setSelectedWeek None (setFilter AllData st)
  | SelectMonth m => setSelectedMonth m st
  | PickWeek i =>
      if PageState.showWeekPicker st
         && negb (PageState.selectedMonth st =? "all")%string
      then match nth_error (weeks st) i with
           | Some week => setShowWeekPicker false (setSelectedWeek (Some week) st)
           | None => st
           end
      else st
  | CancelWeekPicker => setShowWeekPicker false st
  | SelectChart c => setSelectedChart c st
  | SelectYear y => setSelectedYear y st
  end.

(** The effect on [selectedMonth]: a change of month clears the week. *)
Definition monthEffect (before st : PageState.t) : PageState.t :=
  if (PageState.selectedMonth before =? PageState.selectedMonth st)%string
  then st else setSelectedWeek None st.

(** The page once the handler of [e] and the effects it triggers have run. *)
Definition onUi (st : PageState.t) (e : UiEvent) : PageState.t :=
  filterEffect (monthEffect st (handle e st)).

(** The page once a poll has delivered [sheetData]. *)
Definition onFetch (sheetData : list RawRow.t) (st : PageState.t) : PageState.t :=
  filterEffect (fetched sheetData st).

(** *** Derived views *)

(** [l.reduce((sum, r) => sum + r.SalesCount, 0)] and its two siblings. *)
Definition sumSalesCount (l : list AggregatedRow.t) : Z :=
  fold_left (fun sum r => sum + AggregatedRow.SalesCount r) l 0.

Definition sumRevenue (l : list AggregatedRow.t) : float :=
  fold_left (fun sum r => (sum + AggregatedRow.Revenue r)%float) l 0%float.

Definition sumClients (l : list AggregatedRow.t) : Z :=
  fold_left (fun sum r => sum + Z.of_nat (List.length (AggregatedRow.Clients r)))
            l 0.

Definition totalSales (st : PageState.t) : Z :=
  sumSalesCount (PageState.filteredData st).

Definition totalRevenue (st : PageState.t) : float :=
  sumRevenue (PageState.filteredData st).

Definition totalClients (st : PageState.t) : Z :=
  sumClients (PageState.filteredData st).

(** The data handed to the bar chart and to the pie chart. *)
Definition salesSeries (st : PageState.t) : list AggregatedRow.t :=
  PageState.filteredData st.

Definition personSeries (st : PageState.t) : list PersonTotal.t :=
  PageState.salesByPerson st.

End Page.

(** The page as first rendered. *)
Definition initialState : PageState.t :=
  PageState.mk [] [] [] AllData "all" [] false None SalesChart "all".

(** ** A sample runtime

    The values below are those the JavaScript runtime and dayjs return for
    the listed strings; every other string is left unreadable, since the
    examples do not use it. *)

Module Sample.

Definition numbers : @JS.Obj float :=
  [("0", 0%float); ("50", 50%float); ("75", 75%float); ("100", 100%float);
   ("0.1", 0.1%float); ("0.2", 0.2%float); ("0.3", 0.3%float)].

Definition Number (s : string) : float :=
  match JS.get s numbers with
  | Some f => f
  | None => PrimFloat.nan
  end.

(** [String(n)] for the revenues of the examples. *)
Definition texts : list (float * string) :=
  [(0%float, "0"); (50%float, "50"); (75%float, "75"); (100%float, "100")].

Definition numberText (f : float) : string :=
  match find (fun e => PrimFloat.eqb (fst e) f) texts with
  | Some e => snd e
  | None => ""
  end.

(** The text of a built-in function, as V8 prints it; [constructor] is the
    function [Object]. *)
Definition functionText (name : string) : string :=
  "function "
  ++ (if (name =? "constructor")%string then "Object" else name)
  ++ "() { [native code] }".

Definition midnight (y m d : Z) : Dayjs.t := Some (Dayjs.mkCivil y m d 0).

Definition dates : @JS.Obj Dayjs.t :=
  [("2024-04-01", midnight 2024 3 1); ("2024-04-02", midnight 2024 3 2);
   ("2024-04-03", midnight 2024 3 3); ("2024-04-06", midnight 2024 3 6);
   ("2024-04-07", midnight 2024 3 7); ("2024-04-20", midnight 2024 3 20);
   ("April 1, 2024", midnight 2024 3 1); ("June 1, 2024", midnight 2024 5 1);
   ("February 1, 2026", midnight 2026 1 1);
   ("+010000-01-01T12:00:00", Some (Dayjs.mkCivil 10000 0 1 43200000));
   ("September 1, 275760", midnight 275760 8 1)].

Definition dayjs (s : string) : Dayjs.t :=
  match JS.get s dates with
  | Some d => d
  | None => None
  end.

(** Comparison by character codes. *)
Definition localeCompare (a b : string) : Z :=
  match String.compare a b with
  | Lt => -1
  | Eq => 0
  | Gt => 1
  end.

(** The clock reads 10 April 2024, noon. *)
Definition env : Env :=
  mkEnv Number numberText functionText dayjs
        (Dayjs.mkCivil 2024 3 10 43200000) localeCompare.

Definition row (date revenue client : string) : RawRow.t :=
  RawRow.mk (Some date) None None (Some client) (Some revenue) None.

(** A runtime whose clock reads noon of 5 May -271821, fifteen days after
    the first date, 20 April -271821; it reads one text, as 1 May. *)
Definition dawn : Env :=
  mkEnv Number numberText functionText
        (fun s => if (s =? "-271821-05-01T12:00:00")%string
                  then Some (Dayjs.mkCivil (-271821) 4 1 43200000) else None)
        (Dayjs.mkCivil (-271821) 4 5 43200000) localeCompare.

(** A runtime whose clock reads the last date, 13 September 275760, 00:00;
    it reads one text, as that same instant. *)
Definition dusk : Env :=
  mkEnv Number numberText functionText
        (fun s => if (s =? "+275760-09-13T00:00:00")%string
                  then Some (Dayjs.mkCivil 275760 8 13 0) else None)
        (Dayjs.mkCivil 275760 8 13 0) localeCompare.

End Sample.

(** ** Vocabulary of the specification *)

Definition Zsum (l : list Z) : Z := fold_right Z.add 0 l.

Section Vocabulary.
Context (env : Env).

(** The valid rows of one date, in sheet order. *)
Definition rowsOn (l : list RawRow.t) (date : string) : list RawRow.t :=
  List.filter (fun r => (dateKey env r =? date)%string) l.

Definition bucket (sheetData : list RawRow.t) (date : string) : list RawRow.t :=
  rowsOn (validRows sheetData) date.

(** The parsed revenue values of a list of rows, added from 0 in order. *)
Definition parsedRevenueSum (l : list RawRow.t) : float :=
  fold_left (fun sum r => (sum + revenueOf env r)%float) l 0%float.

(** The aggregate a non-empty list of rows of one date folds into. *)
Definition bucketAggregate (b : list RawRow.t) : option AggregatedRow.t :=
  match b with
  | [] => None
  | r0 :: _ => Some (fold_left (fun a r => addSale env r a) b (newEntry env r0))
  end.

End Vocabulary.

(** A field that is absent or empty. *)
Definition lacks (o : option string) : Prop := o = None \/ o = Some "".

(** Sheets used in the examples. *)
Module Sheet.

(** Revenues 0.1, 0.2 and 0.3, the last two on the same date. *)
Definition lateGroup : list RawRow.t :=
  [Sample.row "2024-04-01" "0.1" "A"; Sample.row "2024-04-02" "0.2" "B";
   Sample.row "2024-04-02" "0.3" "C"].

(** The same revenues in the same order, the first two on the same date. *)
Definition earlyGroup : list RawRow.t :=
  [Sample.row "2024-04-01" "0.1" "A"; Sample.row "2024-04-01" "0.2" "B";
   Sample.row "2024-04-02" "0.3" "C"].

(** The scenario of the specification. *)
Definition scenario : list RawRow.t :=
  [Sample.row "2024-04-01" "100" "A"; Sample.row "2024-04-01" "50" "A";
   Sample.row "2024-04-02" "75" "B"].

Definition noRevenue : RawRow.t :=
  RawRow.mk (Some "2024-04-01") None None (Some "A") None None.

Definition notNumeric : RawRow.t := Sample.row "2024-04-03" "abc" "C".

Definition zeroRevenue : RawRow.t := Sample.row "2024-04-03" "0" "C".

(** A sale of 1 April 2024 by a named salesperson. *)
Definition soldBy (person revenue : string) : RawRow.t :=
  RawRow.mk (Some "2024-04-01") None (Some person) None (Some revenue) None.

(** An aggregate of April 2024 with one sale. *)
Definition dated (date : string) : AggregatedRow.t :=
  AggregatedRow.mk date 1 100%float ["A"] "April" "2024".

(** The aggregate of the rows whose date dayjs cannot read. *)
Definition unknown : AggregatedRow.t :=
  AggregatedRow.mk "Unknown" 1 0%float ["B"] "Unknown" "Unknown".

(** The first week of April 2024 that [getWeeksOfMonth] offers. *)
Definition firstWeek : WeekRange.t := WeekRange.mk "2024-04-01" "2024-04-06".

End Sheet.

(** Day spans inside one month, as pairs of days of the month. *)

(** [Chain a b l]: the spans of [l] follow one another from day [a] to
    day [b], each starting the day after the previous one ends. *)
Inductive Chain : Z -> Z -> list (Z * Z) -> Prop :=
| chain_last a b : a <= b -> Chain a b [(a, b)]
| chain_next a e b l : a <= e -> Chain (e + 1) b l -> Chain a b ((a, e) :: l).

(** [WeekSpans dow L c l]: what the loop of [getWeeksOfMonth] produces from
    day [c] of a month of [L] days, [dow] giving the day of the week. *)
Inductive WeekSpans (dow : Z -> Z) (L : Z) : Z -> list (Z * Z) -> Prop :=
| spans_done c : L < c -> WeekSpans dow L c []
| spans_week c l :
    c <= L ->
    WeekSpans dow L (Z.min (c + (6 - dow c)) L + 1) l ->
    WeekSpans dow L c ((c, Z.min (c + (6 - dow c)) L) :: l).

(** The range of the days [fst span] to [snd span] of month [m] of [y]. *)
Definition dayRange (y m : Z) (span : Z * Z) : WeekRange.t :=
  WeekRange.mk
    (Dayjs.format_YYYY_MM_DD (Some (Dayjs.mkCivil y m (fst span) 0)))
    (Dayjs.format_YYYY_MM_DD (Some (Dayjs.mkCivil y m (snd span) 0))).

(** The number of days of a span. *)
Definition spanDays (span : Z * Z) : Z := snd span - fst span + 1.

Definition monthIndex (c : Dayjs.Civil) : Z := 12 * Dayjs.year c + Dayjs.month c.

(** The last millisecond of month [m] of year [y]. *)
Definition monthEnd (y m : Z) : Dayjs.t :=
  Some (Dayjs.mkCivil y m (Dayjs.daysInMonth y m) (Dayjs.msPerDay - 1)).

(** "Only the final range may span fewer than 7 days": every range that
    has a range after it spans 7 days. *)
Definition onlyFinalShort (spans : list (Z * Z)) : Prop :=
  forall l1 sp l2,
    spans = (l1 ++ sp :: l2)%list -> l2 <> [] -> spanDays sp = 7.

Section PageVocabulary.
Context (env : Env).

(** The instant [n] days before the filter effect runs. *)
Definition daysAgo (n : Z) : Dayjs.t := Dayjs.subtract_day n (Some (now env)).

(** An aggregate dated after the instant [n] days ago. *)
Definition laterThanDaysAgo (n : Z) (item : AggregatedRow.t) : bool :=
  Dayjs.isAfter (itemDate env item) (daysAgo n).

(** "Within the trailing [n]-day window ending now": dated after the
    instant [n] days ago and not after now. *)
Definition withinTrailingDays (n : Z) (item : AggregatedRow.t) : bool :=
  laterThanDaysAgo n item
  && negb (Dayjs.isAfter (itemDate env item) (Some (now env))).

(** The states the page can be in. *)
Inductive Reachable : PageState.t -> Prop :=
| reach_initial : Reachable initialState
| reach_fetch st sheetData :
    Reachable st -> Reachable (onFetch env sheetData st)
| reach_ui st e : Reachable st -> Reachable (onUi env st e).

End PageVocabulary.

(** ** The other views of the page *)

Module MonthRevenue.
Record t := mk { Month : string; Revenue : float }.
End MonthRevenue.

Section OtherViews.
Context (env : Env).

(** [row['Sales Person'] || 'Unknown'] *)
Definition personOf (row : RawRow.t) : string :=
  JS.orElse (RawRow.SalesPerson row) "Unknown".

(** The rows of one salesperson, in sheet order. *)
Definition rowsOfPerson (l : list RawRow.t) (person : string) : list RawRow.t :=
  List.filter (fun r => (personOf r =? person)%string) l.

(** What one more row makes of the running total of its salesperson. *)
Definition addRevenue (total : float) (row : RawRow.t) : float :=
  (JS.orZero total + revenueOf env row)%float.

(** The test the mode filter makes on one aggregate. *)
Definition modeKeeps (filter : FilterMode) (selectedMonth : string)
    (selectedWeek : option WeekRange.t) (item : AggregatedRow.t) : bool :=
  match filter with
  | Daily => Dayjs.isSame_day (itemDate env item) (Some (now env))
  | Weekly =>
      match selectedWeek, (selectedMonth =? "all")%string with
      | Some week, false =>
          negb (Dayjs.isBefore (itemDate env item)
                               (dayjs env (WeekRange.start week)))
          && negb (Dayjs.isAfter (itemDate env item)
                                 (dayjs env (WeekRange.end_ week)))
      | _, _ =>
          Dayjs.isAfter (itemDate env item)
                        (Dayjs.subtract_day 7 (Some (now env)))
      end
  | Monthly =>
      Dayjs.isAfter (itemDate env item) (Dayjs.subtract_day 30 (Some (now env)))
  | AllData => true
  end.

(** The test the month filter makes on one aggregate. *)
Definition monthKeeps (filter : FilterMode) (selectedMonth : string)
    (item : AggregatedRow.t) : bool :=
  if negb (selectedMonth =? "all")%string
     && negb (match filter with Weekly => true | _ => false end)
  then (monthLabel item =? selectedMonth)%string
  else true.

(** [availableYears] *)
Definition availableYears (st : PageState.t) : list string :=
  List.filter
    (fun y => negb (y =? "")%string && negb (y =? "Unknown")%string)
    (JS.unique (map AggregatedRow.Year (PageState.data st))).

(** One step of the [reduce] behind [revenueByMonth]. *)
Definition revenueStep (selectedYear : string) (acc : @JS.Obj MonthRevenue.t)
    (row : AggregatedRow.t) : @JS.Obj MonthRevenue.t :=
  let year := AggregatedRow.Year row in
  let month := AggregatedRow.Month row in
  if negb (selectedYear =? "all")%string && negb (selectedYear =? year)%string
  then acc
  else
    let key := month ++ " " ++ year in
    let acc :=
      match JS.get key acc with
      | None => JS.define key (MonthRevenue.mk key 0%float) acc
      | Some _ => acc
      end in
    JS.modify key
      (fun e => MonthRevenue.mk (MonthRevenue.Month e)
                  (MonthRevenue.Revenue e + AggregatedRow.Revenue row)%float)
      acc.

(** The comparison function of [revenueByMonth]: the sign of the difference
    of the two time values, which is all that [sort] reads of it; when
    dayjs cannot read a label the difference is NaN, which [sort] takes
    as 0.  Among such labels the order of the result is left to the
    JavaScript engine, and [JS.sort] fixes one. *)
Definition byCalendar (a b : MonthRevenue.t) : Z :=
  match dayjs env (MonthRevenue.Month a), dayjs env (MonthRevenue.Month b) with
  | Some x, Some y =>
      if Dayjs.ltb x y then -1 else if Dayjs.ltb y x then 1 else 0
  | _, _ => 0
  end.

Definition revenueGroups (selectedYear : string) (l : list AggregatedRow.t)
  : @JS.Obj MonthRevenue.t :=
  fold_left (revenueStep selectedYear) l [].

Definition revenueByMonth (st : PageState.t) : list MonthRevenue.t :=
  JS.sort byCalendar
    (JS.Object_values
       (revenueGroups (PageState.selectedYear st) (PageState.filteredData st))).

(** The rows [revenueByMonth] adds up under one label. *)
Definition rowsOfLabel (selectedYear : string) (l : list AggregatedRow.t)
    (label : string) : list AggregatedRow.t :=
  List.filter
    (fun r => ((selectedYear =? "all")%string
               || (selectedYear =? AggregatedRow.Year r)%string)
              && (monthLabel r =? label)%string) l.

End OtherViews.

(** ** The data route *)

Module Route.

(** One record of the payload, from column header to cell; [None] is a
    cell the row does not have ([undefined]). *)
Definition Record_ := @JS.Obj (option string).

(** [header.forEach((key, i) => (obj[key] = row[i]))] on [obj = {}]; a
    cell is a string or [undefined], which a column named [__proto__]
    cannot store. *)
Definition toObject (header row : list string) : Record_ :=
  fold_left (fun obj ik => JS.write (snd ik) (nth_error row (fst ik)) obj)
            (combine (seq 0 (List.length header)) header) [].

(** What the call of the Sheets API gives: an exception, or
    [res.data.values], absent for an empty range. *)
Inductive Reply :=
| Thrown (message : string)
| Values (values : option (list (list string))).

(** What the route answers: [{ data }], or [{ error }] with status 500. *)
Inductive Response :=
| Json (data : list Record_)
| Failed (message : string).

Definition orEmpty (values : option (list (list string))) : list (list string) :=
  match values with
  | Some v => v
  | None => []
  end.

(** The route that reads its credentials from the key file. *)
Definition GET_keyFile (reply : Reply) : Response :=
  match reply with
  | Thrown message => Failed message
  | Values values =>
      match orEmpty values with
      | [] => Json []
      | header :: rows =>
          match rows with
          | [] => Json []
          | _ :: _ => Json (map (toObject header) rows)
          end
      end
  end.

(** The route that reads its credentials from the environment. *)
Definition GET_env (clientEmail privateKey spreadsheetId : option string)
    (reply : Reply) : Response :=
  if negb (JS.truthy clientEmail) || negb (JS.truthy privateKey)
     || negb (JS.truthy spreadsheetId)
  then Failed "Missing Google API environment variables."
  else
    match reply with
    | Thrown message => Failed message
    | Values values =>
        match orEmpty values with
        | [] => Json []
        | header :: rows => Json (map (toObject header) rows)
        end
    end.

(** A field of a record as the page reads it after the JSON transport,
    which drops the cells that are [undefined]. *)
Definition field (k : string) (o : Record_) : option string :=
  match JS.get k o with
  | Some (Some cell) => Some cell
  | _ => None
  end.

Definition rawRow (o : Record_) : RawRow.t :=
  RawRow.mk (field "Date" o) (field "Sales" o) (field "Sales Person" o)
            (field "Client" o) (field "Revenue" o) (field "State" o).

(** [json.data || []] *)
Definition sheetData (r : Response) : list RawRow.t :=
  match r with
  | Json data => map rawRow data
  | Failed _ => []
  end.

(** What [fetch] and [res.json()] give: an exception, or a response. *)
Inductive Outcome :=
| NoAnswer
| Answer (r : Response).

End Route.

(** [fetchData] as a whole: an exception leaves the page as it is. *)
Definition fetchData (env : Env) (o : Route.Outcome) (st : PageState.t)
  : PageState.t :=
  match o with
  | Route.NoAnswer => st
  | Route.Answer r => onFetch env (Route.sheetData r) st
  end.

(** A text without a space. *)
Fixpoint noSpace (s : string) : bool :=
  match s with
  | EmptyString => true
  | String c r => negb (c =? " ")%char && noSpace r
  end.

(** The index of the calendar week of day [d], for a month whose day [d]
    has day of the week [(K + d) mod 7]. *)
Definition weekIndex (K d : Z) : Z := (K + d) / 7.

(** The year test of the revenue-by-month series. *)
Definition yearPasses (selectedYear : string) (row : AggregatedRow.t) : bool :=
  (selectedYear =? "all")%string
  || (selectedYear =? AggregatedRow.Year row)%string.

(** The page that holds the sheet [rows] and shows the rows [fd]. *)
Definition holding (env : Env) (rows : list RawRow.t)
    (fd : list AggregatedRow.t) (st : PageState.t) : PageState.t :=
  setFilteredData fd (fetched env rows st).

(** ** Proof steps *)

(** Case analysis on every integer comparison of the goal. *)
Ltac cmp_cases :=
  repeat (match goal with
          | |- context [Z.ltb ?a ?b] => destruct (Z.ltb_spec a b)
          | |- context [Z.eqb ?a ?b] => destruct (Z.eqb_spec a b)
          | |- context [Z.leb ?a ?b] => destruct (Z.leb_spec a b)
          end; cbn [orb andb negb]);
  try reflexivity; try (exfalso; lia).

(** Projections of explicit dates. *)
Ltac civil_fields :=
  cbn [Dayjs.year Dayjs.month Dayjs.date Dayjs.time] in *.

(** Projections of explicit page states. *)
Ltac state_fields :=
  cbn [PageState.data PageState.filteredData PageState.salesByPerson
       PageState.filter PageState.selectedMonth PageState.availableMonths
       PageState.showWeekPicker PageState.selectedWeek
       PageState.selectedChart PageState.selectedYear].

(** ** Facts about objects and arrays *)

Section ObjectFacts.
Context {V : Type}.
Implicit Types (o : @JS.Obj V) (k : string) (f : V -> V).

Lemma get_modify_eq k f o :
  JS.get k (JS.modify k f o) = option_map f (JS.get k o).
Proof.
  induction o as [|[k' v] r IH]; simpl; [reflexivity|].
  destruct (k' =? k)%string eqn:E; simpl; rewrite E; auto.
Qed.

Lemma get_modify_neq k k' f o :
  k <> k' -> JS.get k (JS.modify k' f o) = JS.get k o.
Proof.
  intros Hne. induction o as [|[k0 v] r IH]; simpl; [reflexivity|].
  destruct (k0 =? k')%string eqn:E1; simpl; destruct (k0 =? k)%string eqn:E2;
    auto.
  apply String.eqb_eq in E1, E2. congruence.
Qed.

Lemma get_define_neq k k' v o :
  k <> k' -> JS.get k (JS.define k' v o) = JS.get k o.
Proof.
  intros Hne. unfold JS.define.
  induction o as [|[k0 v0] r IH]; simpl.
  - destruct (k' =? k)%string eqn:E; [apply String.eqb_eq in E; congruence|auto].
  - destruct (k0 =? k)%string; auto.
Qed.

Lemma get_define_eq k v o :
  JS.get k o = None -> JS.get k (JS.define k v o) = Some v.
Proof.
  unfold JS.define. induction o as [|[k0 v0] r IH]; simpl.
  - now rewrite String.eqb_refl.
  - destruct (k0 =? k)%string; [discriminate|auto].
Qed.

Lemma keys_modify k f o : map fst (JS.modify k f o) = map fst o.
Proof.
  induction o as [|[k0 v0] r IH]; simpl; [reflexivity|].
  destruct (k0 =? k)%string; simpl; congruence.
Qed.

Lemma get_None_iff k o : JS.get k o = None <-> ~ In k (map fst o).
Proof.
  induction o as [|[k0 v0] r IH]; simpl; [tauto|].
  destruct (k0 =? k)%string eqn:E.
  - apply String.eqb_eq in E. split; [discriminate|tauto].
  - apply String.eqb_neq in E. tauto.
Qed.

Lemma get_In k v o : NoDup (map fst o) -> In (k, v) o -> JS.get k o = Some v.
Proof.
  induction o as [|[k0 v0] r IH]; simpl; [tauto|].
  intros Hnd [Heq|Hin].
  - inversion Heq; subst. now rewrite String.eqb_refl.
  - inversion Hnd as [|? ? Hnotin Hnd']; subst.
    destruct (k0 =? k)%string eqn:E; [|auto].
    apply String.eqb_eq in E; subst. exfalso. apply Hnotin.
    change k with (fst (k, v)). now apply in_map.
Qed.

Lemma insert_index_perm (e : Z * (string * V)) l :
  Permutation (JS.insert_index e l) (e :: l).
Proof.
  induction l as [|e' r IH]; simpl; [reflexivity|].
  destruct (fst e <=? fst e'); [reflexivity|].
  rewrite IH. apply perm_swap.
Qed.

Lemma Object_entries_perm o : Permutation (JS.Object_entries o) o.
Proof.
  unfold JS.Object_entries.
  induction o as [|[k v] r IH]; simpl; [reflexivity|].
  destruct (JS.split_keys r) as [ix named].
  destruct (JS.arrayIndex k).
  - rewrite (Permutation_map snd (insert_index_perm _ _)). simpl.
    now apply perm_skip.
  - rewrite <- Permutation_middle. now apply perm_skip.
Qed.

Lemma Object_values_perm o : Permutation (JS.Object_values o) (map snd o).
Proof. apply Permutation_map, Object_entries_perm. Qed.

Lemma get_Object_set k k' v o :
  JS.get k' (JS.Object_set k v o)
  = if (k =? k')%string then Some v else JS.get k' o.
Proof.
  unfold JS.Object_set. destruct (String.eqb_spec k k') as [<-|Hne].
  - destruct (JS.get k o) eqn:E.
    + now rewrite get_modify_eq, E.
    + now apply get_define_eq.
  - destruct (JS.get k o).
    + apply get_modify_neq. congruence.
    + apply get_define_neq. congruence.
Qed.

Lemma get_write k k' v o :
  JS.get k' (JS.write k v o)
  = if (k =? "__proto__")%string then JS.get k' o
    else if (k =? k')%string then Some v else JS.get k' o.
Proof.
  unfold JS.write. destruct (k =? "__proto__")%string; [reflexivity|].
  apply get_Object_set.
Qed.

Lemma get_write_other k k' v o :
  k' <> k -> JS.get k' (JS.write k v o) = JS.get k' o.
Proof.
  intros Hne. rewrite get_write. destruct (k =? "__proto__")%string; [reflexivity|].
  destruct (String.eqb_spec k k'); congruence.
Qed.

Lemma keys_write k v o :
  NoDup (map fst o) -> NoDup (map fst (JS.write k v o)).
Proof.
  intros Hnd. unfold JS.write, JS.Object_set.
  destruct (k =? "__proto__")%string; [assumption|].
  destruct (JS.get k o) eqn:E.
  - now rewrite keys_modify.
  - unfold JS.define. rewrite map_app. simpl.
    apply NoDup_app; [assumption|repeat constructor; simpl; tauto|].
    intros a Ha [<-|[]]. revert Ha.
    induction o as [|[k0 v0] r IH]; simpl in *; [tauto|].
    destruct (String.eqb_spec k0 k) as [->|Hne]; [discriminate|].
    inversion Hnd; subst. intros [H|H]; [congruence|]. now apply IH.
Qed.

End ObjectFacts.

Lemma insert_sorted_perm {A} (cmp : A -> A -> Z) x l :
  Permutation (JS.insert_sorted cmp x l) (x :: l).
Proof.
  induction l as [|y r IH]; simpl; [reflexivity|].
  destruct (cmp x y <=? 0); [reflexivity|].
  rewrite IH. apply perm_swap.
Qed.

Lemma sort_perm {A} (cmp : A -> A -> Z) l : Permutation (JS.sort cmp l) l.
Proof.
  induction l as [|x r IH]; simpl; [reflexivity|].
  rewrite insert_sorted_perm. now apply perm_skip.
Qed.

Lemma includes_In l s : JS.includes l s = true <-> In s l.
Proof.
  unfold JS.includes. rewrite existsb_exists. split.
  - intros [x [Hin E]]. apply String.eqb_eq in E. now subst.
  - intros Hin. exists s. split; [assumption|apply String.eqb_refl].
Qed.

Lemma fold_left_Zadd {A} (f : A -> Z) l z :
  fold_left (fun sum r => sum + f r) l z = z + Zsum (map f l).
Proof.
  revert z. induction l as [|x r IH]; intros z; simpl; [lia|].
  rewrite IH. lia.
Qed.

Lemma Zsum_perm l l' : Permutation l l' -> Zsum l = Zsum l'.
Proof. induction 1; simpl; lia. Qed.

Lemma Zsum_modify {V} (c : V -> Z) k f (o : @JS.Obj V) v :
  JS.get k o = Some v ->
  Zsum (map c (map snd (JS.modify k f o)))
  = Zsum (map c (map snd o)) - c v + c (f v).
Proof.
  induction o as [|[k0 v0] r IH]; simpl; [discriminate|].
  destruct (k0 =? k)%string; simpl.
  - intros E. inversion E; subst. lia.
  - intros E. rewrite (IH E). lia.
Qed.

Lemma Zsum_define {V} (c : V -> Z) k v (o : @JS.Obj V) :
  Zsum (map c (map snd (JS.define k v o))) = Zsum (map c (map snd o)) + c v.
Proof.
  unfold JS.define. induction o as [|[k0 v0] r IH]; simpl; [lia|].
  rewrite IH. lia.
Qed.

(** ** Facts about [fetchData] *)

Section FetchFacts.
Context (env : Env).

Lemma dailyStep_get_same dm r :
  JS.get (dateKey env r) (dailyStep env dm r)
  = Some (addSale env r (match JS.get (dateKey env r) dm with
                         | Some a => a
                         | None => newEntry env r
                         end)).
Proof.
  unfold dailyStep. destruct (JS.get (dateKey env r) dm) eqn:E.
  - now rewrite get_modify_eq, E.
  - now rewrite get_modify_eq, (get_define_eq _ _ _ E).
Qed.

Lemma dailyStep_get_other dm r k :
  k <> dateKey env r -> JS.get k (dailyStep env dm r) = JS.get k dm.
Proof.
  intros Hne. unfold dailyStep.
  rewrite (get_modify_neq _ _ _ _ Hne).
  destruct (JS.get (dateKey env r) dm); [reflexivity|].
  now apply get_define_neq.
Qed.

Lemma dailyStep_keys dm r :
  NoDup (map fst dm) -> NoDup (map fst (dailyStep env dm r)).
Proof.
  intros Hnd. unfold dailyStep. rewrite keys_modify.
  destruct (JS.get (dateKey env r) dm) eqn:E; [assumption|].
  unfold JS.define. rewrite map_app. simpl.
  apply get_None_iff in E.
  apply NoDup_app; [assumption|repeat constructor; simpl; tauto|].
  intros a Ha [<-|[]]. tauto.
Qed.

Lemma fold_dailyStep_keys l dm :
  NoDup (map fst dm) -> NoDup (map fst (fold_left (dailyStep env) l dm)).
Proof.
  revert dm. induction l as [|r l IH]; intros dm Hnd; simpl; [assumption|].
  apply IH, dailyStep_keys, Hnd.
Qed.

(** Each step counts one more sale. *)
Lemma dailyStep_count dm r :
  Zsum (map AggregatedRow.SalesCount (map snd (dailyStep env dm r)))
  = Zsum (map AggregatedRow.SalesCount (map snd dm)) + 1.
Proof.
  unfold dailyStep. destruct (JS.get (dateKey env r) dm) eqn:E.
  - rewrite (Zsum_modify _ _ _ _ _ E). simpl. lia.
  - rewrite (Zsum_modify _ _ _ _ _ (get_define_eq _ _ _ E)), Zsum_define.
    simpl. lia.
Qed.

Lemma fold_dailyStep_count l dm :
  Zsum (map AggregatedRow.SalesCount (map snd (fold_left (dailyStep env) l dm)))
  = Zsum (map AggregatedRow.SalesCount (map snd dm)) + Z.of_nat (List.length l).
Proof.
  revert dm. induction l as [|r l IH]; intros dm.
  - simpl. lia.
  - cbn [fold_left List.length]. rewrite IH, dailyStep_count. lia.
Qed.

Lemma aggregated_perm rows :
  Permutation (aggregated env rows) (map snd (dailyMap env rows)).
Proof.
  unfold aggregated. rewrite sort_perm. apply Object_values_perm.
Qed.

(** The map built by [forEach] holds, for each date, the fold of the rows
    of that date. *)
Lemma fold_dailyStep_get l k :
  JS.get k (fold_left (dailyStep env) l [])
  = bucketAggregate env (rowsOn env l k).
Proof.
  induction l as [|r l IH] using rev_ind; [reflexivity|].
  unfold rowsOn in *. rewrite fold_left_app, filter_app. simpl.
  destruct (String.eqb_spec (dateKey env r) k) as [<-|Hne].
  - rewrite dailyStep_get_same, IH.
    destruct (List.filter _ l) as [|r0 b]; simpl; [reflexivity|].
    now rewrite fold_left_app.
  - rewrite dailyStep_get_other by congruence.
    now rewrite IH, app_nil_r.
Qed.

Lemma fold_addSale b a0 :
  fold_left (fun a r => addSale env r a) b a0
  = AggregatedRow.mk
      (AggregatedRow.Date a0)
      (AggregatedRow.SalesCount a0 + Z.of_nat (List.length b))
      (fold_left (fun sum r => (sum + revenueOf env r)%float) b
                 (AggregatedRow.Revenue a0))
      (fold_left (fun cs r => pushClient r cs) b (AggregatedRow.Clients a0))
      (AggregatedRow.Month a0) (AggregatedRow.Year a0).
Proof.
  revert a0. induction b as [|r b IH]; intros a0.
  - destruct a0; simpl. f_equal. lia.
  - cbn [fold_left List.length]. rewrite IH. simpl. f_equal. lia.
Qed.

(** Every aggregate is the fold of the non-empty bucket of its own date. *)
Lemma aggregated_bucket rows a :
  In a (aggregated env rows) ->
  exists r0 b,
    bucket env rows (AggregatedRow.Date a) = r0 :: b
    /\ a = fold_left (fun a r => addSale env r a) (r0 :: b) (newEntry env r0).
Proof.
  intros Hin.
  apply (Permutation_in _ (aggregated_perm rows)) in Hin.
  apply in_map_iff in Hin. destruct Hin as [[k a'] [Ha Hin]]. simpl in Ha.
  subst a'.
  assert (Hget : JS.get k (dailyMap env rows) = Some a).
  { apply get_In; [|assumption]. apply fold_dailyStep_keys. constructor. }
  unfold dailyMap in Hget. rewrite fold_dailyStep_get in Hget.
  destruct (rowsOn env (validRows rows) k) as [|r0 b] eqn:Hb; [discriminate|].
  simpl in Hget. injection Hget as Hget.
  assert (Hk : dateKey env r0 = k).
  { assert (Hr0 : In r0 (rowsOn env (validRows rows) k))
      by (rewrite Hb; now left).
    apply filter_In in Hr0. now apply String.eqb_eq. }
  assert (Hd : AggregatedRow.Date a = k).
  { rewrite <- Hget. change (fold_left _ b (addSale env r0 (newEntry env r0)))
      with (fold_left (fun a r => addSale env r a) (r0 :: b) (newEntry env r0)).
    rewrite fold_addSale. exact Hk. }
  exists r0, b. unfold bucket. rewrite Hd. split; [assumption|].
  symmetry. exact Hget.
Qed.

End FetchFacts.

Section FetchProperties.
Context (env : Env).

Lemma pushClient_NoDup r cs : NoDup cs -> NoDup (pushClient r cs).
Proof.
  intros Hnd. unfold pushClient. destruct (RawRow.Client r) as [c|]; [|assumption].
  destruct (negb (c =? "")%string); simpl; [|assumption].
  destruct (JS.includes cs c) eqn:E; simpl; [assumption|].
  apply NoDup_app; [assumption|repeat constructor; simpl; tauto|].
  intros x Hx [<-|[]]. apply includes_In in Hx. congruence.
Qed.

Lemma fold_pushClient_NoDup b cs :
  NoDup cs -> NoDup (fold_left (fun cs r => pushClient r cs) b cs).
Proof.
  revert cs. induction b as [|r b IH]; intros cs Hnd; simpl; [assumption|].
  apply IH, pushClient_NoDup, Hnd.
Qed.

Lemma get_Some_In {V} k (v : V) o : JS.get k o = Some v -> In (k, v) o.
Proof.
  induction o as [|[k0 v0] r IH]; simpl; [discriminate|].
  destruct (String.eqb_spec k0 k) as [->|Hne].
  - intros E. injection E as ->. now left.
  - intros E. right. auto.
Qed.

(** Each date that has valid rows has its aggregate. *)
Lemma bucket_aggregated rows r :
  In r (validRows rows) ->
  exists a, In a (aggregated env rows)
            /\ bucketAggregate env (bucket env rows (dateKey env r)) = Some a.
Proof.
  intros Hin.
  destruct (bucketAggregate env (bucket env rows (dateKey env r))) as [a|] eqn:E.
  - exists a. split; [|reflexivity].
    apply (Permutation_in _ (Permutation_sym (aggregated_perm env rows))).
    apply in_map_iff. exists (dateKey env r, a). split; [reflexivity|].
    apply get_Some_In. unfold dailyMap. now rewrite fold_dailyStep_get.
  - exfalso. unfold bucketAggregate in E.
    destruct (bucket env rows (dateKey env r)) as [|r0 b] eqn:Hb; [|discriminate].
    assert (Hr : In r (bucket env rows (dateKey env r))).
    { apply filter_In. split; [assumption|apply String.eqb_refl]. }
    rewrite Hb in Hr. destruct Hr.
Qed.

Lemma aggregated_dates_NoDup rows :
  NoDup (map AggregatedRow.Date (aggregated env rows)).
Proof.
  apply (Permutation_NoDup
           (Permutation_sym (Permutation_map _ (aggregated_perm env rows)))).
  assert (Hkeys : NoDup (map fst (dailyMap env rows)))
    by (apply fold_dailyStep_keys; constructor).
  rewrite map_map.
  rewrite (map_ext_in _ fst); [assumption|].
  intros [k a] Hin. simpl.
  pose proof (get_In _ _ _ Hkeys Hin) as Hget.
  unfold dailyMap in Hget. rewrite fold_dailyStep_get in Hget.
  destruct (rowsOn env (validRows rows) k) as [|r0 b] eqn:Hb; [discriminate|].
  simpl in Hget. injection Hget as <-.
  change (fold_left _ b (addSale env r0 (newEntry env r0)))
    with (fold_left (fun a r => addSale env r a) (r0 :: b) (newEntry env r0)).
  rewrite fold_addSale. simpl.
  assert (Hr0 : In r0 (rowsOn env (validRows rows) k)) by (rewrite Hb; now left).
  apply filter_In in Hr0. now apply String.eqb_eq.
Qed.

Lemma sumSalesCount_aggregated rows :
  sumSalesCount (aggregated env rows) = Z.of_nat (List.length (validRows rows)).
Proof.
  unfold sumSalesCount. rewrite fold_left_Zadd.
  rewrite (Zsum_perm _ _ (Permutation_map _ (aggregated_perm env rows))).
  unfold dailyMap. rewrite fold_dailyStep_count. simpl. lia.
Qed.

Lemma aggregate_fields rows a :
  In a (aggregated env rows) ->
  exists r0 b,
    bucket env rows (AggregatedRow.Date a) = r0 :: b
    /\ AggregatedRow.Date a = dateKey env r0
    /\ AggregatedRow.Month a = monthOf env r0
    /\ AggregatedRow.Year a = yearOf env r0
    /\ AggregatedRow.SalesCount a = Z.of_nat (List.length (r0 :: b))
    /\ AggregatedRow.Revenue a = parsedRevenueSum env (r0 :: b)
    /\ AggregatedRow.Clients a
       = fold_left (fun cs r => pushClient r cs) (r0 :: b) [].
Proof.
  intros Hin. destruct (aggregated_bucket env rows a Hin) as (r0 & b & Hb & Ha).
  exists r0, b. rewrite fold_addSale in Ha.
  split; [assumption|]. rewrite Ha. simpl. repeat split; reflexivity.
Qed.

End FetchProperties.

(** ** Facts about the calendar *)

Lemma daysInMonth_bounds y m : 28 <= Dayjs.daysInMonth y m <= 31.
Proof.
  unfold Dayjs.daysInMonth.
  destruct (Dayjs.isLeapYear y); destruct m as [|p|p]; try lia;
    repeat (destruct p as [p|p|]; try lia).
Qed.

Lemma dayOfWeek_bounds y m d : 0 <= Dayjs.dayOfWeek y m d < 7.
Proof. unfold Dayjs.dayOfWeek. apply Z.mod_pos_bound. lia. Qed.

(** Within a month the day of the week advances with the day. *)
Lemma dayOfWeek_linear y m :
  exists K, forall d, Dayjs.dayOfWeek y m d = (K + d) mod 7.
Proof.
  unfold Dayjs.dayOfWeek.
  exists ((if m <? 2 then y - 1 else y) + (if m <? 2 then y - 1 else y) / 4
          - (if m <? 2 then y - 1 else y) / 100
          + (if m <? 2 then y - 1 else y) / 400 + Dayjs.monthShift m).
  reflexivity.
Qed.

Lemma iter_nextDay_in_month y m t n d :
  d + Z.of_nat n <= Dayjs.daysInMonth y m ->
  Nat.iter n Dayjs.nextDay (Dayjs.mkCivil y m d t)
  = Dayjs.mkCivil y m (d + Z.of_nat n) t.
Proof.
  induction n as [|n IH]; intros H.
  - simpl. f_equal. lia.
  - simpl. rewrite IH by lia. unfold Dayjs.nextDay. simpl.
    destruct (Z.ltb_spec (d + Z.of_nat n) (Dayjs.daysInMonth y m)); [|lia].
    f_equal. lia.
Qed.

Lemma nextDay_monthIndex c :
  0 <= Dayjs.month c <= 11 ->
  0 <= Dayjs.month (Dayjs.nextDay c) <= 11
  /\ monthIndex c <= monthIndex (Dayjs.nextDay c).
Proof.
  intros H. unfold Dayjs.nextDay, monthIndex.
  destruct (Dayjs.date c <? _); cbn [Dayjs.year Dayjs.month]; [lia|].
  destruct (Z.ltb_spec (Dayjs.month c) 11); cbn [Dayjs.year Dayjs.month]; lia.
Qed.

Lemma iter_nextDay_monthIndex n c :
  0 <= Dayjs.month c <= 11 ->
  0 <= Dayjs.month (Nat.iter n Dayjs.nextDay c) <= 11
  /\ monthIndex c <= monthIndex (Nat.iter n Dayjs.nextDay c).
Proof.
  intros H. induction n as [|n [IH1 IH2]]; simpl; [lia|].
  destruct (nextDay_monthIndex _ IH1). lia.
Qed.

(** A day of the month [m] needs no carry. *)
Lemma carryDate_in_month y m d t :
  0 <= m < 12 -> 1 <= d <= Dayjs.daysInMonth y m ->
  Dayjs.carryDate y m d t = Dayjs.mkCivil y m d t.
Proof.
  intros Hm Hd. unfold Dayjs.carryDate, Dayjs.addDays.
  rewrite (Z.div_small m 12), (Z.mod_small m 12), Z.add_0_r by lia.
  destruct (Z.leb_spec 0 (d - 1)); [|lia].
  rewrite iter_nextDay_in_month by lia. f_equal. lia.
Qed.

(** A day past the end of the month [m] falls in a later month. *)
Lemma carryDate_overflow y m d t :
  0 <= m < 12 -> Dayjs.daysInMonth y m < d ->
  0 <= Dayjs.month (Dayjs.carryDate y m d t) <= 11
  /\ 12 * y + m < monthIndex (Dayjs.carryDate y m d t).
Proof.
  intros Hm Hd. pose proof (daysInMonth_bounds y m) as HL.
  unfold Dayjs.carryDate, Dayjs.addDays.
  rewrite (Z.div_small m 12), (Z.mod_small m 12), Z.add_0_r by lia.
  destruct (Z.leb_spec 0 (d - 1)); [|lia].
  replace (Z.to_nat (d - 1))
    with (Z.to_nat (d - 1 - Dayjs.daysInMonth y m)
          + S (Z.to_nat (Dayjs.daysInMonth y m - 1)))%nat by lia.
  rewrite Nat.iter_add, Nat.iter_succ.
  rewrite iter_nextDay_in_month by lia.
  replace (1 + Z.of_nat (Z.to_nat (Dayjs.daysInMonth y m - 1)))
    with (Dayjs.daysInMonth y m) by lia.
  set (first := Dayjs.nextDay _).
  assert (Hf : 0 <= Dayjs.month first <= 11 /\ monthIndex first = 12 * y + m + 1).
  { unfold first, Dayjs.nextDay, monthIndex.
    cbn [Dayjs.year Dayjs.month Dayjs.date Dayjs.time].
    rewrite Z.ltb_irrefl.
    destruct (Z.ltb_spec m 11); cbn [Dayjs.year Dayjs.month]; lia. }
  destruct Hf as [Hf1 Hf2].
  destruct (iter_nextDay_monthIndex
              (Z.to_nat (d - 1 - Dayjs.daysInMonth y m)) first Hf1). lia.
Qed.

(** Day 0 of the month [m + 1] is the last day of the month [m]. *)
Lemma carryDate_last_day y m t :
  0 <= m < 12 ->
  Dayjs.carryDate y (m + 1) 0 t = Dayjs.mkCivil y m (Dayjs.daysInMonth y m) t.
Proof.
  intros Hm. unfold Dayjs.carryDate, Dayjs.addDays.
  change (0 <=? 0 - 1) with false. cbv iota.
  change (Z.to_nat (- (0 - 1))) with 1%nat.
  rewrite Nat.iter_succ. cbn [Nat.iter nat_rect].
  unfold Dayjs.prevDay. cbn [Dayjs.year Dayjs.month Dayjs.date Dayjs.time].
  rewrite Z.ltb_irrefl.
  destruct (Z.eq_dec m 11) as [->|Hne].
  - change ((11 + 1) mod 12) with 0. change ((11 + 1) / 12) with 1.
    rewrite Z.ltb_irrefl. f_equal. lia.
  - rewrite (Z.div_small (m + 1) 12), (Z.mod_small (m + 1) 12), Z.add_0_r by lia.
    destruct (Z.ltb_spec 0 (m + 1)); [|lia].
    f_equal; f_equal; lia.
Qed.

(** ** Facts about time values *)

Lemma dayFromYear_succ y :
  Dayjs.dayFromYear (y + 1)
  = Dayjs.dayFromYear y + (if Dayjs.isLeapYear y then 366 else 365).
Proof.
  unfold Dayjs.dayFromYear, Dayjs.isLeapYear.
  destruct (Z.eqb_spec (y mod 4) 0), (Z.eqb_spec (y mod 100) 0),
    (Z.eqb_spec (y mod 400) 0); cbn [andb orb negb];
    Z.div_mod_to_equations; lia.
Qed.

Lemma dayFromYear_monotone y1 y2 :
  y1 <= y2 -> Dayjs.dayFromYear y1 <= Dayjs.dayFromYear y2.
Proof. unfold Dayjs.dayFromYear. intros H. Z.div_mod_to_equations. lia. Qed.

Lemma month_cases m :
  0 <= m < 12 ->
  m = 0 \/ m = 1 \/ m = 2 \/ m = 3 \/ m = 4 \/ m = 5 \/ m = 6 \/ m = 7
  \/ m = 8 \/ m = 9 \/ m = 10 \/ m = 11.
Proof. lia. Qed.

Lemma daysBeforeMonth_succ y m :
  0 <= m < 11 ->
  Dayjs.daysBeforeMonth y (m + 1)
  = Dayjs.daysBeforeMonth y m + Dayjs.daysInMonth y m.
Proof.
  intros Hm. assert (H : 0 <= m < 12) by lia.
  apply month_cases in H.
  repeat (destruct H as [->|H]); [..|lia];
    unfold Dayjs.daysBeforeMonth, Dayjs.daysInMonth;
    destruct (Dayjs.isLeapYear y); reflexivity.
Qed.

Lemma daysBeforeMonth_december y :
  Dayjs.daysBeforeMonth y 11 + 31 = if Dayjs.isLeapYear y then 366 else 365.
Proof.
  unfold Dayjs.daysBeforeMonth. destruct (Dayjs.isLeapYear y); reflexivity.
Qed.

Lemma nextDay_timeValue c :
  Dayjs.calendarDay c ->
  Dayjs.calendarDay (Dayjs.nextDay c)
  /\ Dayjs.timeValue (Dayjs.nextDay c) = Dayjs.timeValue c + Dayjs.msPerDay
  /\ Dayjs.time (Dayjs.nextDay c) = Dayjs.time c.
Proof.
  intros [Hm Hd]. unfold Dayjs.nextDay, Dayjs.calendarDay.
  destruct (Z.ltb_spec (Dayjs.date c)
              (Dayjs.daysInMonth (Dayjs.year c) (Dayjs.month c))).
  - unfold Dayjs.timeValue, Dayjs.msPerDay. civil_fields. repeat split; lia.
  - destruct (Z.ltb_spec (Dayjs.month c) 11).
    + unfold Dayjs.timeValue, Dayjs.msPerDay. civil_fields.
      pose proof (daysInMonth_bounds (Dayjs.year c) (Dayjs.month c + 1)).
      rewrite daysBeforeMonth_succ by lia. repeat split; lia.
    + unfold Dayjs.timeValue, Dayjs.msPerDay. civil_fields.
      assert (E : Dayjs.month c = 11) by lia.
      rewrite E in *. rewrite dayFromYear_succ.
      pose proof (daysBeforeMonth_december (Dayjs.year c)) as Hdec.
      change (Dayjs.daysInMonth (Dayjs.year c) 11) with 31 in *.
      change (Dayjs.daysBeforeMonth (Dayjs.year c + 1) 0)
        with (0 + (if Dayjs.isLeapYear (Dayjs.year c + 1) && false
                   then 1 else 0)).
      rewrite andb_false_r.
      change (Dayjs.daysInMonth (Dayjs.year c + 1) 0) with 31.
      repeat split; lia.
Qed.

Lemma prevDay_timeValue c :
  Dayjs.calendarDay c ->
  Dayjs.calendarDay (Dayjs.prevDay c)
  /\ Dayjs.timeValue (Dayjs.prevDay c) = Dayjs.timeValue c - Dayjs.msPerDay
  /\ Dayjs.time (Dayjs.prevDay c) = Dayjs.time c.
Proof.
  intros [Hm Hd]. unfold Dayjs.prevDay, Dayjs.calendarDay.
  destruct (Z.ltb_spec 1 (Dayjs.date c)).
  - unfold Dayjs.timeValue, Dayjs.msPerDay. civil_fields. repeat split; lia.
  - destruct (Z.ltb_spec 0 (Dayjs.month c)).
    + unfold Dayjs.timeValue, Dayjs.msPerDay. civil_fields.
      pose proof (daysInMonth_bounds (Dayjs.year c) (Dayjs.month c - 1)).
      pose proof (daysBeforeMonth_succ (Dayjs.year c) (Dayjs.month c - 1)) as E.
      replace (Dayjs.month c - 1 + 1) with (Dayjs.month c) in E by lia.
      rewrite E by lia. repeat split; lia.
    + unfold Dayjs.timeValue, Dayjs.msPerDay. civil_fields.
      assert (E : Dayjs.month c = 0) by lia.
      rewrite E in *.
      pose proof (dayFromYear_succ (Dayjs.year c - 1)) as Hy.
      replace (Dayjs.year c - 1 + 1) with (Dayjs.year c) in Hy by lia.
      pose proof (daysBeforeMonth_december (Dayjs.year c - 1)) as Hdec.
      change (Dayjs.daysInMonth (Dayjs.year c - 1) 11) with 31.
      change (Dayjs.daysBeforeMonth (Dayjs.year c) 0)
        with (0 + (if Dayjs.isLeapYear (Dayjs.year c) && false
                   then 1 else 0)).
      rewrite andb_false_r.
      repeat split; lia.
Qed.

Lemma iter_nextDay_timeValue n c :
  Dayjs.calendarDay c ->
  Dayjs.calendarDay (Nat.iter n Dayjs.nextDay c)
  /\ Dayjs.timeValue (Nat.iter n Dayjs.nextDay c)
     = Dayjs.timeValue c + Z.of_nat n * Dayjs.msPerDay
  /\ Dayjs.time (Nat.iter n Dayjs.nextDay c) = Dayjs.time c.
Proof.
  intros Hc. induction n as [|n (IH1 & IH2 & IH3)].
  - cbn [Nat.iter nat_rect]. repeat split; try apply Hc; lia.
  - rewrite Nat.iter_succ.
    destruct (nextDay_timeValue _ IH1) as (H1 & H2 & H3).
    repeat split; try apply H1; lia.
Qed.

Lemma iter_prevDay_timeValue n c :
  Dayjs.calendarDay c ->
  Dayjs.calendarDay (Nat.iter n Dayjs.prevDay c)
  /\ Dayjs.timeValue (Nat.iter n Dayjs.prevDay c)
     = Dayjs.timeValue c - Z.of_nat n * Dayjs.msPerDay
  /\ Dayjs.time (Nat.iter n Dayjs.prevDay c) = Dayjs.time c.
Proof.
  intros Hc. induction n as [|n (IH1 & IH2 & IH3)].
  - cbn [Nat.iter nat_rect]. repeat split; try apply Hc; lia.
  - rewrite Nat.iter_succ.
    destruct (prevDay_timeValue _ IH1) as (H1 & H2 & H3).
    repeat split; try apply H1; lia.
Qed.

(** Moving by [n] days moves the time value by [n] days. *)
Lemma addDays_timeValue n c :
  Dayjs.calendarDay c ->
  Dayjs.calendarDay (Dayjs.addDays n c)
  /\ Dayjs.timeValue (Dayjs.addDays n c) = Dayjs.timeValue c + n * Dayjs.msPerDay
  /\ Dayjs.time (Dayjs.addDays n c) = Dayjs.time c.
Proof.
  intros Hc. unfold Dayjs.addDays. destruct (Z.leb_spec 0 n).
  - destruct (iter_nextDay_timeValue (Z.to_nat n) c Hc) as (H1 & H2 & H3).
    rewrite Z2Nat.id in H2 by lia. repeat split; try apply H1; lia.
  - destruct (iter_prevDay_timeValue (Z.to_nat (- n)) c Hc) as (H1 & H2 & H3).
    rewrite Z2Nat.id in H2 by lia. repeat split; try apply H1; lia.
Qed.

Lemma carryDate_timeValue y m d t :
  0 <= m < 12 ->
  Dayjs.calendarDay (Dayjs.carryDate y m d t)
  /\ Dayjs.timeValue (Dayjs.carryDate y m d t)
     = Dayjs.timeValue (Dayjs.mkCivil y m 1 t) + (d - 1) * Dayjs.msPerDay
  /\ Dayjs.time (Dayjs.carryDate y m d t) = t.
Proof.
  intros Hm. unfold Dayjs.carryDate.
  rewrite (Z.div_small m 12), (Z.mod_small m 12), Z.add_0_r by lia.
  apply (addDays_timeValue (d - 1) (Dayjs.mkCivil y m 1 t)).
  pose proof (daysInMonth_bounds y m). split; civil_fields; lia.
Qed.

(** A month that ends within the range of dates ends at least twelve
    days before the range does. *)
Lemma month_end_margin y m :
  0 <= m < 12 ->
  Dayjs.timeValue (Dayjs.mkCivil y m (Dayjs.daysInMonth y m) (Dayjs.msPerDay - 1))
  <= Dayjs.maxTime ->
  Dayjs.timeValue (Dayjs.mkCivil y m (Dayjs.daysInMonth y m) (Dayjs.msPerDay - 1))
  + 12 * Dayjs.msPerDay <= Dayjs.maxTime.
Proof.
  intros Hm. unfold Dayjs.timeValue, Dayjs.maxTime, Dayjs.msPerDay. civil_fields.
  assert (Hyear : Dayjs.daysBeforeMonth y m + Dayjs.daysInMonth y m
                  <= Dayjs.dayFromYear (y + 1) - Dayjs.dayFromYear y).
  { rewrite dayFromYear_succ. apply month_cases in Hm.
    repeat (destruct Hm as [->|Hm]); [..|subst m];
      unfold Dayjs.daysBeforeMonth, Dayjs.daysInMonth;
      destruct (Dayjs.isLeapYear y); cbn; lia. }
  assert (Hlow : 0 <= Dayjs.daysBeforeMonth y m).
  { unfold Dayjs.daysBeforeMonth.
    destruct (Dayjs.isLeapYear y && (2 <=? m)); destruct m as [|q|q]; try lia;
      repeat (destruct q as [q|q|]; try lia). }
  pose proof (daysInMonth_bounds y m) as HL.
  destruct (Z_lt_ge_dec y 275760) as [Hlt|Hge].
  - pose proof (dayFromYear_monotone (y + 1) 275760 ltac:(lia)) as Hmono.
    change (Dayjs.dayFromYear 275760) with 99999744 in Hmono. lia.
  - destruct (Z.eq_dec y 275760) as [->|Hne].
    + change (Dayjs.dayFromYear 275760) with 99999744.
      apply month_cases in Hm.
      clear Hyear Hlow HL.
      repeat (destruct Hm as [->|Hm]); [..|subst m];
        match goal with
        | |- context [Dayjs.daysBeforeMonth ?y ?m] =>
            let v := eval vm_compute in (Dayjs.daysBeforeMonth y m) in
            let w := eval vm_compute in (Dayjs.daysInMonth y m) in
            change (Dayjs.daysBeforeMonth y m) with v;
            change (Dayjs.daysInMonth y m) with w
        end; lia.
    + pose proof (dayFromYear_monotone 275761 y ltac:(lia)) as Hmono.
      change (Dayjs.dayFromYear 275761) with 100000110 in Hmono. lia.
Qed.

(** The time of day does not change the day that a day number falls on. *)
Lemma iter_nextDay_time n c t :
  Dayjs.mkCivil (Dayjs.year (Nat.iter n Dayjs.nextDay c))
    (Dayjs.month (Nat.iter n Dayjs.nextDay c))
    (Dayjs.date (Nat.iter n Dayjs.nextDay c)) t
  = Nat.iter n Dayjs.nextDay
      (Dayjs.mkCivil (Dayjs.year c) (Dayjs.month c) (Dayjs.date c) t).
Proof.
  induction n as [|n IH]; [reflexivity|].
  rewrite !Nat.iter_succ, <- IH. unfold Dayjs.nextDay. civil_fields.
  destruct (_ <? _); [reflexivity|]. destruct (_ <? _); reflexivity.
Qed.

Lemma iter_prevDay_time n c t :
  Dayjs.mkCivil (Dayjs.year (Nat.iter n Dayjs.prevDay c))
    (Dayjs.month (Nat.iter n Dayjs.prevDay c))
    (Dayjs.date (Nat.iter n Dayjs.prevDay c)) t
  = Nat.iter n Dayjs.prevDay
      (Dayjs.mkCivil (Dayjs.year c) (Dayjs.month c) (Dayjs.date c) t).
Proof.
  induction n as [|n IH]; [reflexivity|].
  rewrite !Nat.iter_succ, <- IH. unfold Dayjs.prevDay. civil_fields.
  destruct (_ <? _); [reflexivity|]. destruct (_ <? _); reflexivity.
Qed.

Lemma carryDate_time y m d t :
  Dayjs.endOfDay (Dayjs.carryDate y m d t)
  = Dayjs.carryDate y m d (Dayjs.msPerDay - 1).
Proof.
  unfold Dayjs.endOfDay, Dayjs.carryDate, Dayjs.addDays.
  destruct (0 <=? d - 1).
  - now rewrite iter_nextDay_time.
  - now rewrite iter_prevDay_time.
Qed.

(** ** Facts about [getWeeksOfMonth] *)

Lemma fullYear_idem y : Dayjs.fullYear (Dayjs.fullYear y) = Dayjs.fullYear y.
Proof.
  unfold Dayjs.fullYear.
  destruct (Z.leb_spec 0 y), (Z.leb_spec y 99); cbn [andb]; cmp_cases.
Qed.

(** An invalid date ends the loop. *)
Lemma weeksLoop_invalid fuel e : weeksLoop fuel e None = Some [].
Proof. destruct fuel; reflexivity. Qed.

Section WeeksFacts.
Context (env : Env) (y m : Z) (Hm : 0 <= m < 12).
Context (Hy : Dayjs.fullYear y = y).
Context (Hlo : Dayjs.inRange (Dayjs.mkCivil y m 1 0) = true).
Context (Hhi : Dayjs.inRange
                 (Dayjs.mkCivil y m (Dayjs.daysInMonth y m) (Dayjs.msPerDay - 1))
               = true).

(** Every instant of the month is a date. *)
Lemma in_month_inRange c t :
  1 <= c <= Dayjs.daysInMonth y m -> 0 <= t < Dayjs.msPerDay ->
  Dayjs.inRange (Dayjs.mkCivil y m c t) = true.
Proof.
  intros Hc Ht. unfold Dayjs.inRange, Dayjs.timeValue, Dayjs.msPerDay in *.
  civil_fields. apply andb_true_iff in Hlo, Hhi.
  rewrite !Z.leb_le in *. apply andb_true_iff. rewrite !Z.leb_le. lia.
Qed.

Lemma in_month_clip c t :
  1 <= c <= Dayjs.daysInMonth y m -> 0 <= t < Dayjs.msPerDay ->
  Dayjs.timeClip (Dayjs.mkCivil y m c t) = Some (Dayjs.mkCivil y m c t).
Proof.
  intros Hc Ht. unfold Dayjs.timeClip. now rewrite in_month_inRange.
Qed.

Lemma loop_continues c t :
  1 <= c <= Dayjs.daysInMonth y m -> 0 <= t < Dayjs.msPerDay ->
  Dayjs.isBefore (Some (Dayjs.mkCivil y m c t)) (monthEnd y m)
  || Dayjs.isSame_day (Some (Dayjs.mkCivil y m c t)) (monthEnd y m)
  = true.
Proof.
  intros Hc Ht. unfold Dayjs.isSame_day, Dayjs.startOf_day, Dayjs.endOf_day,
    Dayjs.startOfDay, Dayjs.endOfDay. civil_fields.
  rewrite !in_month_clip by (unfold Dayjs.msPerDay; lia).
  unfold monthEnd, Dayjs.isBefore, Dayjs.leb, Dayjs.ltb, Dayjs.msPerDay in *.
  civil_fields. cmp_cases.
Qed.

Lemma loop_stops r :
  0 <= Dayjs.month r <= 11 -> 12 * y + m < monthIndex r ->
  Dayjs.isBefore (Some r) (monthEnd y m)
  || Dayjs.isSame_day (Some r) (monthEnd y m) = false.
Proof.
  intros H1 H2. unfold Dayjs.isSame_day, Dayjs.startOf_day, Dayjs.endOf_day,
    Dayjs.timeClip.
  destruct (Dayjs.inRange (Dayjs.startOfDay r)),
    (Dayjs.inRange (Dayjs.endOfDay r));
    unfold monthEnd, Dayjs.isBefore, Dayjs.leb, Dayjs.ltb, Dayjs.startOfDay,
      Dayjs.endOfDay, monthIndex in *;
    civil_fields; cmp_cases.
Qed.

Lemma past_month_end r :
  0 <= Dayjs.month r <= 11 -> 12 * y + m < monthIndex r ->
  Dayjs.isAfter (Some r) (monthEnd y m) = true.
Proof.
  intros H1 H2. unfold monthEnd, Dayjs.isAfter, Dayjs.ltb, monthIndex in *.
  civil_fields. cmp_cases.
Qed.

Lemma weeksLoop_past_month fuel r :
  0 <= Dayjs.month r <= 11 -> 12 * y + m < monthIndex r ->
  weeksLoop fuel (monthEnd y m) (Some r) = Some [].
Proof.
  intros H1 H2. destruct fuel; cbn [weeksLoop]; now rewrite loop_stops.
Qed.

(** Up to six days past the end of the month, a day is still a date. *)
Lemma past_month_inRange d t :
  Dayjs.daysInMonth y m < d <= Dayjs.daysInMonth y m + 6 ->
  0 <= t < Dayjs.msPerDay ->
  Dayjs.inRange (Dayjs.carryDate y m d t) = true.
Proof.
  intros Hd Ht.
  destruct (carryDate_timeValue y m d t Hm) as (_ & Htv & _).
  pose proof (month_end_margin y m Hm) as Hmargin.
  unfold Dayjs.inRange in *. rewrite Htv.
  apply andb_true_iff in Hlo, Hhi. rewrite !Z.leb_le in *.
  specialize (Hmargin (proj2 Hhi)).
  unfold Dayjs.timeValue, Dayjs.msPerDay in *. civil_fields.
  apply andb_true_iff. rewrite !Z.leb_le. lia.
Qed.

(** The end of the week of day [c], cut at the end of the month. *)
Lemma weekEnd_in_month c t :
  1 <= c <= Dayjs.daysInMonth y m ->
  (if Dayjs.isAfter (Dayjs.endOf_week (Some (Dayjs.mkCivil y m c t))) (monthEnd y m)
   then (monthEnd y m)
   else Dayjs.endOf_week (Some (Dayjs.mkCivil y m c t)))
  = Some (Dayjs.mkCivil y m
            (Z.min (c + (6 - Dayjs.dayOfWeek y m c)) (Dayjs.daysInMonth y m))
            (Dayjs.msPerDay - 1)).
Proof.
  intros Hc. pose proof (dayOfWeek_bounds y m c) as Hw.
  unfold Dayjs.endOf_week, Dayjs.getDay, Dayjs.newDate.
  civil_fields. rewrite Hy.
  destruct (Z_le_gt_dec (c + (6 - Dayjs.dayOfWeek y m c))
                        (Dayjs.daysInMonth y m)) as [Hle|Hgt].
  - rewrite carryDate_in_month by lia.
    rewrite in_month_clip by (unfold Dayjs.msPerDay; lia).
    unfold Dayjs.endOf_day, Dayjs.endOfDay. civil_fields.
    rewrite in_month_clip by (unfold Dayjs.msPerDay; lia).
    rewrite Z.min_l by lia.
    unfold monthEnd, Dayjs.isAfter, Dayjs.ltb. civil_fields. cmp_cases.
  - destruct (carryDate_overflow y m (c + (6 - Dayjs.dayOfWeek y m c))
                (Dayjs.msPerDay - 1) Hm) as [H1 H2]; [lia|].
    assert (Hend : forall d, Dayjs.endOfDay (Dayjs.carryDate y m d 0)
                             = Dayjs.carryDate y m d (Dayjs.msPerDay - 1)).
    { intros d. apply carryDate_time. }
    unfold Dayjs.timeClip at 1.
    rewrite past_month_inRange by (unfold Dayjs.msPerDay; lia).
    unfold Dayjs.endOf_day, Dayjs.timeClip. rewrite Hend.
    rewrite past_month_inRange by (unfold Dayjs.msPerDay; lia).
    rewrite (past_month_end _ H1 H2). rewrite Z.min_r by lia. reflexivity.
Qed.

Lemma weeksLoop_in_month fuel :
  forall c t,
    1 <= c <= Dayjs.daysInMonth y m -> 0 <= t < Dayjs.msPerDay ->
    Dayjs.daysInMonth y m - c < Z.of_nat fuel ->
    exists spans,
      WeekSpans (Dayjs.dayOfWeek y m) (Dayjs.daysInMonth y m) c spans
      /\ weeksLoop fuel (monthEnd y m) (Some (Dayjs.mkCivil y m c t))
         = Some (map (dayRange y m) spans).
Proof.
  induction fuel as [|fuel IH]; intros c t Hc Ht Hfuel; [lia|].
  pose proof (dayOfWeek_bounds y m c) as Hw.
  cbn [weeksLoop]. rewrite (loop_continues c t Hc Ht).
  rewrite (weekEnd_in_month c t Hc).
  set (e := Z.min (c + (6 - Dayjs.dayOfWeek y m c)) (Dayjs.daysInMonth y m)).
  assert (He : c <= e <= Dayjs.daysInMonth y m) by (unfold e; lia).
  assert (Hnext : exists spans,
             WeekSpans (Dayjs.dayOfWeek y m) (Dayjs.daysInMonth y m) (e + 1) spans
             /\ weeksLoop fuel (monthEnd y m)
                  (Dayjs.add_day 1 (Some (Dayjs.mkCivil y m e (Dayjs.msPerDay - 1))))
                = Some (map (dayRange y m) spans)).
  { unfold Dayjs.add_day, Dayjs.setDate. civil_fields.
    destruct (Z_le_gt_dec (e + 1) (Dayjs.daysInMonth y m)) as [Hle|Hgt].
    - rewrite carryDate_in_month by lia.
      rewrite in_month_clip by (unfold Dayjs.msPerDay; lia).
      apply IH; unfold Dayjs.msPerDay; lia.
    - destruct (carryDate_overflow y m (e + 1) (Dayjs.msPerDay - 1) Hm)
        as [H1 H2]; [lia|].
      exists []. split; [constructor; lia|].
      unfold Dayjs.timeClip.
      destruct (Dayjs.inRange
                  (Dayjs.carryDate y m (e + 1) (Dayjs.msPerDay - 1))).
      + now apply weeksLoop_past_month.
      + apply weeksLoop_invalid. }
  destruct Hnext as (spans & Hspans & Hloop).
  exists ((c, e) :: spans). split.
  - now constructor.
  - rewrite Hloop. reflexivity.
Qed.

(** [getWeeksOfMonth] on a month that dayjs can read: the loop runs over
    the days 1 to [daysInMonth] of that month. *)
Lemma getWeeksOfMonth_spans fuel monthYear c0 :
  dayjs env (monthStartText monthYear) = Some c0 ->
  Dayjs.fullYear (Dayjs.year c0) = y -> Dayjs.month c0 = m ->
  (31 <= fuel)%nat ->
  exists spans,
    WeekSpans (Dayjs.dayOfWeek y m) (Dayjs.daysInMonth y m) 1 spans
    /\ getWeeksOfMonth env fuel monthYear = Some (map (dayRange y m) spans).
Proof.
  intros Hparse Hy0 Hmo Hfuel. pose proof (daysInMonth_bounds y m) as HL.
  unfold getWeeksOfMonth. rewrite Hparse.
  unfold Dayjs.startOf_month, Dayjs.newDate. rewrite Hy0, Hmo.
  rewrite (carryDate_in_month y m 1 0) by lia.
  rewrite in_month_clip by (unfold Dayjs.msPerDay; lia).
  unfold Dayjs.endOf_month, Dayjs.newDate.
  civil_fields. rewrite Hy, carryDate_last_day by assumption.
  rewrite in_month_clip by (unfold Dayjs.msPerDay; lia).
  unfold Dayjs.endOf_day, Dayjs.endOfDay. civil_fields.
  rewrite in_month_clip by (unfold Dayjs.msPerDay; lia).
  apply (weeksLoop_in_month fuel 1 0); unfold Dayjs.msPerDay; lia.
Qed.

End WeeksFacts.

(** A month whose end is a valid date lies in the range of dates, from
    its first instant to its last. *)
Lemma valid_month_inRange c0 :
  0 <= Dayjs.month c0 < 12 ->
  Dayjs.isValid (Dayjs.endOf_month (Dayjs.startOf_month (Some c0))) = true ->
  Dayjs.inRange
    (Dayjs.mkCivil (Dayjs.fullYear (Dayjs.year c0)) (Dayjs.month c0) 1 0) = true
  /\ Dayjs.inRange
       (Dayjs.mkCivil (Dayjs.fullYear (Dayjs.year c0)) (Dayjs.month c0)
          (Dayjs.daysInMonth (Dayjs.fullYear (Dayjs.year c0)) (Dayjs.month c0))
          (Dayjs.msPerDay - 1)) = true.
Proof.
  intros Hm. pose proof (daysInMonth_bounds (Dayjs.fullYear (Dayjs.year c0))
                           (Dayjs.month c0)) as HL.
  set (y := Dayjs.fullYear (Dayjs.year c0)) in *. set (m := Dayjs.month c0) in *.
  unfold Dayjs.startOf_month, Dayjs.newDate. fold y m.
  rewrite carryDate_in_month by lia. unfold Dayjs.timeClip at 1.
  destruct (Dayjs.inRange (Dayjs.mkCivil y m 1 0)); [|discriminate].
  unfold Dayjs.endOf_month, Dayjs.newDate. civil_fields.
  unfold y at 1. rewrite fullYear_idem. fold y.
  rewrite carryDate_last_day by assumption.
  unfold Dayjs.endOf_day, Dayjs.timeClip, Dayjs.endOfDay.
  destruct (Dayjs.inRange (Dayjs.mkCivil y m (Dayjs.daysInMonth y m) 0));
    [|discriminate].
  civil_fields.
  destruct (Dayjs.inRange
              (Dayjs.mkCivil y m (Dayjs.daysInMonth y m) (Dayjs.msPerDay - 1)));
    [|discriminate].
  auto.
Qed.

(** ** Facts about chains of spans *)

Lemma chain_nonempty a b l : Chain a b l -> l <> [].
Proof. destruct 1; discriminate. Qed.

Lemma chain_order a b l : Chain a b l -> a <= b.
Proof. induction 1; lia. Qed.

Lemma chain_bounds a b l :
  Chain a b l -> forall s e, In (s, e) l -> a <= s /\ s <= e /\ e <= b.
Proof.
  induction 1 as [a b Hab|a e b l Hae Hch IH]; intros s' e' Hin.
  - destruct Hin as [E|[]]. injection E as <- <-. lia.
  - destruct Hin as [E|Hin].
    + injection E as <- <-. pose proof (chain_order _ _ _ Hch). lia.
    + specialize (IH _ _ Hin). lia.
Qed.

Lemma chain_cover a b l :
  Chain a b l ->
  forall d, a <= d <= b <-> exists s e, In (s, e) l /\ s <= d <= e.
Proof.
  intros Hch d. split.
  - revert d. induction Hch as [a b Hab|a e b l Hae Hch IH]; intros d Hd.
    + exists a, b. split; [now left|lia].
    + destruct (Z_le_gt_dec d e) as [Hle|Hgt].
      * exists a, e. split; [now left|lia].
      * destruct (IH d) as (s & e' & Hin & Hs); [lia|].
        exists s, e'. split; [now right|assumption].
  - intros (s & e & Hin & Hd).
    pose proof (chain_bounds _ _ _ Hch _ _ Hin). lia.
Qed.

Lemma chain_disjoint a b l :
  Chain a b l ->
  forall d s e s' e',
    In (s, e) l -> In (s', e') l -> s <= d <= e -> s' <= d <= e' ->
    (s, e) = (s', e').
Proof.
  induction 1 as [a b Hab|a e0 b l Hae Hch IH]; intros d s e s' e' H1 H2 Hd Hd'.
  - destruct H1 as [<-|[]], H2 as [<-|[]]. reflexivity.
  - destruct H1 as [E1|H1], H2 as [E2|H2].
    + congruence.
    + injection E1 as <- <-.
      pose proof (chain_bounds _ _ _ Hch _ _ H2). lia.
    + injection E2 as <- <-.
      pose proof (chain_bounds _ _ _ Hch _ _ H1). lia.
    + now apply (IH d).
Qed.

Lemma chain_first a b l : Chain a b l -> exists e rest, l = (a, e) :: rest.
Proof. destruct 1; eauto. Qed.

Lemma chain_final a b l : Chain a b l -> exists init s, l = (init ++ [(s, b)])%list.
Proof.
  induction 1 as [a b Hab|a e b l Hae Hch (init & s & ->)].
  - exists [], a. reflexivity.
  - exists ((a, e) :: init), s. reflexivity.
Qed.

Section SpansFacts.
Context (dow : Z -> Z) (K L : Z).
Context (Hdow : forall d, dow d = (K + d) mod 7).

Lemma dow_bounds d : 0 <= dow d < 7.
Proof. rewrite Hdow. apply Z.mod_pos_bound. lia. Qed.

Lemma week_ends_saturday c : dow (c + (6 - dow c)) = 6.
Proof.
  rewrite !Hdow.
  replace (K + (c + (6 - (K + c) mod 7)))
    with (6 + ((K + c) / 7) * 7) by (pose proof (Z.div_mod (K + c) 7); lia).
  now rewrite Z.mod_add by lia.
Qed.

Lemma week_starts_sunday c : dow (c + (6 - dow c) + 1) = 0.
Proof.
  rewrite !Hdow.
  replace (K + (c + (6 - (K + c) mod 7) + 1))
    with (0 + ((K + c) / 7 + 1) * 7) by (pose proof (Z.div_mod (K + c) 7); lia).
  now rewrite Z.mod_add by lia.
Qed.

Lemma spans_chain c l : WeekSpans dow L c l -> c <= L -> Chain c L l.
Proof.
  induction 1 as [c Hc|c l Hc Hnext IH]; intros Hle; [lia|].
  pose proof (dow_bounds c) as Hw.
  destruct (Z_le_gt_dec (Z.min (c + (6 - dow c)) L + 1) L) as [Hin|Hout].
  - apply chain_next; [lia|]. now apply IH.
  - inversion Hnext; subst; [|lia].
    replace (Z.min (c + (6 - dow c)) L) with L by lia.
    now apply chain_last.
Qed.

Lemma spans_at_most_a_week c l :
  WeekSpans dow L c l -> Forall (fun sp => 1 <= spanDays sp <= 7) l.
Proof.
  induction 1 as [c Hc|c l Hc Hnext IH]; constructor; [|assumption].
  pose proof (dow_bounds c). unfold spanDays. cbn [fst snd]. lia.
Qed.

Lemma spans_cons_inv c sp l :
  WeekSpans dow L c (sp :: l) ->
  c <= L /\ sp = (c, Z.min (c + (6 - dow c)) L)
  /\ WeekSpans dow L (Z.min (c + (6 - dow c)) L + 1) l.
Proof.
  intros H. remember (sp :: l) as spl eqn:E.
  destruct H as [c Hc|c l' Hc Hnext]; [discriminate|].
  assert (E1 : sp = (c, Z.min (c + (6 - dow c)) L)) by congruence.
  assert (E2 : l = l') by congruence.
  subst. auto.
Qed.

(** A span that is followed by another one ends on a Saturday, and the one
    that follows starts on a Sunday. *)
Lemma spans_boundary c sp sp' l :
  WeekSpans dow L c (sp :: sp' :: l) ->
  fst sp = c /\ snd sp = c + (6 - dow c)
  /\ dow (snd sp) = 6 /\ dow (fst sp') = 0
  /\ WeekSpans dow L (fst sp') (sp' :: l).
Proof.
  intros H. destruct (spans_cons_inv _ _ _ H) as (Hc & -> & Hnext).
  destruct (spans_cons_inv _ _ _ Hnext) as (Hc' & E' & _).
  assert (E : Z.min (c + (6 - dow c)) L = c + (6 - dow c)) by lia.
  rewrite E in *. rewrite E'. cbn [fst snd]. repeat split.
  - apply week_ends_saturday.
  - apply week_starts_sunday.
  - rewrite <- E'. exact Hnext.
Qed.

(** A span with a span before it and a span after it is a full week. *)
Lemma spans_middle_full l1 :
  forall c sp l2,
    WeekSpans dow L c (l1 ++ sp :: l2) -> l1 <> [] -> l2 <> [] ->
    spanDays sp = 7 /\ dow (fst sp) = 0 /\ dow (snd sp) = 6.
Proof.
  induction l1 as [|x l1 IH]; intros c sp l2 H Hl1 Hl2; [congruence|].
  destruct l1 as [|x' l1].
  - simpl in H. destruct l2 as [|sp2 l2]; [congruence|].
    destruct (spans_boundary _ _ _ _ H) as (_ & _ & _ & Hsun & Hrest).
    destruct (spans_boundary _ _ _ _ Hrest) as (_ & Hend & Hsat & _ & _).
    unfold spanDays. rewrite Hend, Hsun in *. repeat split; try assumption; lia.
  - simpl in H.
    destruct (spans_boundary _ _ _ _ H) as (_ & _ & _ & _ & Hrest).
    apply (IH _ _ _ Hrest); [discriminate|assumption].
Qed.

End SpansFacts.

Section SpansAlignment.
Context (dow : Z -> Z) (K L : Z).
Context (Hdow : forall d, dow d = (K + d) mod 7).

Lemma spans_not_last l1 :
  forall c sp l2,
    WeekSpans dow L c (l1 ++ sp :: l2) -> l2 <> [] -> dow (snd sp) = 6.
Proof.
  induction l1 as [|x l1 IH]; intros c sp l2 H Hl2.
  - destruct l2 as [|sp2 l2]; [congruence|].
    now destruct (spans_boundary dow K L Hdow _ _ _ _ H) as (_ & _ & Hsat & _).
  - destruct (spans_cons_inv dow L _ _ _ H) as (_ & _ & Hnext).
    now apply (IH _ _ _ Hnext).
Qed.

Lemma spans_not_first l1 :
  forall c sp l2,
    WeekSpans dow L c (l1 ++ sp :: l2) -> l1 <> [] -> dow (fst sp) = 0.
Proof.
  induction l1 as [|x l1 IH]; intros c sp l2 H Hl1; [congruence|].
  destruct l1 as [|x' l1].
  - now destruct (spans_boundary dow K L Hdow _ _ _ _ H) as (_ & _ & _ & Hsun & _).
  - destruct (spans_cons_inv dow L _ _ _ H) as (_ & _ & Hnext).
    apply (IH _ _ _ Hnext). discriminate.
Qed.

End SpansAlignment.

(** ** Facts about the filter effect *)

Section FilterFacts.
Context (env : Env).

Lemma applyFilters_nil filter month week : applyFilters env filter month week [] = [].
Proof.
  unfold applyFilters.
  destruct filter, week as [w|], (month =? "all")%string; reflexivity.
Qed.

Lemma filterEffect_filtered st :
  PageState.filteredData st = [] \/ PageState.data st <> [] ->
  PageState.filteredData (filterEffect env st)
  = applyFilters env (PageState.filter (filterEffect env st))
      (PageState.selectedMonth (filterEffect env st))
      (PageState.selectedWeek (filterEffect env st))
      (PageState.data (filterEffect env st)).
Proof.
  unfold filterEffect. destruct (PageState.data st) eqn:E.
  - intros [H|H]; [|congruence]. now rewrite E, applyFilters_nil.
  - intros _. cbn. now rewrite E.
Qed.

Lemma handle_keeps_fetched e st :
  PageState.data (handle env e st) = PageState.data st
  /\ PageState.filteredData (handle env e st) = PageState.filteredData st
  /\ PageState.salesByPerson (handle env e st) = PageState.salesByPerson st.
Proof.
  destruct e; cbn; auto.
  - destruct (negb _); cbn; auto.
  - destruct (_ && _); auto. destruct (nth_error _ _); cbn; auto.
Qed.

Lemma monthEffect_keeps_fetched before st :
  PageState.data (monthEffect before st) = PageState.data st
  /\ PageState.filteredData (monthEffect before st) = PageState.filteredData st
  /\ PageState.salesByPerson (monthEffect before st) = PageState.salesByPerson st.
Proof. unfold monthEffect. destruct (_ =? _)%string; cbn; auto. Qed.

Lemma filterEffect_keeps st :
  PageState.data (filterEffect env st) = PageState.data st
  /\ PageState.salesByPerson (filterEffect env st) = PageState.salesByPerson st
  /\ PageState.filter (filterEffect env st) = PageState.filter st
  /\ PageState.selectedMonth (filterEffect env st) = PageState.selectedMonth st
  /\ PageState.selectedWeek (filterEffect env st) = PageState.selectedWeek st.
Proof.
  unfold filterEffect. destruct (PageState.data st) eqn:E; cbn; rewrite ?E;
    repeat split.
Qed.

Lemma onUi_keeps_fetched st e :
  PageState.data (onUi env st e) = PageState.data st
  /\ PageState.salesByPerson (onUi env st e) = PageState.salesByPerson st.
Proof.
  unfold onUi.
  destruct (filterEffect_keeps (monthEffect st (handle env e st))) as (-> & -> & _).
  destruct (monthEffect_keeps_fetched st (handle env e st)) as (-> & _ & ->).
  destruct (handle_keeps_fetched e st) as (-> & _ & ->). auto.
Qed.

(** In every state of the page the displayed rows are the filter pipeline
    applied to the fetched aggregates. *)
Lemma reachable_filtered st :
  Reachable env st ->
  PageState.filteredData st
  = applyFilters env (PageState.filter st) (PageState.selectedMonth st)
      (PageState.selectedWeek st) (PageState.data st).
Proof.
  induction 1 as [|st rows Hst IH|st e Hst IH].
  - reflexivity.
  - unfold onFetch. apply filterEffect_filtered. cbn.
    destruct (aggregated env rows); [now left|right; discriminate].
  - unfold onUi. apply filterEffect_filtered.
    destruct (monthEffect_keeps_fetched st (handle env e st)) as (-> & -> & _).
    destruct (handle_keeps_fetched e st) as (-> & -> & _).
    destruct (PageState.data st) eqn:E; [left|right; discriminate].
    rewrite IH, ?E. apply applyFilters_nil.
Qed.

Lemma fold_onUi_keeps_fetched evs st :
  PageState.data (fold_left (onUi env) evs st) = PageState.data st
  /\ PageState.salesByPerson (fold_left (onUi env) evs st)
     = PageState.salesByPerson st.
Proof.
  revert st. induction evs as [|e evs IH]; intros st; simpl; [auto|].
  destruct (IH (onUi env st e)) as [-> ->]. apply onUi_keeps_fetched.
Qed.

End FilterFacts.

(** ** Properties of the row normaliser *)

Lemma fold_left_float_ext {A} (f g : A -> float) l z :
  Forall (fun a => f a = g a) l ->
  fold_left (fun sum a => (sum + f a)%float) l z
  = fold_left (fun sum a => (sum + g a)%float) l z.
Proof.
  intros H. revert z. induction H as [|a l Ha _ IH]; intros z; simpl.
  - reflexivity.
  - rewrite Ha. apply IH.
Qed.

Lemma aggregate_of_bucket env rows :
  Forall (fun a =>
            AggregatedRow.SalesCount a
            = Z.of_nat (List.length (bucket env rows (AggregatedRow.Date a)))
            /\ AggregatedRow.Revenue a
               = parsedRevenueSum env (bucket env rows (AggregatedRow.Date a)))
         (aggregated env rows).
Proof.
  apply Forall_forall. intros a Hin.
  destruct (aggregate_fields env rows a Hin)
    as (r0 & b & Hb & _ & _ & _ & Hc & Hr & _).
  rewrite Hb. now split.
Qed.

(** C1, as amended.  The sales counts of the aggregates add up to the number
    of valid rows, and there is one aggregate per date.  The revenue of an
    aggregate is the sum, taken from 0 in sheet order with binary64
    additions, of the parsed revenues of the valid rows of its date; so the
    total revenue over the aggregates is the sum of these per-date sums. *)
Theorem conservation_by_date (env : Env) (rows : list RawRow.t) :
  sumSalesCount (aggregated env rows) = Z.of_nat (List.length (validRows rows))
  /\ NoDup (map AggregatedRow.Date (aggregated env rows))
  /\ Forall (fun a =>
               AggregatedRow.SalesCount a
               = Z.of_nat (List.length (bucket env rows (AggregatedRow.Date a)))
               /\ AggregatedRow.Revenue a
                  = parsedRevenueSum env (bucket env rows (AggregatedRow.Date a)))
            (aggregated env rows)
  /\ sumRevenue (aggregated env rows)
     = fold_left
         (fun sum a =>
            (sum + parsedRevenueSum env (bucket env rows (AggregatedRow.Date a)))%float)
         (aggregated env rows) 0%float.
Proof.
  split; [apply sumSalesCount_aggregated|].
  split; [apply aggregated_dates_NoDup|].
  split; [apply aggregate_of_bucket|].
  unfold sumRevenue. apply fold_left_float_ext.
  eapply Forall_impl; [|apply aggregate_of_bucket]. intros a [_ H]. exact H.
Qed.

(** C1, as stated, fails on the revenue: with revenues 0.1, 0.2 and 0.3 the
    total over the aggregates differs from the sum of the parsed revenues
    of the rows, and it changes when the same revenues, in the same order,
    are dated differently. *)
Lemma revenue_total_depends_on_dates :
  sumRevenue (aggregated Sample.env Sheet.lateGroup)
  <> parsedRevenueSum Sample.env (validRows Sheet.lateGroup)
  /\ map (revenueOf Sample.env) (validRows Sheet.lateGroup)
     = map (revenueOf Sample.env) (validRows Sheet.earlyGroup)
  /\ sumRevenue (aggregated Sample.env Sheet.lateGroup)
     <> sumRevenue (aggregated Sample.env Sheet.earlyGroup).
Proof.
  split; [|split].
  - intros H.
    apply (f_equal (fun x =>
             PrimFloat.eqb x (parsedRevenueSum Sample.env
                                (validRows Sheet.lateGroup)))) in H.
    vm_compute in H. discriminate H.
  - reflexivity.
  - intros H.
    apply (f_equal (fun x =>
             PrimFloat.eqb x (sumRevenue (aggregated Sample.env
                                            Sheet.earlyGroup)))) in H.
    vm_compute in H. discriminate H.
Qed.

(** The two totals of that sheet, as JavaScript prints them: 0.6 over the
    aggregates and 0.6000000000000001 over the rows. *)
Example revenue_totals_of_late_group :
  aggregated Sample.env Sheet.lateGroup
  = [AggregatedRow.mk "2024-04-01" 1 0.1%float ["A"] "April" "2024";
     AggregatedRow.mk "2024-04-02" 2 0.5%float ["B"; "C"] "April" "2024"]
  /\ sumRevenue (aggregated Sample.env Sheet.lateGroup) = 0.6%float
  /\ parsedRevenueSum Sample.env (validRows Sheet.lateGroup)
     = 0.6000000000000001%float.
Proof. repeat split; reflexivity. Qed.

Lemma lacks_not_truthy o : lacks o -> JS.truthy o = false.
Proof. intros [->| ->]; reflexivity. Qed.

Lemma truthy_iff o : JS.truthy o = true <-> exists s, o = Some s /\ s <> "".
Proof.
  destruct o as [s|]; simpl.
  - destruct (String.eqb_spec s "") as [->|Hne]; simpl.
    + split; [discriminate|]. intros (s & E & Hs). now injection E as <-.
    + split; [|reflexivity]. intros _. now exists s.
  - split; [discriminate|]. intros (s & E & _). discriminate E.
Qed.

Lemma validRows_discard l1 r l2 :
  validRow r = false -> validRows (l1 ++ r :: l2) = validRows (l1 ++ l2).
Proof.
  intros H. unfold validRows. rewrite !filter_app. simpl. now rewrite H.
Qed.

(** C4.  Revenue coercion never fails the batch: a revenue that is absent
    or that [Number] reads as NaN contributes 0, and every valid row, numeric
    or not, is counted in the aggregate of its date.  A record lacking a date
    or a revenue value is discarded before aggregation: the aggregates, the
    per-person totals and the month list are those of the sheet without it,
    so a row without Revenue is not counted as a sale of revenue 0. *)
Theorem coercion_and_discard (env : Env) :
  (forall row,
      (RawRow.Revenue row = None
       \/ exists s, RawRow.Revenue row = Some s
                    /\ PrimFloat.is_nan (Number env s) = true) ->
      revenueOf env row = 0%float)
  /\ (forall rows r,
         In r rows -> validRow r = true ->
         exists a b,
           In a (aggregated env rows)
           /\ AggregatedRow.Date a = dateKey env r
           /\ bucket env rows (dateKey env r) = b /\ In r b
           /\ AggregatedRow.SalesCount a = Z.of_nat (List.length b))
  /\ (forall l1 r l2,
         lacks (RawRow.Date r) \/ lacks (RawRow.Revenue r) ->
         validRows (l1 ++ r :: l2) = validRows (l1 ++ l2)
         /\ aggregated env (l1 ++ r :: l2) = aggregated env (l1 ++ l2)
         /\ personArray env (l1 ++ r :: l2) = personArray env (l1 ++ l2)
         /\ uniqueMonths env (l1 ++ r :: l2) = uniqueMonths env (l1 ++ l2)).
Proof.
  split; [|split].
  - intros row [H|(s & H & Hnan)]; unfold revenueOf; rewrite H.
    + reflexivity.
    + unfold JS.orZero, JS.falsy. now rewrite Hnan.
  - intros rows r Hin Hv.
    assert (Hr : In r (validRows rows)) by (apply filter_In; now split).
    destruct (bucket_aggregated env rows r Hr) as (a & Ha & Hagg).
    destruct (aggregate_fields env rows a Ha)
      as (r0 & b & Hb & Hd & _ & _ & Hc & _ & _).
    assert (Hrb : In r (bucket env rows (dateKey env r))).
    { apply filter_In. split; [assumption|apply String.eqb_refl]. }
    assert (Hda : AggregatedRow.Date a = dateKey env r).
    { unfold bucketAggregate in Hagg.
      destruct (bucket env rows (dateKey env r)) as [|r1 b1] eqn:E;
        [discriminate|].
      injection Hagg as <-.
      change (fold_left _ (r1 :: b1) (newEntry env r1))
        with (fold_left (fun a r => addSale env r a) (r1 :: b1) (newEntry env r1)).
      rewrite fold_addSale. simpl.
      assert (H1 : In r1 (bucket env rows (dateKey env r)))
        by (rewrite E; now left).
      apply filter_In in H1. now apply String.eqb_eq. }
    exists a, (bucket env rows (dateKey env r)).
    repeat split; try assumption.
    rewrite Hc, <- Hb, Hda. reflexivity.
  - intros l1 r l2 Hl.
    assert (Hv : validRow r = false).
    { unfold validRow. destruct Hl as [Hl|Hl]; rewrite (lacks_not_truthy _ Hl).
      - reflexivity.
      - apply andb_false_r. }
    pose proof (validRows_discard l1 r l2 Hv) as E.
    unfold uniqueMonths, aggregated, personArray, dailyMap, personMap.
    rewrite E. repeat split; reflexivity.
Qed.

(** The theorem at the sample runtime: a revenue that is not a number
    counts for 0, its row is counted, and a row without Revenue is dropped. *)
Lemma coercion_and_discard_witness :
  revenueOf Sample.env Sheet.notNumeric = 0%float
  /\ (exists a b,
        In a (aggregated Sample.env (Sheet.scenario ++ [Sheet.notNumeric]))
        /\ AggregatedRow.Date a = "2024-04-03"
        /\ bucket Sample.env (Sheet.scenario ++ [Sheet.notNumeric]) "2024-04-03" = b
        /\ In Sheet.notNumeric b
        /\ AggregatedRow.SalesCount a = Z.of_nat (List.length b))
  /\ aggregated Sample.env (Sheet.scenario ++ Sheet.noRevenue :: [])
     = aggregated Sample.env (Sheet.scenario ++ []).
Proof.
  destruct (coercion_and_discard Sample.env) as (H1 & H2 & H3).
  split; [|split].
  - apply H1. right. exists "abc". split; reflexivity.
  - apply (H2 (Sheet.scenario ++ [Sheet.notNumeric])%list Sheet.notNumeric).
    + vm_compute. tauto.
    + reflexivity.
  - apply (H3 Sheet.scenario Sheet.noRevenue []). right. left. reflexivity.
Defined.

(** C6.  The Clients list of an aggregate has no repeated entry, whatever
    the rows; a client may still be listed under several dates. *)
Theorem clients_dedup_per_date :
  (forall env rows a,
      In a (aggregated env rows) -> NoDup (AggregatedRow.Clients a))
  /\ (exists env rows a b c,
         In a (aggregated env rows) /\ In b (aggregated env rows)
         /\ AggregatedRow.Date a <> AggregatedRow.Date b
         /\ In c (AggregatedRow.Clients a) /\ In c (AggregatedRow.Clients b)).
Proof.
  split.
  - intros env rows a Hin.
    destruct (aggregate_fields env rows a Hin)
      as (r0 & b & _ & _ & _ & _ & _ & _ & Hc).
    rewrite Hc. apply fold_pushClient_NoDup. constructor.
  - exists Sample.env,
      [Sample.row "2024-04-01" "100" "A"; Sample.row "2024-04-01" "50" "A";
       Sample.row "2024-04-02" "75" "A"],
      (AggregatedRow.mk "2024-04-01" 2 150%float ["A"] "April" "2024"),
      (AggregatedRow.mk "2024-04-02" 1 75%float ["A"] "April" "2024"),
      "A".
    vm_compute. repeat split; try tauto. discriminate.
Qed.

(** The theorem on the scenario of the specification, where client A has
    two rows on 1 April. *)
Lemma clients_dedup_per_date_witness :
  NoDup (AggregatedRow.Clients
           (AggregatedRow.mk "2024-04-01" 2 150%float ["A"] "April" "2024")).
Proof.
  apply (proj1 clients_dedup_per_date Sample.env Sheet.scenario).
  vm_compute. left. reflexivity.
Defined.

Lemma Object_values_single {V} k (v : V) : JS.Object_values [(k, v)] = [v].
Proof.
  unfold JS.Object_values, JS.Object_entries. simpl.
  destruct (JS.arrayIndex k); reflexivity.
Qed.

Lemma aggregated_single env r :
  validRow r = true ->
  aggregated env [r] = [addSale env r (newEntry env r)].
Proof.
  intros Hv. unfold aggregated, dailyMap, validRows. simpl. rewrite Hv. simpl.
  unfold dailyStep. simpl. unfold JS.define. simpl.
  rewrite String.eqb_refl. now rewrite Object_values_single.
Qed.

(** C9.  A record is a valid row exactly when its Date and its Revenue are
    both present and not empty.  A row whose Revenue is the string "0" is
    kept, and alone in a sheet it gives one aggregate with one sale and
    revenue 0; a row whose Revenue is the empty string is dropped, as is a
    row without Revenue. *)
Theorem valid_row_truthiness (env : Env) :
  (forall r,
      validRow r = true
      <-> (exists d, RawRow.Date r = Some d /\ d <> "")
          /\ (exists v, RawRow.Revenue r = Some v /\ v <> ""))
  /\ (forall rows r, In r (validRows rows) <-> In r rows /\ validRow r = true)
  /\ (forall r,
         JS.truthy (RawRow.Date r) = true ->
         RawRow.Revenue r = Some "0" ->
         Number env "0" = 0%float ->
         validRow r = true
         /\ revenueOf env r = 0%float
         /\ aggregated env [r]
            = [AggregatedRow.mk (dateKey env r) 1 0%float (pushClient r [])
                                (monthOf env r) (yearOf env r)])
  /\ (forall r,
         RawRow.Revenue r = Some "" \/ RawRow.Revenue r = None ->
         validRow r = false
         /\ forall l1 l2,
             aggregated env (l1 ++ r :: l2) = aggregated env (l1 ++ l2)).
Proof.
  split; [|split; [|split]].
  - intros r. unfold validRow. rewrite andb_true_iff, !truthy_iff. reflexivity.
  - intros rows r. apply filter_In.
  - intros r Hd Hr H0.
    assert (Hv : validRow r = true).
    { unfold validRow. rewrite Hd, Hr. reflexivity. }
    assert (Hz : revenueOf env r = 0%float).
    { unfold revenueOf. rewrite Hr, H0. reflexivity. }
    split; [assumption|]. split; [assumption|].
    rewrite (aggregated_single env r Hv). unfold addSale. rewrite Hz.
    reflexivity.
  - intros r Hr.
    assert (Hv : validRow r = false).
    { unfold validRow. destruct Hr as [-> | ->]; apply andb_false_r. }
    split; [assumption|]. intros l1 l2.
    unfold aggregated, dailyMap. now rewrite (validRows_discard l1 r l2 Hv).
Qed.

(** The theorem at the sample runtime: a row with Revenue "0" is one sale
    of revenue 0, and a row without Revenue is not a valid row. *)
Lemma valid_row_truthiness_witness :
  aggregated Sample.env [Sheet.zeroRevenue]
  = [AggregatedRow.mk "2024-04-03" 1 0%float ["C"] "April" "2024"]
  /\ validRow Sheet.noRevenue = false.
Proof.
  destruct (valid_row_truthiness Sample.env) as (_ & _ & H3 & H4).
  split.
  - apply (H3 Sheet.zeroRevenue); reflexivity.
  - apply (H4 Sheet.noRevenue). right. reflexivity.
Defined.







(** ** Properties of the week-range generator *)

(** C2, as amended.  For a "Month Year" text that dayjs reads as a date and
    whose month ends at a valid date, the generator returns (given room for
    31 iterations) at least one range; the ranges are the YYYY-MM-DD
    renderings of day spans that follow one another from day 1 to the last
    day of that month: every day of the month lies in one span and only
    one, and no span starts before day 1 or ends after the last day.  The
    month is the one [startOf('month')] settles on: the month dayjs read,
    in the year as the Date constructor takes it. *)
Theorem week_ranges_cover_month (env : Env) (fuel : nat) (monthYear : string)
    (c0 : Dayjs.Civil) :
  dayjs env (monthStartText monthYear) = Some c0 ->
  Dayjs.wf c0 ->
  Dayjs.isValid (Dayjs.endOf_month (Dayjs.startOf_month (Some c0))) = true ->
  (31 <= fuel)%nat ->
  exists spans,
    getWeeksOfMonth env fuel monthYear
    = Some (map (dayRange (Dayjs.fullYear (Dayjs.year c0)) (Dayjs.month c0)) spans)
    /\ spans <> []
    /\ Chain 1 (Dayjs.daysInMonth (Dayjs.fullYear (Dayjs.year c0)) (Dayjs.month c0)) spans
    /\ (forall d,
           1 <= d <= Dayjs.daysInMonth (Dayjs.fullYear (Dayjs.year c0)) (Dayjs.month c0)
           <-> exists s e, In (s, e) spans /\ s <= d <= e)
    /\ (forall d s e s' e',
           In (s, e) spans -> In (s', e') spans ->
           s <= d <= e -> s' <= d <= e' -> (s, e) = (s', e'))
    /\ (forall s e,
           In (s, e) spans ->
           1 <= s /\ s <= e
           /\ e <= Dayjs.daysInMonth (Dayjs.fullYear (Dayjs.year c0)) (Dayjs.month c0)).
Proof.
  intros Hparse (Hm & _ & _) Hend Hfuel.
  pose proof (daysInMonth_bounds (Dayjs.fullYear (Dayjs.year c0))
                (Dayjs.month c0)) as HL.
  destruct (valid_month_inRange c0 Hm Hend) as [Hlo Hhi].
  destruct (getWeeksOfMonth_spans env _ _ Hm (fullYear_idem _) Hlo Hhi fuel
              monthYear c0 Hparse eq_refl eq_refl Hfuel)
    as (spans & Hspans & Hget).
  destruct (dayOfWeek_linear (Dayjs.fullYear (Dayjs.year c0)) (Dayjs.month c0)) as [K HK].
  assert (Hch : Chain 1 (Dayjs.daysInMonth (Dayjs.fullYear (Dayjs.year c0)) (Dayjs.month c0)) spans)
    by (apply (spans_chain _ K _ HK _ _ Hspans); lia).
  exists spans. split; [assumption|].
  split; [now apply chain_nonempty in Hch|].
  split; [assumption|].
  split; [now apply chain_cover|].
  split; [now apply (chain_disjoint _ _ _ Hch)|].
  now apply chain_bounds.
Qed.

(** The theorem for April 2024, at the sample runtime. *)
Lemma week_ranges_cover_month_witness :
  exists spans,
    getWeeksOfMonth Sample.env 31 "April 2024"
    = Some (map (dayRange 2024 3) spans)
    /\ spans <> []
    /\ Chain 1 30 spans
    /\ (forall d, 1 <= d <= 30 <-> exists s e, In (s, e) spans /\ s <= d <= e)
    /\ (forall d s e s' e',
           In (s, e) spans -> In (s', e') spans ->
           s <= d <= e -> s' <= d <= e' -> (s, e) = (s', e'))
    /\ (forall s e, In (s, e) spans -> 1 <= s /\ s <= e /\ e <= 30).
Proof.
  apply (week_ranges_cover_month Sample.env 31 "April 2024"
           (Dayjs.mkCivil 2024 3 1 0)).
  - reflexivity.
  - repeat split; vm_compute; congruence.
  - reflexivity.
  - lia.
Defined.

(** C2, as stated, fails where the range of dates ends: dayjs reads
    September 275760 and 1 September is a valid date, but 30 September lies
    past the last date, 13 September 275760, so the end of the month is
    invalid, the loop never runs and the generator returns no range. *)
Lemma last_month_has_no_range :
  dayjs Sample.env (monthStartText "September 275760")
  = Some (Dayjs.mkCivil 275760 8 1 0)
  /\ Dayjs.wf (Dayjs.mkCivil 275760 8 1 0)
  /\ Dayjs.startOf_month (Some (Dayjs.mkCivil 275760 8 1 0))
     = Some (Dayjs.mkCivil 275760 8 1 0)
  /\ Dayjs.endOf_month (Some (Dayjs.mkCivil 275760 8 1 0)) = None
  /\ getWeeksOfMonth Sample.env 31 "September 275760" = Some [].
Proof.
  split; [reflexivity|]. split; [repeat split; vm_compute; congruence|].
  repeat split; reflexivity.
Qed.

(** C5, as amended.  For a "Month Year" text that dayjs reads as a date and
    whose month ends at a valid date, the first range starts on day 1 of
    the month and the last range ends on its last day; every range has at
    most 7 days; a range that has a range before it starts on a Sunday, a
    range that has a range after it ends on a Saturday, and a range with
    both has exactly 7 days. *)
Theorem week_ranges_alignment (env : Env) (fuel : nat) (monthYear : string)
    (c0 : Dayjs.Civil) :
  dayjs env (monthStartText monthYear) = Some c0 ->
  Dayjs.wf c0 ->
  Dayjs.isValid (Dayjs.endOf_month (Dayjs.startOf_month (Some c0))) = true ->
  (31 <= fuel)%nat ->
  exists spans,
    getWeeksOfMonth env fuel monthYear
    = Some (map (dayRange (Dayjs.fullYear (Dayjs.year c0)) (Dayjs.month c0)) spans)
    /\ (exists e rest, spans = (1, e) :: rest)
    /\ (exists init s,
           spans
           = (init ++ [(s, Dayjs.daysInMonth (Dayjs.fullYear (Dayjs.year c0)) (Dayjs.month c0))])%list)
    /\ Forall (fun sp => 1 <= spanDays sp <= 7) spans
    /\ (forall l1 sp l2,
           spans = (l1 ++ sp :: l2)%list ->
           (l1 <> [] ->
            Dayjs.dayOfWeek (Dayjs.fullYear (Dayjs.year c0)) (Dayjs.month c0) (fst sp) = 0)
           /\ (l2 <> [] ->
               Dayjs.dayOfWeek (Dayjs.fullYear (Dayjs.year c0)) (Dayjs.month c0) (snd sp) = 6)
           /\ (l1 <> [] -> l2 <> [] -> spanDays sp = 7)).
Proof.
  intros Hparse (Hm & _ & _) Hend Hfuel.
  pose proof (daysInMonth_bounds (Dayjs.fullYear (Dayjs.year c0))
                (Dayjs.month c0)) as HL.
  destruct (valid_month_inRange c0 Hm Hend) as [Hlo Hhi].
  destruct (getWeeksOfMonth_spans env _ _ Hm (fullYear_idem _) Hlo Hhi fuel
              monthYear c0 Hparse eq_refl eq_refl Hfuel)
    as (spans & Hspans & Hget).
  destruct (dayOfWeek_linear (Dayjs.fullYear (Dayjs.year c0)) (Dayjs.month c0)) as [K HK].
  assert (Hch : Chain 1 (Dayjs.daysInMonth (Dayjs.fullYear (Dayjs.year c0)) (Dayjs.month c0)) spans)
    by (apply (spans_chain _ K _ HK _ _ Hspans); lia).
  exists spans. split; [assumption|].
  split; [now apply chain_first in Hch|].
  split; [now apply chain_final in Hch|].
  split; [now apply (spans_at_most_a_week _ K _ HK _ _ Hspans)|].
  intros l1 sp l2 ->. split; [|split].
  - intros Hl1. now apply (spans_not_first _ K _ HK _ _ _ _ Hspans).
  - intros Hl2. now apply (spans_not_last _ K _ HK _ _ _ _ Hspans).
  - intros Hl1 Hl2.
    now destruct (spans_middle_full _ K _ HK _ _ _ _ Hspans Hl1 Hl2).
Qed.

(** The theorem for June 2024, at the sample runtime. *)
Lemma week_ranges_alignment_witness :
  exists spans,
    getWeeksOfMonth Sample.env 31 "June 2024"
    = Some (map (dayRange 2024 5) spans)
    /\ (exists e rest, spans = (1, e) :: rest)
    /\ (exists init s, spans = (init ++ [(s, 30)])%list)
    /\ Forall (fun sp => 1 <= spanDays sp <= 7) spans
    /\ (forall l1 sp l2,
           spans = (l1 ++ sp :: l2)%list ->
           (l1 <> [] -> Dayjs.dayOfWeek 2024 5 (fst sp) = 0)
           /\ (l2 <> [] -> Dayjs.dayOfWeek 2024 5 (snd sp) = 6)
           /\ (l1 <> [] -> l2 <> [] -> spanDays sp = 7)).
Proof.
  apply (week_ranges_alignment Sample.env 31 "June 2024"
           (Dayjs.mkCivil 2024 5 1 0)).
  - reflexivity.
  - repeat split; vm_compute; congruence.
  - reflexivity.
  - lia.
Defined.

(** C5, as stated, fails: April 2024 starts on a Monday, so its first
    range, which is not the final one, runs from the 1st to Saturday the
    6th and has 6 days. *)
Lemma first_week_is_short :
  getWeeksOfMonth Sample.env 31 "April 2024"
  = Some (map (dayRange 2024 3) [(1, 6); (7, 13); (14, 20); (21, 27); (28, 30)])
  /\ ~ onlyFinalShort [(1, 6); (7, 13); (14, 20); (21, 27); (28, 30)].
Proof.
  split; [reflexivity|]. intros H.
  specialize (H [] (1, 6) [(7, 13); (14, 20); (21, 27); (28, 30)] eq_refl).
  unfold spanDays in H. cbn [fst snd] in H.
  assert (E : 6 - 1 + 1 = 7) by (apply H; discriminate).
  discriminate E.
Qed.

(** ** Properties of the filter pipeline *)

(** C7.  With mode "all" and month "all" the filter pipeline returns its
    input unchanged, and in every state of the page with these selections
    the displayed rows are the fetched aggregates. *)
Theorem all_mode_is_identity (env : Env) :
  (forall data week, applyFilters env AllData "all" week data = data)
  /\ (forall st,
         Reachable env st ->
         PageState.filter st = AllData ->
         PageState.selectedMonth st = "all" ->
         PageState.filteredData st = PageState.data st
         /\ salesSeries st = PageState.data st).
Proof.
  split.
  - reflexivity.
  - intros st Hst Hf Hm. unfold salesSeries.
    rewrite (reachable_filtered env st Hst), Hf, Hm. split; reflexivity.
Qed.

(** The theorem on the page that has just fetched the scenario of the
    specification. *)
Lemma all_mode_is_identity_witness :
  PageState.filteredData (onFetch Sample.env Sheet.scenario initialState)
  = PageState.data (onFetch Sample.env Sheet.scenario initialState)
  /\ salesSeries (onFetch Sample.env Sheet.scenario initialState)
     = PageState.data (onFetch Sample.env Sheet.scenario initialState).
Proof.
  apply (proj2 (all_mode_is_identity Sample.env)).
  - apply reach_fetch, reach_initial.
  - reflexivity.
  - reflexivity.
Defined.

(** C8.  Whatever the selections of the page when a sheet is fetched, and
    whatever clicks and selections follow, the series of the pie chart
    is the per-person totals of all valid rows of that sheet; so it is the
    same after any two sequences of clicks and selections. *)
Theorem person_series_ignores_filters (env : Env) (rows : list RawRow.t)
    (st : PageState.t) (evs1 evs2 : list UiEvent) :
  personSeries (fold_left (onUi env) evs1 (onFetch env rows st))
  = personArray env rows
  /\ personSeries (fold_left (onUi env) evs1 (onFetch env rows st))
     = personSeries (fold_left (onUi env) evs2 (onFetch env rows st)).
Proof.
  assert (H : forall evs,
             personSeries (fold_left (onUi env) evs (onFetch env rows st))
             = personArray env rows).
  { intros evs. unfold personSeries.
    destruct (fold_onUi_keeps_fetched env evs (onFetch env rows st)) as [_ ->].
    unfold onFetch.
    now destruct (filterEffect_keeps env (fetched env rows st)) as (_ & -> & _). }
  split; [apply H|]. now rewrite !H.
Qed.

Lemma weekly_range_filter env data month week s e :
  month <> "all" ->
  dayjs env (WeekRange.start week) = Some s ->
  dayjs env (WeekRange.end_ week) = Some e ->
  applyFilters env Weekly month (Some week) data
  = List.filter
      (fun item => negb (Dayjs.isBefore (itemDate env item) (Some s))
                   && negb (Dayjs.isAfter (itemDate env item) (Some e)))
      data.
Proof.
  intros Hm Hs He. unfold applyFilters.
  apply String.eqb_neq in Hm. rewrite Hm, Hs, He. reflexivity.
Qed.

Lemma weekly_fallback_filter env data month week :
  month = "all" \/ week = None ->
  applyFilters env Weekly month week data
  = List.filter (laterThanDaysAgo env 7) data.
Proof.
  intros H. unfold applyFilters.
  rewrite andb_false_r.
  destruct H as [-> | ->].
  - destruct week; reflexivity.
  - destruct (month =? "all")%string; reflexivity.
Qed.

(** What weekly mode computes.  With a month and a week selected, an
    aggregate whose date dayjs can read is kept exactly when that date lies
    in the week's range, both ends included.  With no month or no week
    selected, the filter keeps exactly the aggregates dated after the
    instant seven days before now.  The month filter is not applied in
    weekly mode: after selecting a month and then weekly mode, no week is
    selected and the page shows the aggregates of that seven-day filter,
    not those of the month. *)
Lemma weekly_filter (env : Env) :
  (forall data month week s e,
      month <> "all" ->
      dayjs env (WeekRange.start week) = Some s ->
      dayjs env (WeekRange.end_ week) = Some e ->
      forall a d,
        itemDate env a = Some d ->
        (In a (applyFilters env Weekly month (Some week) data)
         <-> In a data /\ Dayjs.leb s d = true /\ Dayjs.leb d e = true))
  /\ (forall data month week,
         month = "all" \/ week = None ->
         applyFilters env Weekly month week data
         = List.filter (laterThanDaysAgo env 7) data)
  /\ (forall n a,
         laterThanDaysAgo env n a = true
         <-> exists d ago,
             itemDate env a = Some d /\ daysAgo env n = Some ago
             /\ Dayjs.ltb ago d = true)
  /\ (forall st m,
         Reachable env st ->
         PageState.selectedMonth st <> m ->
         let st' := onUi env (onUi env st (SelectMonth m)) ClickThisWeek in
         PageState.filter st' = Weekly
         /\ PageState.selectedMonth st' = m
         /\ PageState.selectedWeek st' = None
         /\ PageState.filteredData st'
            = List.filter (laterThanDaysAgo env 7) (PageState.data st)).
Proof.
  split; [|split; [|split]].
  - intros data month week s e Hm Hs He a d Hd.
    rewrite (weekly_range_filter env data month week s e Hm Hs He).
    rewrite filter_In, Hd, andb_true_iff. unfold Dayjs.isBefore, Dayjs.isAfter.
    fold (Dayjs.leb s d). fold (Dayjs.leb d e). reflexivity.
  - apply weekly_fallback_filter.
  - intros n a. unfold laterThanDaysAgo, Dayjs.isAfter. split.
    + destruct (itemDate env a) as [d|]; [|discriminate].
      destruct (daysAgo env n) as [ago|]; [|discriminate].
      intros H. now exists d, ago.
    + intros (d & ago & -> & -> & H). exact H.
  - intros st m Hst Hne st'.
    assert (Hr : Reachable env st') by (apply reach_ui, reach_ui, Hst).
    pose proof (reachable_filtered env st' Hr) as Hf.
    assert (Hsel : PageState.filter st' = Weekly
                   /\ PageState.selectedMonth st' = m
                   /\ PageState.selectedWeek st' = None
                   /\ PageState.data st' = PageState.data st).
    { unfold st'.
      destruct (onUi_keeps_fetched env (onUi env st (SelectMonth m)) ClickThisWeek)
        as [-> _].
      destruct (onUi_keeps_fetched env st (SelectMonth m)) as [-> _].
      unfold onUi at 1 3 5.
      destruct (filterEffect_keeps env
                  (monthEffect (onUi env st (SelectMonth m))
                     (handle env ClickThisWeek (onUi env st (SelectMonth m)))))
        as (_ & _ & -> & -> & ->).
      assert (Hmid : PageState.selectedMonth (onUi env st (SelectMonth m)) = m
                     /\ PageState.selectedWeek (onUi env st (SelectMonth m)) = None).
      { unfold onUi.
        destruct (filterEffect_keeps env
                    (monthEffect st (handle env (SelectMonth m) st)))
          as (_ & _ & _ & -> & ->).
        unfold monthEffect. cbn.
        apply String.eqb_neq in Hne. rewrite Hne. cbn. auto. }
      destruct Hmid as [Hmm Hmw].
      unfold monthEffect, handle. rewrite Hmm.
      destruct (negb (m =? "all")%string); cbn; rewrite ?Hmm, String.eqb_refl;
        cbn; rewrite ?Hmw; auto. }
    destruct Hsel as (H1 & H2 & H3 & H4).
    rewrite Hf, H1, H2, H3, H4.
    repeat split. apply weekly_fallback_filter. now right.
Qed.

(** C3.  The code misses the window the claim states, and that its own
    comment promises ("Default weekly -> last 7 days"): at noon of 10 April
    2024, weekly mode with no week chosen keeps an aggregate dated 20
    April, which is not within the seven days ending now. *)
Lemma weekly_fallback_keeps_future_dates :
  applyFilters Sample.env Weekly "all" None [Sheet.dated "2024-04-20"]
  = [Sheet.dated "2024-04-20"]
  /\ List.filter (withinTrailingDays Sample.env 7) [Sheet.dated "2024-04-20"]
     = [].
Proof. split; reflexivity. Qed.

(** With a week selected, the aggregate of the unreadable dates passes the
    range test, since both comparisons with an invalid date are false; the
    daily, seven-day and thirty-day tests drop it. *)
Lemma weekly_range_keeps_unreadable_date :
  applyFilters Sample.env Weekly "April 2024" (Some Sheet.firstWeek)
    [Sheet.dated "2024-04-03"; Sheet.dated "2024-04-07"; Sheet.unknown]
  = [Sheet.dated "2024-04-03"; Sheet.unknown].
Proof. reflexivity. Qed.

(** A month label that dayjs cannot read, as the month list offers it when
    some dates are unreadable, has no week. *)
Example unreadable_month_has_no_week :
  getWeeksOfMonth Sample.env 31 "Unknown Unknown" = Some [].
Proof. reflexivity. Qed.

(** The scenario of the specification. *)
Example scenario_totals :
  aggregated Sample.env Sheet.scenario
  = [AggregatedRow.mk "2024-04-01" 2 150%float ["A"] "April" "2024";
     AggregatedRow.mk "2024-04-02" 1 75%float ["B"] "April" "2024"]
  /\ totalSales (onFetch Sample.env Sheet.scenario initialState) = 3
  /\ totalRevenue (onFetch Sample.env Sheet.scenario initialState) = 225%float
  /\ totalClients (onFetch Sample.env Sheet.scenario initialState) = 2.
Proof. repeat split; reflexivity. Qed.

(** ** Further facts and properties: the lists of months and years *)

Lemma unique_from_In seen l x :
  In x (JS.unique_from seen l) <-> In x l /\ ~ In x seen.
Proof.
  revert seen. induction l as [|y l IH]; intros seen; simpl; [tauto|].
  destruct (JS.includes seen y) eqn:E.
  - apply includes_In in E. rewrite IH. split.
    + tauto.
    + intros [[<-|H] Hn]; tauto.
  - assert (Hy : ~ In y seen).
    { intros H. apply includes_In in H. congruence. }
    simpl. rewrite IH. simpl. split.
    + intros [<-|[H Hn]]; tauto.
    + intros [[<-|H] Hn]; [now left|].
      destruct (string_dec y x) as [<-|Hne]; [now left|right; tauto].
Qed.

Lemma unique_from_NoDup seen l : NoDup (JS.unique_from seen l).
Proof.
  revert seen. induction l as [|y l IH]; intros seen; simpl; [constructor|].
  destruct (JS.includes seen y); [apply IH|].
  constructor; [|apply IH].
  rewrite unique_from_In. simpl. tauto.
Qed.

Lemma unique_In l x : In x (JS.unique l) <-> In x l.
Proof. unfold JS.unique. rewrite unique_from_In. simpl. tauto. Qed.

(** X1.  The month list [fetchData] builds has no repeated label, and a
    label is in it exactly when it is the "Month Year" label of some
    aggregate. *)
Theorem uniqueMonths_labels (env : Env) (rows : list RawRow.t) :
  NoDup (uniqueMonths env rows)
  /\ forall label,
       In label (uniqueMonths env rows)
       <-> exists a, In a (aggregated env rows) /\ monthLabel a = label.
Proof.
  split; [apply unique_from_NoDup|].
  intros label. unfold uniqueMonths. rewrite unique_In, in_map_iff.
  split; intros (a & H1 & H2); exists a; tauto.
Qed.

(** X2.  The year list of the page has no repeated year and never offers
    "Unknown" or the empty text; any other text is in it exactly when it is
    the Year of some fetched aggregate. *)
Theorem availableYears_years (st : PageState.t) :
  NoDup (availableYears st)
  /\ ~ In "Unknown" (availableYears st)
  /\ ~ In "" (availableYears st)
  /\ forall y,
       y <> "" -> y <> "Unknown" ->
       (In y (availableYears st)
        <-> exists a, In a (PageState.data st) /\ AggregatedRow.Year a = y).
Proof.
  unfold availableYears. split; [|split; [|split]].
  - apply NoDup_filter, unique_from_NoDup.
  - rewrite filter_In. intros [_ H]. discriminate H.
  - rewrite filter_In. intros [_ H]. discriminate H.
  - intros y H1 H2. rewrite filter_In, unique_In, in_map_iff.
    apply String.eqb_neq in H1, H2. rewrite H1, H2. simpl.
    split.
    + intros [(a & E & Ha) _]. now exists a.
    + intros (a & Ha & E). split; [now exists a|reflexivity].
Qed.

(** The theorem on the page that has fetched the scenario of the
    specification. *)
Lemma availableYears_years_witness :
  In "2024" (availableYears (onFetch Sample.env Sheet.scenario initialState))
  <-> exists a,
      In a (PageState.data (onFetch Sample.env Sheet.scenario initialState))
      /\ AggregatedRow.Year a = "2024".
Proof.
  apply (proj2 (proj2 (proj2
           (availableYears_years
              (onFetch Sample.env Sheet.scenario initialState))))).
  - discriminate.
  - discriminate.
Defined.

(** ** Further facts and properties: the totals per salesperson *)

Section PersonFacts.
Context (env : Env).

(** Under the name [__proto__] nothing is stored. *)
Lemma personStep_proto pm r :
  personOf r = "__proto__" -> personStep env pm r = pm.
Proof.
  intros E. unfold personStep. fold (personOf r). rewrite E.
  unfold JS.write. cbn [String.eqb Ascii.eqb Bool.eqb].
  now destruct (JS.truthySlot _).
Qed.

Lemma personStep_get_other pm r p :
  p <> personOf r -> JS.get p (personStep env pm r) = JS.get p pm.
Proof.
  intros Hne. unfold personStep. fold (personOf r).
  rewrite get_write_other by assumption.
  destruct (JS.truthySlot _); [reflexivity|now apply get_write_other].
Qed.

(** Under any other name the step leaves a value. *)
Lemma personStep_get_some pm r :
  personOf r <> "__proto__" ->
  JS.get (personOf r) (personStep env pm r) <> None.
Proof.
  intros Hne. apply String.eqb_neq in Hne.
  unfold personStep. fold (personOf r).
  rewrite get_write, Hne, String.eqb_refl. discriminate.
Qed.

(** Under a name that is not inherited the step adds numbers. *)
Lemma personStep_get_plain pm r :
  JS.plainKey (personOf r) = true ->
  forall total,
    match JS.get (personOf r) pm with
    | Some v => v = JS.VNumber total
    | None => total = 0%float
    end ->
    JS.get (personOf r) (personStep env pm r)
    = Some (JS.VNumber (addRevenue env total r)).
Proof.
  intros Hp total Hv. unfold JS.plainKey in Hp.
  apply andb_true_iff in Hp. destruct Hp as [Hp Hm].
  apply negb_true_iff in Hp, Hm.
  unfold personStep, addRevenue. fold (personOf r).
  set (pm1 := if JS.truthySlot (JS.read (personOf r) pm) then pm
              else JS.write (personOf r) (JS.VNumber 0) pm).
  assert (H1 : JS.get (personOf r) pm1 = Some (JS.VNumber (JS.orZero total))).
  { unfold pm1, JS.read, JS.orZero.
    destruct (JS.get (personOf r) pm) as [v|] eqn:E.
    - subst v. cbn [JS.truthySlot JS.truthyValue].
      destruct (JS.falsy total); cbn [negb]; [|assumption].
      now rewrite get_write, Hp, String.eqb_refl.
    - subst total. rewrite Hp, Hm. cbn [JS.truthySlot].
      now rewrite get_write, Hp, String.eqb_refl. }
  rewrite get_write, Hp, String.eqb_refl. unfold JS.read. now rewrite H1.
Qed.

Lemma personStep_keys pm r :
  NoDup (map fst pm) -> NoDup (map fst (personStep env pm r)).
Proof.
  intros Hnd. unfold personStep. apply keys_write.
  destruct (JS.truthySlot _); [assumption|now apply keys_write].
Qed.

Lemma fold_personStep_keys l pm :
  NoDup (map fst pm) -> NoDup (map fst (fold_left (personStep env) l pm)).
Proof.
  revert pm. induction l as [|r l IH]; intros pm Hnd; simpl; [assumption|].
  apply IH, personStep_keys, Hnd.
Qed.

(** The names that own an entry. *)
Lemma fold_personStep_key l p :
  JS.get p (fold_left (personStep env) l []) <> None
  <-> p <> "__proto__" /\ exists r, In r l /\ personOf r = p.
Proof.
  induction l as [|r l IH] using rev_ind.
  - simpl. split; [congruence|]. intros (_ & r & [] & _).
  - rewrite fold_left_app. cbn [fold_left].
    destruct (string_dec p (personOf r)) as [->|Hne].
    + destruct (string_dec (personOf r) "__proto__") as [E|Hproto].
      * rewrite (personStep_proto _ _ E), IH. split; intros [H _]; congruence.
      * split; [|intros _; now apply personStep_get_some].
        intros _. split; [assumption|]. exists r. split; [|reflexivity].
        apply in_or_app. right. now left.
    + rewrite (personStep_get_other _ _ _ Hne), IH. split.
      * intros (H & r' & Hin & E). split; [assumption|]. exists r'.
        split; [apply in_or_app; now left|assumption].
      * intros (H & r' & Hin & E). split; [assumption|]. exists r'.
        split; [|assumption].
        apply in_app_or in Hin. destruct Hin as [Hin|[<-|[]]]; congruence.
Qed.

Lemma fold_personStep_get l p :
  JS.plainKey p = true ->
  JS.get p (fold_left (personStep env) l [])
  = match rowsOfPerson l p with
    | [] => None
    | b => Some (JS.VNumber (fold_left (addRevenue env) b 0%float))
    end.
Proof.
  intros Hp. induction l as [|r l IH] using rev_ind; [reflexivity|].
  unfold rowsOfPerson in *. rewrite fold_left_app, filter_app. simpl.
  destruct (String.eqb_spec (personOf r) p) as [<-|Hne].
  - destruct (List.filter _ l) as [|r0 b] eqn:Eb.
    + rewrite (personStep_get_plain _ _ Hp 0%float); [reflexivity|].
      now rewrite IH.
    + rewrite (personStep_get_plain _ _ Hp
                 (fold_left (addRevenue env) (r0 :: b) 0%float)).
      * cbn [app]. now rewrite fold_left_app.
      * now rewrite IH.
  - rewrite personStep_get_other by congruence.
    now rewrite IH, app_nil_r.
Qed.

Lemma personArray_perm rows :
  Permutation (personArray env rows)
              (map (fun e => PersonTotal.mk (fst e) (snd e)) (personMap env rows)).
Proof. unfold personArray. apply Permutation_map, Object_entries_perm. Qed.

End PersonFacts.

(** X3.  The per-person list has one entry per salesperson of the valid
    rows, a row without salesperson counting for "Unknown", except that
    the name [__proto__] gets no entry.  For a name that a plain object does
    not inherit, the revenue of the entry is the number its rows give in
    sheet order when each row adds its parsed revenue to the running
    total, the running total being taken as 0 whenever it is NaN or
    zero. *)
Theorem personArray_totals (env : Env) (rows : list RawRow.t) :
  NoDup (map PersonTotal.name (personArray env rows))
  /\ (forall p,
         In p (map PersonTotal.name (personArray env rows))
         <-> p <> "__proto__"
             /\ exists r, In r (validRows rows) /\ personOf r = p)
  /\ Forall (fun t =>
               JS.plainKey (PersonTotal.name t) = true ->
               PersonTotal.revenue t
               = JS.VNumber
                   (fold_left (addRevenue env)
                      (rowsOfPerson (validRows rows) (PersonTotal.name t))
                      0%float))
            (personArray env rows).
Proof.
  assert (Hkeys : NoDup (map fst (personMap env rows)))
    by (apply fold_personStep_keys; constructor).
  assert (Hnames : Permutation (map PersonTotal.name (personArray env rows))
                     (map fst (personMap env rows))).
  { rewrite (Permutation_map _ (personArray_perm env rows)).
    rewrite map_map. simpl. reflexivity. }
  split; [|split].
  - apply (Permutation_NoDup (Permutation_sym Hnames) Hkeys).
  - intros p. rewrite <- (fold_personStep_key env (validRows rows) p).
    fold (personMap env rows). rewrite get_None_iff. split.
    + intros Hin H. apply H. now apply (Permutation_in _ Hnames).
    + intros H. apply (Permutation_in _ (Permutation_sym Hnames)).
      destruct (in_dec string_dec p (map fst (personMap env rows)));
        [assumption|contradiction].
  - apply Forall_forall. intros t Hin Hp.
    apply (Permutation_in _ (personArray_perm env rows)) in Hin.
    apply in_map_iff in Hin. destruct Hin as ([p v] & <- & Hin).
    cbn [PersonTotal.name PersonTotal.revenue fst snd] in *.
    pose proof (get_In _ _ _ Hkeys Hin) as G.
    unfold personMap in G. rewrite (fold_personStep_get env _ _ Hp) in G.
    destruct (rowsOfPerson (validRows rows) p); [discriminate|].
    now injection G as <-.
Qed.


(** ** Further facts and properties: what an aggregate holds *)

(** Two names a plain object inherits: under [__proto__] nothing is kept,
    and under [constructor] the total is the text of the inherited
    function followed by the revenues. *)
Example inherited_salesperson_names :
  personArray Sample.env
    [Sheet.soldBy "__proto__" "100"; Sheet.soldBy "constructor" "100";
     Sheet.soldBy "Asha" "75"; Sheet.soldBy "constructor" "50"]
  = [PersonTotal.mk "constructor"
       (JS.VString "function Object() { [native code] }10050");
     PersonTotal.mk "Asha" (JS.VNumber 75%float)].
Proof. reflexivity. Qed.

Lemma pushClient_In r cs c :
  In c (pushClient r cs)
  <-> In c cs \/ (RawRow.Client r = Some c /\ c <> "").
Proof.
  unfold pushClient. destruct (RawRow.Client r) as [c0|].
  - destruct (String.eqb_spec c0 "") as [->|Hne]; simpl.
    + split; [tauto|]. intros [H|[E H]]; [assumption|]. congruence.
    + destruct (JS.includes cs c0) eqn:E; simpl.
      * apply includes_In in E. split; [tauto|].
        intros [H|[E' _]]; [assumption|]. congruence.
      * rewrite in_app_iff. simpl. split.
        -- intros [H|[<-|[]]]; [tauto|]. right. split; [reflexivity|assumption].
        -- intros [H|[E' _]]; [tauto|]. right. left. congruence.
  - split; [tauto|]. intros [H|[E _]]; [assumption|discriminate].
Qed.

Lemma pushClient_length r cs :
  (List.length (pushClient r cs) <= S (List.length cs))%nat.
Proof.
  unfold pushClient. destruct (RawRow.Client r) as [c0|]; [|lia].
  destruct (negb _ && negb _); [|lia].
  rewrite length_app. simpl. lia.
Qed.

Lemma fold_pushClient_In b :
  forall cs c,
    In c (fold_left (fun cs r => pushClient r cs) b cs)
    <-> In c cs \/ exists r, In r b /\ RawRow.Client r = Some c /\ c <> "".
Proof.
  induction b as [|r b IH]; intros cs c; simpl.
  - split; [tauto|]. intros [H|(r & [] & _)]. assumption.
  - rewrite IH, pushClient_In. split.
    + intros [[H|H]|(r' & H1 & H2)].
      * now left.
      * right. exists r. tauto.
      * right. exists r'. tauto.
    + intros [H|(r' & [<-|H1] & H2)].
      * tauto.
      * tauto.
      * right. exists r'. tauto.
Qed.

Lemma fold_pushClient_length b :
  forall cs,
    (List.length (fold_left (fun cs r => pushClient r cs) b cs)
     <= List.length cs + List.length b)%nat.
Proof.
  induction b as [|r b IH]; intros cs; simpl; [lia|].
  specialize (IH (pushClient r cs)). pose proof (pushClient_length r cs). lia.
Qed.

(** X4.  Every aggregate counts at least one sale and lists at most as many
    clients as it counts sales; its clients are exactly the non-empty
    Client cells of the valid rows of its date. *)
Theorem aggregate_clients (env : Env) (rows : list RawRow.t)
    (a : AggregatedRow.t) :
  In a (aggregated env rows) ->
  1 <= AggregatedRow.SalesCount a
  /\ Z.of_nat (List.length (AggregatedRow.Clients a)) <= AggregatedRow.SalesCount a
  /\ forall c,
       In c (AggregatedRow.Clients a)
       <-> exists r,
           In r (bucket env rows (AggregatedRow.Date a))
           /\ RawRow.Client r = Some c /\ c <> "".
Proof.
  intros Hin.
  destruct (aggregate_fields env rows a Hin)
    as (r0 & b & Hb & _ & _ & _ & Hc & _ & Hcl).
  rewrite Hb, Hc, Hcl. split; [|split].
  - simpl List.length. lia.
  - pose proof (fold_pushClient_length (r0 :: b) []). simpl List.length in *. lia.
  - intros c. rewrite fold_pushClient_In. simpl In at 1. tauto.
Qed.

(** The theorem on the aggregate of 1 April of the scenario of the
    specification. *)
Lemma aggregate_clients_witness :
  1 <= 2
  /\ Z.of_nat (List.length ["A"]) <= 2
  /\ forall c,
       In c ["A"]
       <-> exists r,
           In r (bucket Sample.env Sheet.scenario "2024-04-01")
           /\ RawRow.Client r = Some c /\ c <> "".
Proof.
  apply (aggregate_clients Sample.env Sheet.scenario
           (AggregatedRow.mk "2024-04-01" 2 150%float ["A"] "April" "2024")).
  vm_compute. left. reflexivity.
Defined.

(** ** Further facts and properties: the filter pipeline *)

Lemma filter_filter {A} (p q : A -> bool) l :
  List.filter p (List.filter q l) = List.filter (fun x => q x && p x) l.
Proof.
  induction l as [|x l IH]; simpl; [reflexivity|].
  destruct (q x); simpl; [destruct (p x)|]; now rewrite IH.
Qed.

(** The pipeline is one pass with the two tests. *)
Lemma applyFilters_filter env filter month week data :
  applyFilters env filter month week data
  = List.filter
      (fun item => modeKeeps env filter month week item
                   && monthKeeps filter month item) data.
Proof.
  unfold applyFilters, monthKeeps, modeKeeps.
  destruct filter; cbn [andb negb].
  - rewrite andb_true_r. destruct (negb (month =? "all")%string).
    + apply filter_filter.
    + apply filter_ext. intros a. now rewrite andb_true_r.
  - rewrite andb_false_r.
    destruct week as [w|], (month =? "all")%string;
      apply filter_ext; intros a; now rewrite andb_true_r.
  - rewrite andb_true_r. destruct (negb (month =? "all")%string).
    + apply filter_filter.
    + apply filter_ext. intros a. now rewrite andb_true_r.
  - rewrite andb_true_r. destruct (negb (month =? "all")%string).
    + reflexivity.
    + now rewrite filter_true.
Qed.

Lemma filter_idem {A} (p : A -> bool) l :
  List.filter p (List.filter p l) = List.filter p l.
Proof.
  rewrite filter_filter. apply filter_ext. intros a. now destruct (p a).
Qed.

(** X5.  Whatever the selections, the filter pipeline judges each
    aggregate on its own: what it keeps comes from its input, filtering
    twice changes nothing more, and filtering two lists put end to end
    gives the two results put end to end, so the order of the input is
    kept. *)
Theorem applyFilters_pointwise (env : Env) (filter : FilterMode)
    (month : string) (week : option WeekRange.t) :
  (forall data a, In a (applyFilters env filter month week data) -> In a data)
  /\ (forall data,
         applyFilters env filter month week
           (applyFilters env filter month week data)
         = applyFilters env filter month week data)
  /\ (forall data1 data2,
         applyFilters env filter month week (data1 ++ data2)%list
         = (applyFilters env filter month week data1
            ++ applyFilters env filter month week data2)%list).
Proof.
  split; [|split].
  - intros data a. rewrite applyFilters_filter, filter_In. tauto.
  - intros data. rewrite !applyFilters_filter. apply filter_idem.
  - intros data1 data2. rewrite !applyFilters_filter. apply filter_app.
Qed.

(** The theorem on what weekly mode keeps of two aggregates of April 2024. *)
Lemma applyFilters_pointwise_witness :
  In (Sheet.dated "2024-04-07")
     [Sheet.dated "2024-04-03"; Sheet.dated "2024-04-07"].
Proof.
  apply (proj1 (applyFilters_pointwise Sample.env Weekly "all" None)).
  vm_compute. left. reflexivity.
Defined.

(** X6.  In every mode but weekly, selecting a month composes with the
    mode filter: the result is the result for "all" months cut down to the
    aggregates labelled with that month, so every aggregate shown carries
    the selected label. *)
Theorem month_filter_composes (env : Env) (filter : FilterMode)
    (month : string) (week : option WeekRange.t)
    (data : list AggregatedRow.t) :
  filter <> Weekly ->
  month <> "all" ->
  applyFilters env filter month week data
  = List.filter (fun r => (monthLabel r =? month)%string)
      (applyFilters env filter "all" week data)
  /\ forall a,
       In a (applyFilters env filter month week data) -> monthLabel a = month.
Proof.
  intros Hf Hm. apply String.eqb_neq in Hm.
  assert (E : applyFilters env filter month week data
              = List.filter (fun r => (monthLabel r =? month)%string)
                  (applyFilters env filter "all" week data)).
  { unfold applyFilters. rewrite Hm.
    destruct filter; try congruence; reflexivity. }
  split; [assumption|].
  intros a. rewrite E, filter_In. intros [_ H]. now apply String.eqb_eq.
Qed.

(** The theorem for the aggregates of April 2024 among two months. *)
Lemma month_filter_composes_witness :
  applyFilters Sample.env AllData "April 2024" None
    [Sheet.dated "2024-04-03"; Sheet.unknown]
  = List.filter (fun r => (monthLabel r =? "April 2024")%string)
      (applyFilters Sample.env AllData "all" None
         [Sheet.dated "2024-04-03"; Sheet.unknown])
  /\ forall a,
       In a (applyFilters Sample.env AllData "April 2024" None
               [Sheet.dated "2024-04-03"; Sheet.unknown]) ->
       monthLabel a = "April 2024".
Proof.
  apply month_filter_composes; discriminate.
Defined.

(** ** Further facts and properties: comparisons of instants *)

Lemma ltb_iff a b :
  Dayjs.ltb a b = true
  <-> Dayjs.year a < Dayjs.year b
      \/ (Dayjs.year a = Dayjs.year b
          /\ (Dayjs.month a < Dayjs.month b
              \/ (Dayjs.month a = Dayjs.month b
                  /\ (Dayjs.date a < Dayjs.date b
                      \/ (Dayjs.date a = Dayjs.date b
                          /\ Dayjs.time a < Dayjs.time b))))).
Proof.
  unfold Dayjs.ltb.
  repeat (match goal with
          | |- context [Z.ltb ?x ?y] => destruct (Z.ltb_spec x y)
          | |- context [Z.eqb ?x ?y] => destruct (Z.eqb_spec x y)
          end; cbn [orb andb]);
    (split; [intros E; first [discriminate E | lia]
            | intros E; first [reflexivity | exfalso; lia]]).
Qed.

Lemma leb_iff a b :
  Dayjs.leb a b = true
  <-> ~ (Dayjs.year b < Dayjs.year a
         \/ (Dayjs.year b = Dayjs.year a
             /\ (Dayjs.month b < Dayjs.month a
                 \/ (Dayjs.month b = Dayjs.month a
                     /\ (Dayjs.date b < Dayjs.date a
                         \/ (Dayjs.date b = Dayjs.date a
                             /\ Dayjs.time b < Dayjs.time a)))))).
Proof.
  unfold Dayjs.leb. rewrite negb_true_iff, <- not_true_iff_false, ltb_iff.
  reflexivity.
Qed.

Lemma leb_ltb_trans a b c :
  Dayjs.leb a b = true -> Dayjs.ltb b c = true -> Dayjs.ltb a c = true.
Proof. rewrite leb_iff, !ltb_iff. lia. Qed.

Lemma leb_trans a b c :
  Dayjs.leb a b = true -> Dayjs.leb b c = true -> Dayjs.leb a c = true.
Proof. rewrite !leb_iff. lia. Qed.

Lemma leb_refl a : Dayjs.leb a a = true.
Proof. rewrite leb_iff. lia. Qed.

(** X7.  For a clock whose current day lies within the range of dates,
    today's filter keeps exactly the aggregates whose date dayjs reads as
    the calendar day of now; an aggregate with an unreadable date is never
    shown. *)
Theorem daily_filter_same_day (env : Env) (week : option WeekRange.t)
    (data : list AggregatedRow.t) (a : AggregatedRow.t) :
  0 <= Dayjs.time (now env) < Dayjs.msPerDay ->
  Dayjs.isValid (Dayjs.startOf_day (Some (now env))) = true ->
  Dayjs.isValid (Dayjs.endOf_day (Some (now env))) = true ->
  (In a (applyFilters env Daily "all" week data)
   <-> In a data
       /\ exists d,
           itemDate env a = Some d
           /\ Dayjs.year d = Dayjs.year (now env)
           /\ Dayjs.month d = Dayjs.month (now env)
           /\ Dayjs.date d = Dayjs.date (now env)).
Proof.
  intros Ht Hs He. rewrite applyFilters_filter, filter_In.
  change (monthKeeps Daily "all" a) with true. rewrite andb_true_r.
  unfold modeKeeps, Dayjs.isSame_day, Dayjs.startOf_day, Dayjs.endOf_day,
    Dayjs.timeClip in *.
  destruct (itemDate env a) as [d|].
  - split.
    + intros [Hin H]. split; [assumption|]. exists d. split; [reflexivity|].
      destruct (Dayjs.inRange (Dayjs.startOfDay d)); [|discriminate H].
      destruct (Dayjs.inRange (Dayjs.endOfDay d)); [|discriminate H].
      apply andb_true_iff in H. rewrite !leb_iff in H.
      unfold Dayjs.startOfDay, Dayjs.endOfDay, Dayjs.msPerDay in *.
      civil_fields. lia.
    + intros [Hin (d' & E & H1 & H2 & H3)]. injection E as <-.
      split; [assumption|].
      assert (Es : Dayjs.startOfDay d = Dayjs.startOfDay (now env))
        by (unfold Dayjs.startOfDay; congruence).
      assert (Ee : Dayjs.endOfDay d = Dayjs.endOfDay (now env))
        by (unfold Dayjs.endOfDay; congruence).
      rewrite Es, Ee.
      destruct (Dayjs.inRange (Dayjs.startOfDay (now env))); [|discriminate Hs].
      destruct (Dayjs.inRange (Dayjs.endOfDay (now env))); [|discriminate He].
      apply andb_true_iff. rewrite !leb_iff.
      unfold Dayjs.startOfDay, Dayjs.endOfDay, Dayjs.msPerDay in *.
      civil_fields. lia.
  - split; [intros [_ H]; discriminate|].
    intros [_ (d & E & _)]. discriminate.
Qed.

(** Without the condition on the day of now the filter keeps less: at the
    last date, whose day does not end within the range of dates, an
    aggregate dated at that very instant is not shown. *)
Example daily_filter_at_range_end :
  Dayjs.endOf_day (Some (now Sample.dusk)) = None
  /\ itemDate Sample.dusk
       (AggregatedRow.mk "+275760-09-13T00:00:00" 1 100%float [] "September"
          "275760")
     = Some (now Sample.dusk)
  /\ applyFilters Sample.dusk Daily "all" None
       [AggregatedRow.mk "+275760-09-13T00:00:00" 1 100%float [] "September"
          "275760"]
     = [].
Proof. repeat split; reflexivity. Qed.

(** The theorem at the sample runtime, whose clock reads 10 April 2024. *)
Lemma daily_filter_same_day_witness :
  In (Sheet.dated "2024-04-07")
     (applyFilters Sample.env Daily "all" None [Sheet.dated "2024-04-07"])
  <-> In (Sheet.dated "2024-04-07") [Sheet.dated "2024-04-07"]
      /\ exists d,
          itemDate Sample.env (Sheet.dated "2024-04-07") = Some d
          /\ Dayjs.year d = 2024 /\ Dayjs.month d = 3 /\ Dayjs.date d = 10.
Proof.
  apply (daily_filter_same_day Sample.env None [Sheet.dated "2024-04-07"]).
  - vm_compute. split; congruence.
  - reflexivity.
  - reflexivity.
Defined.

Lemma nextDay_later c :
  Dayjs.wf c -> Dayjs.wf (Dayjs.nextDay c) /\ Dayjs.leb c (Dayjs.nextDay c) = true.
Proof.
  intros (Hm & Hd & Ht). rewrite leb_iff. unfold Dayjs.wf, Dayjs.nextDay.
  pose proof (daysInMonth_bounds (Dayjs.year c) (Dayjs.month c + 1)).
  pose proof (daysInMonth_bounds (Dayjs.year c + 1) 0).
  destruct (Z.ltb_spec (Dayjs.date c) (Dayjs.daysInMonth (Dayjs.year c) (Dayjs.month c)));
    [|destruct (Z.ltb_spec (Dayjs.month c) 11)]; civil_fields; lia.
Qed.

Lemma prevDay_earlier c :
  Dayjs.wf c -> Dayjs.wf (Dayjs.prevDay c) /\ Dayjs.leb (Dayjs.prevDay c) c = true.
Proof.
  intros (Hm & Hd & Ht). rewrite leb_iff. unfold Dayjs.wf, Dayjs.prevDay.
  pose proof (daysInMonth_bounds (Dayjs.year c) (Dayjs.month c - 1)).
  pose proof (daysInMonth_bounds (Dayjs.year c - 1) 11).
  destruct (Z.ltb_spec 1 (Dayjs.date c));
    [|destruct (Z.ltb_spec 0 (Dayjs.month c))]; civil_fields;
    try change (Dayjs.daysInMonth (Dayjs.year c - 1) 11) with 31; lia.
Qed.

Lemma iter_nextDay_later n c :
  Dayjs.wf c ->
  Dayjs.wf (Nat.iter n Dayjs.nextDay c)
  /\ Dayjs.leb c (Nat.iter n Dayjs.nextDay c) = true.
Proof.
  intros Hc. induction n as [|n [IH1 IH2]]; simpl.
  - split; [assumption|apply leb_refl].
  - destruct (nextDay_later _ IH1) as [H1 H2].
    split; [assumption|]. eapply leb_trans; eassumption.
Qed.

Lemma iter_prevDay_earlier n c :
  Dayjs.wf c ->
  Dayjs.wf (Nat.iter n Dayjs.prevDay c)
  /\ Dayjs.leb (Nat.iter n Dayjs.prevDay c) c = true.
Proof.
  intros Hc. induction n as [|n [IH1 IH2]]; simpl.
  - split; [assumption|apply leb_refl].
  - destruct (prevDay_earlier _ IH1) as [H1 H2].
    split; [assumption|]. eapply leb_trans; eassumption.
Qed.

(** Adding more days gives a later instant. *)
Lemma addDays_monotone c k1 k2 :
  Dayjs.wf c -> k1 <= k2 ->
  Dayjs.leb (Dayjs.addDays k1 c) (Dayjs.addDays k2 c) = true.
Proof.
  intros Hc Hk. unfold Dayjs.addDays.
  destruct (Z.leb_spec 0 k1), (Z.leb_spec 0 k2); try lia.
  - replace (Z.to_nat k2) with (Z.to_nat (k2 - k1) + Z.to_nat k1)%nat by lia.
    rewrite Nat.iter_add.
    apply iter_nextDay_later. now apply iter_nextDay_later.
  - eapply leb_trans.
    + now apply iter_prevDay_earlier.
    + now apply iter_nextDay_later.
  - replace (Z.to_nat (- k1)) with (Z.to_nat (k2 - k1) + Z.to_nat (- k2))%nat by lia.
    rewrite Nat.iter_add.
    apply iter_prevDay_earlier. now apply iter_prevDay_earlier.
Qed.

(** Going back more days gives an earlier instant. *)
Lemma subtract_day_monotone c n1 n2 :
  Dayjs.wf c -> n1 <= n2 ->
  Dayjs.leb
    (Dayjs.carryDate (Dayjs.year c) (Dayjs.month c) (Dayjs.date c + - n2)
       (Dayjs.time c))
    (Dayjs.carryDate (Dayjs.year c) (Dayjs.month c) (Dayjs.date c + - n1)
       (Dayjs.time c)) = true.
Proof.
  intros Hc Hn. unfold Dayjs.carryDate.
  destruct Hc as (Hm & Hd & Ht).
  rewrite (Z.div_small (Dayjs.month c) 12), (Z.mod_small (Dayjs.month c) 12),
    Z.add_0_r by lia.
  apply addDays_monotone; [|lia].
  pose proof (daysInMonth_bounds (Dayjs.year c) (Dayjs.month c)).
  unfold Dayjs.wf. civil_fields. lia.
Qed.

(** X8.  When the instant 30 days before now is still a date, then, with
    "all" months, everything weekly mode shows with no week chosen is
    also shown by the 30-day mode: the aggregates dated after now minus 7
    days are dated after now minus 30 days. *)
Theorem weekly_within_monthly (env : Env) (week : option WeekRange.t)
    (data : list AggregatedRow.t) (a : AggregatedRow.t) :
  Dayjs.wf (now env) ->
  Dayjs.isValid (Dayjs.subtract_day 30 (Some (now env))) = true ->
  In a (applyFilters env Weekly "all" week data) ->
  In a (applyFilters env Monthly "all" week data).
Proof.
  intros Hnow Hvalid. rewrite !applyFilters_filter, !filter_In.
  change (monthKeeps Weekly "all" a) with true.
  change (monthKeeps Monthly "all" a) with true.
  rewrite !andb_true_r. intros [Hin H]. split; [assumption|].
  assert (H7 : Dayjs.isAfter (itemDate env a)
                 (Dayjs.subtract_day 7 (Some (now env))) = true).
  { unfold modeKeeps in H. now destruct week. }
  unfold modeKeeps.
  pose proof (subtract_day_monotone (now env) 7 30 Hnow ltac:(lia)) as Hle.
  unfold Dayjs.subtract_day, Dayjs.add_day, Dayjs.setDate, Dayjs.timeClip in *.
  destruct (Dayjs.inRange
              (Dayjs.carryDate (Dayjs.year (now env)) (Dayjs.month (now env))
                 (Dayjs.date (now env) + - (30)) (Dayjs.time (now env))));
    [|discriminate Hvalid].
  unfold Dayjs.isAfter in *.
  destruct (itemDate env a) as [d|]; [|discriminate].
  destruct (Dayjs.inRange
              (Dayjs.carryDate (Dayjs.year (now env)) (Dayjs.month (now env))
                 (Dayjs.date (now env) + - (7)) (Dayjs.time (now env))));
    [|discriminate].
  eapply leb_ltb_trans; eassumption.
Qed.

(** Without that condition the inclusion fails: fifteen days after the
    first date, the instant 30 days before now is invalid, so the 30-day
    mode shows nothing, while weekly mode shows an aggregate of four days
    ago. *)
Example monthly_window_at_range_start :
  Dayjs.subtract_day 30 (Some (now Sample.dawn)) = None
  /\ applyFilters Sample.dawn Weekly "all" None
       [AggregatedRow.mk "-271821-05-01T12:00:00" 1 100%float [] "May" "-271821"]
     = [AggregatedRow.mk "-271821-05-01T12:00:00" 1 100%float [] "May" "-271821"]
  /\ applyFilters Sample.dawn Monthly "all" None
       [AggregatedRow.mk "-271821-05-01T12:00:00" 1 100%float [] "May" "-271821"]
     = [].
Proof. repeat split; reflexivity. Qed.

(** The theorem at the sample runtime, for an aggregate of 7 April seen at
    noon of 10 April. *)
Lemma weekly_within_monthly_witness :
  In (Sheet.dated "2024-04-07")
     (applyFilters Sample.env Monthly "all" None
        [Sheet.dated "2024-04-03"; Sheet.dated "2024-04-07"]).
Proof.
  apply (weekly_within_monthly Sample.env None).
  - repeat split; vm_compute; congruence.
  - reflexivity.
  - vm_compute. left. reflexivity.
Defined.

(** ** Further facts and properties: the selected week *)

Lemma weeks_of_month env st1 st2 :
  PageState.selectedMonth st1 = PageState.selectedMonth st2 ->
  weeks env st1 = weeks env st2.
Proof. intros E. unfold weeks. now rewrite E. Qed.

(** The invariant of the selected week, by induction on the way the state
    was reached. *)
Lemma reachable_selected_week (env : Env) (st : PageState.t) :
  Reachable env st ->
  forall w,
    PageState.selectedWeek st = Some w ->
    PageState.selectedMonth st <> "all" /\ In w (weeks env st).
Proof.
  induction 1 as [|st rows Hst IH|st e Hst IH]; intros w Hw.
  - discriminate Hw.
  - unfold onFetch in *.
    destruct (filterEffect_keeps env (fetched env rows st)) as (_ & _ & _ & Em & Ew).
    rewrite Ew in Hw. rewrite Em. cbn in Hw |- *.
    destruct (IH w Hw) as [H1 H2]. split; [assumption|].
    rewrite (weeks_of_month env _ st); [assumption|].
    now rewrite Em.
  - unfold onUi in *.
    destruct (filterEffect_keeps env (monthEffect st (handle env e st)))
      as (_ & _ & _ & Em & Ew).
    rewrite Ew in Hw. rewrite Em.
    rewrite (weeks_of_month env _ (monthEffect st (handle env e st)) Em).
    clear Em Ew. revert Hw. unfold monthEffect.
    destruct e; cbn [handle];
      try (cbn; rewrite String.eqb_refl; cbn; intros Hw;
           first [discriminate Hw | exact (IH w Hw)]).
    + destruct (negb (PageState.selectedMonth st =? "all")%string) eqn:E;
        cbn; rewrite String.eqb_refl; cbn; intros Hw;
        first [discriminate Hw | exact (IH w Hw)].
    + cbn. destruct (String.eqb_spec (PageState.selectedMonth st) m) as [<-|Hne];
        cbn; intros Hw; [|discriminate Hw].
      destruct (IH w Hw) as [H1 H2]. split; [assumption|].
      rewrite (weeks_of_month env _ st); [assumption|reflexivity].
    + destruct (PageState.showWeekPicker st
                && negb (PageState.selectedMonth st =? "all")%string) eqn:E.
      * destruct (nth_error (weeks env st) i) as [week|] eqn:En;
          cbn; rewrite String.eqb_refl; cbn; intros Hw.
        -- injection Hw as <-. apply andb_true_iff in E. destruct E as [_ E].
           apply negb_true_iff, String.eqb_neq in E. split; [assumption|].
           rewrite (weeks_of_month env _ st); [|reflexivity].
           eapply nth_error_In; eassumption.
        -- exact (IH w Hw).
      * rewrite String.eqb_refl. intros Hw. exact (IH w Hw).
Qed.

(** X9.  The selected week is never stale: in every state of the page, a
    selected week is one of the weeks of the month that is selected now,
    and a month is selected. *)
Theorem selected_week_is_current (env : Env) (st : PageState.t) :
  Reachable env st ->
  forall w,
    PageState.selectedWeek st = Some w ->
    PageState.selectedMonth st <> "all" /\ In w (weeks env st).
Proof. exact (reachable_selected_week env st). Qed.

(** The theorem on the page after fetching the scenario of the
    specification, selecting April 2024, asking for weekly mode and
    picking the second week offered. *)
Lemma selected_week_is_current_witness :
  "April 2024" <> "all"
  /\ In (WeekRange.mk "2024-04-07" "2024-04-13")
        (weeks Sample.env
           (fold_left (onUi Sample.env)
              [SelectMonth "April 2024"; ClickThisWeek; PickWeek 1]
              (onFetch Sample.env Sheet.scenario initialState))).
Proof.
  apply (selected_week_is_current Sample.env
           (fold_left (onUi Sample.env)
              [SelectMonth "April 2024"; ClickThisWeek; PickWeek 1]
              (onFetch Sample.env Sheet.scenario initialState))).
  - cbn [fold_left]. repeat apply reach_ui. apply reach_fetch, reach_initial.
  - reflexivity.
Defined.

(** ** Further facts and properties: the number of weeks *)

Section SpansCount.
Context (dow : Z -> Z) (K L : Z).
Context (Hdow : forall d, dow d = (K + d) mod 7).

(** The loop makes one span per calendar week it meets. *)
Lemma spans_count c l :
  WeekSpans dow L c l -> c <= L ->
  Z.of_nat (List.length l) = weekIndex K L - weekIndex K c + 1.
Proof.
  unfold weekIndex.
  induction 1 as [c Hc|c l Hc Hnext IH]; intros Hle; [lia|].
  pose proof (dow_bounds dow K Hdow c) as Hw. rewrite Hdow in *.
  pose proof (Z.div_mod (K + c) 7 ltac:(lia)) as Hq.
  destruct (Z_le_gt_dec (Z.min (c + (6 - (K + c) mod 7)) L + 1) L) as [Hin|Hout].
  - specialize (IH Hin).
    assert (E : Z.min (c + (6 - (K + c) mod 7)) L = c + (6 - (K + c) mod 7)) by lia.
    rewrite E in IH.
    replace (K + (c + (6 - (K + c) mod 7) + 1))
      with (0 + ((K + c) / 7 + 1) * 7) in IH by lia.
    rewrite Z.div_add in IH by lia.
    cbn [List.length]. rewrite Nat2Z.inj_succ, IH.
    change (0 / 7) with 0. lia.
  - inversion Hnext; subst; [|lia]. cbn [List.length].
    assert (E : (K + L) / 7 = (K + c) / 7).
    { symmetry. apply (Z.div_unique (K + L) 7 ((K + c) / 7)
                                     (K + L - 7 * ((K + c) / 7))); lia. }
    rewrite E. lia.
Qed.

End SpansCount.

(** X10.  For a "Month Year" text that dayjs reads as a date and whose
    month ends at a valid date, the generator returns between 4 and 6
    ranges, one per calendar week that the month touches. *)
Theorem week_ranges_count (env : Env) (fuel : nat) (monthYear : string)
    (c0 : Dayjs.Civil) :
  dayjs env (monthStartText monthYear) = Some c0 ->
  Dayjs.wf c0 ->
  Dayjs.isValid (Dayjs.endOf_month (Dayjs.startOf_month (Some c0))) = true ->
  (31 <= fuel)%nat ->
  exists ws,
    getWeeksOfMonth env fuel monthYear = Some ws
    /\ (4 <= List.length ws <= 6)%nat.
Proof.
  intros Hparse (Hm & _ & _) Hend Hfuel.
  pose proof (daysInMonth_bounds (Dayjs.fullYear (Dayjs.year c0))
                (Dayjs.month c0)) as HL.
  destruct (valid_month_inRange c0 Hm Hend) as [Hlo Hhi].
  destruct (getWeeksOfMonth_spans env _ _ Hm (fullYear_idem _) Hlo Hhi fuel
              monthYear c0 Hparse eq_refl eq_refl Hfuel)
    as (spans & Hspans & Hget).
  destruct (dayOfWeek_linear (Dayjs.fullYear (Dayjs.year c0)) (Dayjs.month c0))
    as [K HK].
  exists (map (dayRange (Dayjs.fullYear (Dayjs.year c0)) (Dayjs.month c0)) spans).
  split; [assumption|]. rewrite length_map.
  pose proof (spans_count _ K _ HK _ _ Hspans ltac:(lia)) as Hn.
  unfold weekIndex in Hn.
  set (L := Dayjs.daysInMonth _ _) in *.
  pose proof (Z.div_mod (K + L) 7 ltac:(lia)).
  pose proof (Z.div_mod (K + 1) 7 ltac:(lia)).
  pose proof (Z.mod_pos_bound (K + L) 7 ltac:(lia)).
  pose proof (Z.mod_pos_bound (K + 1) 7 ltac:(lia)).
  lia.
Qed.

(** The theorem for June 2024, which starts on a Saturday and has six
    weeks. *)
Lemma week_ranges_count_witness :
  exists ws,
    getWeeksOfMonth Sample.env 31 "June 2024" = Some ws
    /\ (4 <= List.length ws <= 6)%nat.
Proof.
  apply (week_ranges_count Sample.env 31 "June 2024" (Dayjs.mkCivil 2024 5 1 0)).
  - reflexivity.
  - repeat split; vm_compute; congruence.
  - reflexivity.
  - lia.
Defined.

(** For a text that dayjs cannot read the generator returns no range,
    whatever the iteration bound. *)
Lemma unreadable_month_no_weeks (env : Env) (fuel : nat) (monthYear : string) :
  dayjs env (monthStartText monthYear) = None ->
  getWeeksOfMonth env fuel monthYear = Some [].
Proof.
  intros H. unfold getWeeksOfMonth. rewrite H. now destruct fuel.
Qed.

(** X11.  When the selected month is a label that dayjs cannot read, such
    as the label "Unknown Unknown" of the unreadable dates, the picker has
    no week to offer and no week is selected, so weekly mode shows the
    aggregates dated after now minus 7 days. *)
Theorem unreadable_month_weekly (env : Env) (st : PageState.t) :
  Reachable env st ->
  dayjs env (monthStartText (PageState.selectedMonth st)) = None ->
  weeks env st = []
  /\ PageState.selectedWeek st = None
  /\ (PageState.filter st = Weekly ->
      PageState.filteredData st
      = List.filter (laterThanDaysAgo env 7) (PageState.data st)).
Proof.
  intros Hst Hm.
  assert (Hw : weeks env st = []).
  { unfold weeks. destruct (_ =? _)%string; [reflexivity|].
    now rewrite unreadable_month_no_weeks. }
  assert (Hs : PageState.selectedWeek st = None).
  { destruct (PageState.selectedWeek st) as [w|] eqn:E; [|reflexivity].
    destruct (reachable_selected_week env st Hst w E) as [_ Hin].
    rewrite Hw in Hin. destruct Hin. }
  split; [assumption|]. split; [assumption|].
  intros Hf. rewrite (reachable_filtered env st Hst), Hf, Hs.
  apply weekly_fallback_filter. now right.
Qed.

(** The theorem on the page after fetching a sheet with an unreadable
    date, selecting the label of that date and asking for weekly mode. *)
Lemma unreadable_month_weekly_witness :
  weeks Sample.env
    (fold_left (onUi Sample.env)
       [SelectMonth "Unknown Unknown"; ClickThisWeek; PickWeek 0]
       (onFetch Sample.env [Sample.row "soon" "50" "B"] initialState)) = []
  /\ PageState.selectedWeek
       (fold_left (onUi Sample.env)
          [SelectMonth "Unknown Unknown"; ClickThisWeek; PickWeek 0]
          (onFetch Sample.env [Sample.row "soon" "50" "B"] initialState)) = None
  /\ (PageState.filter
        (fold_left (onUi Sample.env)
           [SelectMonth "Unknown Unknown"; ClickThisWeek; PickWeek 0]
           (onFetch Sample.env [Sample.row "soon" "50" "B"] initialState))
      = Weekly ->
      PageState.filteredData
        (fold_left (onUi Sample.env)
           [SelectMonth "Unknown Unknown"; ClickThisWeek; PickWeek 0]
           (onFetch Sample.env [Sample.row "soon" "50" "B"] initialState))
      = List.filter (laterThanDaysAgo Sample.env 7)
          (PageState.data
             (fold_left (onUi Sample.env)
                [SelectMonth "Unknown Unknown"; ClickThisWeek; PickWeek 0]
                (onFetch Sample.env [Sample.row "soon" "50" "B"] initialState)))).
Proof.
  apply (unreadable_month_weekly Sample.env).
  - cbn [fold_left]. repeat apply reach_ui. apply reach_fetch, reach_initial.
  - reflexivity.
Defined.

(** ** Further facts and properties: the summary row *)

Lemma reachable_data env st :
  Reachable env st -> exists rows, PageState.data st = aggregated env rows.
Proof.
  induction 1 as [|st rows Hst IH|st e Hst IH].
  - now exists [].
  - exists rows. unfold onFetch.
    now destruct (filterEffect_keeps env (fetched env rows st)) as (-> & _).
  - destruct IH as [rows IH]. exists rows.
    now destruct (onUi_keeps_fetched env st e) as [-> _].
Qed.

Lemma Zsum_filter_le {A} (f : A -> Z) (p : A -> bool) l :
  Forall (fun a => 0 <= f a) l ->
  0 <= Zsum (map f (List.filter p l)) <= Zsum (map f l).
Proof.
  induction 1 as [|a l Ha _ IH]; simpl; [lia|].
  destruct (p a); simpl; lia.
Qed.

Lemma Zsum_pointwise_le {A} (f g : A -> Z) l :
  Forall (fun a => f a <= g a) l -> Zsum (map f l) <= Zsum (map g l).
Proof. induction 1 as [|a l Ha _ IH]; simpl; lia. Qed.

(** X12.  In every state of the page the summary row is consistent: the
    client total never exceeds the sales total, and the sales total is
    never negative and never more than the number of valid rows of the
    sheet the page holds. *)
Theorem summary_totals_bounded (env : Env) (st : PageState.t) :
  Reachable env st ->
  totalClients st <= totalSales st
  /\ exists rows,
       PageState.data st = aggregated env rows
       /\ 0 <= totalSales st <= Z.of_nat (List.length (validRows rows)).
Proof.
  intros Hst. destruct (reachable_data env st Hst) as [rows Hd].
  assert (Hall : Forall (fun a =>
                   1 <= AggregatedRow.SalesCount a
                   /\ Z.of_nat (List.length (AggregatedRow.Clients a))
                      <= AggregatedRow.SalesCount a) (PageState.data st)).
  { rewrite Hd. apply Forall_forall. intros a Ha.
    destruct (aggregate_fields env rows a Ha)
      as (r0 & b & _ & _ & _ & _ & Hc & _ & Hcl).
    rewrite Hc, Hcl.
    pose proof (fold_pushClient_length (r0 :: b) []).
    simpl List.length in *. lia. }
  unfold totalClients, totalSales, sumClients, sumSalesCount.
  rewrite !fold_left_Zadd, !Z.add_0_l.
  rewrite (reachable_filtered env st Hst), applyFilters_filter.
  split.
  - apply Zsum_pointwise_le. apply Forall_forall. intros a Ha.
    apply filter_In in Ha. destruct Ha as [Ha _].
    rewrite Forall_forall in Hall. now destruct (Hall a Ha).
  - exists rows. split; [assumption|].
    rewrite <- (sumSalesCount_aggregated env rows), <- Hd.
    unfold sumSalesCount. rewrite fold_left_Zadd, Z.add_0_l.
    apply Zsum_filter_le. eapply Forall_impl; [|exact Hall].
    intros a [H _]. lia.
Qed.

(** The theorem on the page showing today's rows of the scenario of the
    specification. *)
Lemma summary_totals_bounded_witness :
  totalClients
    (onUi Sample.env (onFetch Sample.env Sheet.scenario initialState) ClickToday)
  <= totalSales
       (onUi Sample.env (onFetch Sample.env Sheet.scenario initialState) ClickToday)
  /\ exists rows,
       PageState.data
         (onUi Sample.env (onFetch Sample.env Sheet.scenario initialState)
               ClickToday)
       = aggregated Sample.env rows
       /\ 0 <= totalSales
                 (onUi Sample.env
                    (onFetch Sample.env Sheet.scenario initialState) ClickToday)
            <= Z.of_nat (List.length (validRows rows)).
Proof.
  apply (summary_totals_bounded Sample.env).
  apply reach_ui, reach_fetch, reach_initial.
Defined.

(** ** Further facts and properties: a poll without rows *)

Lemma aggregated_no_rows env rows :
  validRows rows = [] ->
  aggregated env rows = [] /\ personArray env rows = []
  /\ uniqueMonths env rows = [].
Proof.
  intros H. unfold uniqueMonths, aggregated, personArray, dailyMap, personMap.
  rewrite H. repeat split; reflexivity.
Qed.

(** X13.  A poll whose answer carries no valid row, be it an empty sheet or
    the error answer of the route, empties the page: no aggregate, no row
    shown, no salesperson, no month, and a summary row of zeros, while the
    selections stay as they were. *)
Theorem fetch_without_rows_clears (env : Env) (r : Route.Response)
    (st : PageState.t) :
  validRows (Route.sheetData r) = [] ->
  fetchData env (Route.Answer r) st
  = PageState.mk [] [] [] (PageState.filter st) (PageState.selectedMonth st) []
      (PageState.showWeekPicker st) (PageState.selectedWeek st)
      (PageState.selectedChart st) (PageState.selectedYear st)
  /\ totalSales (fetchData env (Route.Answer r) st) = 0
  /\ totalClients (fetchData env (Route.Answer r) st) = 0
  /\ totalRevenue (fetchData env (Route.Answer r) st) = 0%float.
Proof.
  intros H.
  destruct (aggregated_no_rows env _ H) as (Ha & Hp & Hm).
  assert (E : fetchData env (Route.Answer r) st
              = PageState.mk [] [] [] (PageState.filter st)
                  (PageState.selectedMonth st) []
                  (PageState.showWeekPicker st) (PageState.selectedWeek st)
                  (PageState.selectedChart st) (PageState.selectedYear st)).
  { unfold fetchData, onFetch, fetched. rewrite Ha, Hp, Hm. reflexivity. }
  rewrite E. repeat split; reflexivity.
Qed.

(** The theorem for the error answer of the route, on the page that shows
    the scenario of the specification. *)
Lemma fetch_without_rows_clears_witness :
  fetchData Sample.env (Route.Answer (Route.Failed "quota"))
    (onFetch Sample.env Sheet.scenario initialState)
  = PageState.mk [] [] [] AllData "all" [] false None SalesChart "all"
  /\ totalSales
       (fetchData Sample.env (Route.Answer (Route.Failed "quota"))
          (onFetch Sample.env Sheet.scenario initialState)) = 0
  /\ totalClients
       (fetchData Sample.env (Route.Answer (Route.Failed "quota"))
          (onFetch Sample.env Sheet.scenario initialState)) = 0
  /\ totalRevenue
       (fetchData Sample.env (Route.Answer (Route.Failed "quota"))
          (onFetch Sample.env Sheet.scenario initialState)) = 0%float.
Proof.
  apply (fetch_without_rows_clears Sample.env (Route.Failed "quota")
           (onFetch Sample.env Sheet.scenario initialState)).
  reflexivity.
Defined.

(** ** Further facts and properties: from a month label to the first of
    the month *)

Lemma split_space_word s : noSpace s = true -> JS.split_space s = [s].
Proof.
  induction s as [|c s IH]; simpl; [reflexivity|].
  destruct (c =? " ")%char; simpl; [discriminate|].
  intros H. now rewrite (IH H).
Qed.

Lemma split_space_join m y :
  noSpace m = true -> noSpace y = true ->
  JS.split_space (m ++ " " ++ y) = [m; y].
Proof.
  intros Hm Hy. induction m as [|c m IH]; simpl.
  - now rewrite (split_space_word y Hy).
  - simpl in Hm. destruct (c =? " ")%char; simpl in *; [discriminate|].
    now rewrite (IH Hm).
Qed.

(** The month names and the years 0 to 9999 are written without a space. *)
Lemma renderings_noSpace c :
  Dayjs.wf c -> 0 <= Dayjs.year c <= 9999 ->
  noSpace (Dayjs.MMMM c) = true /\ noSpace (Dayjs.YYYY c) = true.
Proof.
  intros (Hm & _ & _) Hy. split.
  - assert (H : forallb noSpace Dayjs.monthNames = true) by reflexivity.
    rewrite forallb_forall in H. apply H.
    unfold Dayjs.MMMM. apply nth_In. simpl. lia.
  - assert (H : forallb (fun n => noSpace (JS.padStart 4 "0"
                                      (JS.string_of_Z (Z.of_nat n))))
                        (seq 0 (Z.to_nat 10000)) = true)
      by (vm_compute; reflexivity).
    rewrite forallb_forall in H. specialize (H (Z.to_nat (Dayjs.year c))).
    rewrite Z2Nat.id in H by lia. apply H, in_seq. lia.
Qed.

(** X14.  The label of an aggregate leads the week generator to the right
    month: when the dates of the valid rows are calendar dates of the years
    0 to 9999 or unreadable, the text the generator hands to dayjs for
    the label "Month Year" of an aggregate is "Month 1, Year", with the
    Month and the Year of that aggregate. *)
Theorem label_to_month_start (env : Env) (rows : list RawRow.t)
    (a : AggregatedRow.t) :
  (forall r c,
      In r (validRows rows) -> dateObj env r = Some c ->
      Dayjs.wf c /\ 0 <= Dayjs.year c <= 9999) ->
  In a (aggregated env rows) ->
  monthStartText (monthLabel a)
  = AggregatedRow.Month a ++ " 1, " ++ AggregatedRow.Year a.
Proof.
  intros Hdates Hin.
  destruct (aggregate_fields env rows a Hin)
    as (r0 & b & Hb & _ & Hm & Hy & _).
  assert (Hr0 : In r0 (validRows rows)).
  { assert (H : In r0 (bucket env rows (AggregatedRow.Date a)))
      by (rewrite Hb; now left).
    apply filter_In in H. tauto. }
  assert (Hns : noSpace (AggregatedRow.Month a) = true
                /\ noSpace (AggregatedRow.Year a) = true).
  { rewrite Hm, Hy. unfold monthOf, yearOf.
    destruct (dateObj env r0) as [c|] eqn:E; simpl.
    - destruct (Hdates r0 c Hr0 E). now apply renderings_noSpace.
    - split; reflexivity. }
  destruct Hns as [H1 H2].
  unfold monthStartText, monthLabel. now rewrite split_space_join.
Qed.

(** The theorem on the aggregate of 1 April of the scenario of the
    specification. *)
Lemma label_to_month_start_witness :
  monthStartText "April 2024" = "April" ++ " 1, " ++ "2024".
Proof.
  apply (label_to_month_start Sample.env Sheet.scenario
           (AggregatedRow.mk "2024-04-01" 2 150%float ["A"] "April" "2024")).
  - intros r c Hin. vm_compute in Hin.
    destruct Hin as [<-|[<-|[<-|[]]]]; intros E; vm_compute in E;
      injection E as <-; repeat split; vm_compute; congruence.
  - vm_compute. left. reflexivity.
Defined.

(** ** Further facts and properties: revenue by month *)

Section RevenueFacts.
Context (env : Env) (selectedYear : string).

Lemma revenueStep_skip acc row :
  yearPasses selectedYear row = false -> revenueStep selectedYear acc row = acc.
Proof.
  unfold yearPasses, revenueStep. intros H.
  apply orb_false_iff in H. destruct H as [-> ->]. reflexivity.
Qed.

Lemma revenueStep_get_same acc row :
  yearPasses selectedYear row = true ->
  JS.get (monthLabel row) (revenueStep selectedYear acc row)
  = Some (match JS.get (monthLabel row) acc with
          | Some e =>
              MonthRevenue.mk (MonthRevenue.Month e)
                (MonthRevenue.Revenue e + AggregatedRow.Revenue row)%float
          | None =>
              MonthRevenue.mk (monthLabel row)
                (0 + AggregatedRow.Revenue row)%float
          end).
Proof.
  unfold yearPasses, revenueStep. intros H. fold (monthLabel row).
  replace (negb (selectedYear =? "all")%string
           && negb (selectedYear =? AggregatedRow.Year row)%string)
    with false by (rewrite <- negb_orb, H; reflexivity).
  destruct (JS.get (monthLabel row) acc) as [e|] eqn:E.
  - now rewrite get_modify_eq, E.
  - now rewrite get_modify_eq, (get_define_eq _ _ _ E).
Qed.

Lemma revenueStep_get_other acc row label :
  label <> monthLabel row ->
  JS.get label (revenueStep selectedYear acc row) = JS.get label acc.
Proof.
  intros Hne. unfold revenueStep. fold (monthLabel row).
  destruct (negb _ && negb _); [reflexivity|].
  rewrite (get_modify_neq _ _ _ _ Hne).
  destruct (JS.get (monthLabel row) acc); [reflexivity|].
  now apply get_define_neq.
Qed.

Lemma revenueStep_keys acc row :
  NoDup (map fst acc) -> NoDup (map fst (revenueStep selectedYear acc row)).
Proof.
  intros Hnd. unfold revenueStep. fold (monthLabel row).
  destruct (negb _ && negb _); [assumption|]. rewrite keys_modify.
  destruct (JS.get (monthLabel row) acc) eqn:E; [assumption|].
  unfold JS.define. rewrite map_app. simpl.
  apply get_None_iff in E.
  apply NoDup_app; [assumption|repeat constructor; simpl; tauto|].
  intros a Ha [<-|[]]. tauto.
Qed.

Lemma revenueGroups_keys l :
  NoDup (map fst (revenueGroups selectedYear l)).
Proof.
  unfold revenueGroups.
  assert (H : forall acc, NoDup (map fst acc) ->
                          NoDup (map fst (fold_left (revenueStep selectedYear) l acc))).
  { induction l as [|r l IH]; intros acc Hnd; simpl; [assumption|].
    apply IH, revenueStep_keys, Hnd. }
  apply H. constructor.
Qed.

(** Each label holds the revenues of its rows, added from 0 in order. *)
Lemma revenueGroups_get l label :
  JS.get label (revenueGroups selectedYear l)
  = match rowsOfLabel selectedYear l label with
    | [] => None
    | b => Some (MonthRevenue.mk label (sumRevenue b))
    end.
Proof.
  unfold revenueGroups, sumRevenue.
  induction l as [|r l IH] using rev_ind; [reflexivity|].
  unfold rowsOfLabel in *. rewrite fold_left_app, filter_app. simpl.
  fold (yearPasses selectedYear r). destruct (yearPasses selectedYear r) eqn:Hy; simpl.
  - destruct (String.eqb_spec (monthLabel r) label) as [<-|Hne].
    + rewrite (revenueStep_get_same _ _ Hy), IH.
      destruct (List.filter _ l) as [|r0 b]; simpl; [reflexivity|].
      now rewrite fold_left_app.
    + rewrite revenueStep_get_other by congruence.
      now rewrite IH, app_nil_r.
  - rewrite (revenueStep_skip _ _ Hy). now rewrite IH, app_nil_r.
Qed.

End RevenueFacts.

(** X15.  The revenue-by-month series has one point per "Month Year" label
    of the rows shown whose Year passes the year selection, and none else;
    the revenue of a point is the sum, from 0 in the order shown, of the
    revenues of the rows of its label that pass the year selection. *)
Theorem revenueByMonth_groups (env : Env) (st : PageState.t) :
  NoDup (map MonthRevenue.Month (revenueByMonth env st))
  /\ (forall label,
         In label (map MonthRevenue.Month (revenueByMonth env st))
         <-> exists row,
             In row (PageState.filteredData st)
             /\ monthLabel row = label
             /\ (PageState.selectedYear st = "all"
                 \/ PageState.selectedYear st = AggregatedRow.Year row))
  /\ Forall (fun e =>
               MonthRevenue.Revenue e
               = sumRevenue
                   (rowsOfLabel (PageState.selectedYear st)
                      (PageState.filteredData st) (MonthRevenue.Month e)))
            (revenueByMonth env st).
Proof.
  set (y := PageState.selectedYear st). set (l := PageState.filteredData st).
  assert (Hperm : Permutation (revenueByMonth env st)
                    (map snd (revenueGroups y l))).
  { unfold revenueByMonth. rewrite sort_perm. apply Object_values_perm. }
  pose proof (revenueGroups_keys y l) as Hkeys.
  assert (Hget : forall k e,
             In (k, e) (revenueGroups y l) ->
             rowsOfLabel y l k <> []
             /\ e = MonthRevenue.mk k (sumRevenue (rowsOfLabel y l k))).
  { intros k e Hin. pose proof (get_In _ _ _ Hkeys Hin) as G.
    rewrite revenueGroups_get in G.
    destruct (rowsOfLabel y l k); [discriminate|].
    injection G as <-. split; [discriminate|reflexivity]. }
  assert (Hlabels : map MonthRevenue.Month (map snd (revenueGroups y l))
                    = map fst (revenueGroups y l)).
  { rewrite map_map. apply map_ext_in. intros [k e] Hin.
    destruct (Hget k e Hin) as [_ ->]. reflexivity. }
  assert (Hrow : forall label,
             rowsOfLabel y l label <> []
             <-> exists row, In row l /\ monthLabel row = label
                             /\ (y = "all" \/ y = AggregatedRow.Year row)).
  { intros label. unfold rowsOfLabel. split.
    - destruct (List.filter _ l) as [|row b] eqn:E; [congruence|]. intros _.
      assert (H : In row (List.filter
                            (fun r => ((y =? "all")%string
                                       || (y =? AggregatedRow.Year r)%string)
                                      && (monthLabel r =? label)%string) l))
        by (rewrite E; now left).
      apply filter_In in H. destruct H as [H1 H2].
      apply andb_true_iff in H2. destruct H2 as [H2 H3].
      apply orb_true_iff in H2. rewrite !String.eqb_eq in *.
      exists row. tauto.
    - intros (row & H1 & H2 & H3) E.
      assert (H : In row (List.filter
                            (fun r => ((y =? "all")%string
                                       || (y =? AggregatedRow.Year r)%string)
                                      && (monthLabel r =? label)%string) l)).
      { apply filter_In. split; [assumption|].
        apply andb_true_iff. split.
        - apply orb_true_iff. rewrite !String.eqb_eq. exact H3.
        - now apply String.eqb_eq. }
      rewrite E in H. destruct H. }
  split; [|split].
  - rewrite (Permutation_map _ Hperm), Hlabels. exact Hkeys.
  - intros label. rewrite <- Hrow.
    rewrite (Permutation_map MonthRevenue.Month Hperm), Hlabels. split.
    + intros Hin. apply in_map_iff in Hin. destruct Hin as ([k e] & E & Hin).
      simpl in E. subst k. now destruct (Hget label e Hin).
    + intros Hne. destruct (JS.get label (revenueGroups y l)) as [e|] eqn:G.
      * apply get_Some_In in G. change label with (fst (label, e)).
        now apply in_map.
      * rewrite revenueGroups_get in G.
        destruct (rowsOfLabel y l label); [congruence|discriminate].
  - apply Forall_forall. intros e Hin.
    apply (Permutation_in _ Hperm) in Hin.
    apply in_map_iff in Hin. destruct Hin as ([k e'] & E & Hin).
    simpl in E. subst e'. destruct (Hget k e Hin) as [_ ->]. reflexivity.
Qed.

(** ** Further facts and properties: the data route *)

Lemma combine_snoc {A B} (l1 : list A) (l2 : list B) a b :
  List.length l1 = List.length l2 ->
  combine (l1 ++ [a]) (l2 ++ [b]) = (combine l1 l2 ++ [(a, b)])%list.
Proof.
  revert l2. induction l1 as [|x l1 IH]; intros [|y l2] H; simpl in *;
    try discriminate; [reflexivity|].
  now rewrite IH by congruence.
Qed.

Lemma toObject_snoc header key row :
  Route.toObject (header ++ [key]) row
  = JS.write key (nth_error row (List.length header))
      (Route.toObject header row).
Proof.
  unfold Route.toObject. rewrite length_app. simpl.
  rewrite Nat.add_1_r, seq_S, combine_snoc by apply length_seq.
  rewrite fold_left_app. reflexivity.
Qed.

(** A column missing from the header is missing from the record, as is
    the column [__proto__]; any other column of the header holds the cell
    below it, the last such column winning. *)
Lemma toObject_get header row key :
  (~ In key header \/ key = "__proto__" ->
   JS.get key (Route.toObject header row) = None)
  /\ (forall i,
         nth_error header i = Some key ->
         key <> "__proto__" ->
         (forall j, (i < j)%nat -> nth_error header j <> Some key) ->
         JS.get key (Route.toObject header row) = Some (nth_error row i)).
Proof.
  induction header as [|k header IH] using rev_ind.
  - split; [reflexivity|]. intros i H. now destruct i.
  - rewrite toObject_snoc, get_write. destruct IH as [IH1 IH2].
    assert (Hshort : forall i,
               nth_error (header ++ [k]) i = Some key -> k <> key ->
               (i < List.length header)%nat).
    { intros i Hi Hne.
      assert (Hl : (i < List.length (header ++ [k]))%nat)
        by (apply nth_error_Some; congruence).
      rewrite length_app in Hl. simpl in Hl.
      destruct (Nat.eq_dec i (List.length header)) as [->|]; [|lia].
      rewrite nth_error_app2, Nat.sub_diag in Hi by lia.
      simpl in Hi. congruence. }
    assert (Hold : forall i,
               nth_error (header ++ [k]) i = Some key -> k <> key ->
               key <> "__proto__" ->
               (forall j, (i < j)%nat -> nth_error (header ++ [k]) j <> Some key) ->
               JS.get key (Route.toObject header row) = Some (nth_error row i)).
    { intros i Hi Hne Hkey Hlast. pose proof (Hshort i Hi Hne) as Hlt.
      rewrite nth_error_app1 in Hi by assumption.
      apply IH2; [assumption|assumption|].
      intros j Hj E. apply (Hlast j Hj).
      rewrite nth_error_app1; [assumption|].
      apply nth_error_Some. congruence. }
    destruct (String.eqb_spec k "__proto__") as [->|Hproto].
    + split.
      * intros [H|H]; apply IH1; [left|now right].
        intros Hin. apply H, in_or_app. now left.
      * intros i Hi Hkey Hlast. apply Hold; try assumption.
        intros E. apply Hkey. now symmetry.
    + destruct (String.eqb_spec k key) as [->|Hne].
      * split.
        -- intros [H|H]; [|congruence].
           exfalso. apply H, in_or_app. right. now left.
        -- intros i Hi _ Hlast.
           destruct (Nat.lt_ge_cases i (List.length header)) as [Hlt|Hge].
           ++ exfalso. apply (Hlast (List.length header) Hlt).
              now rewrite nth_error_app2, Nat.sub_diag by lia.
           ++ assert (i = List.length header).
              { assert (Hl : (i < List.length (header ++ [key]))%nat)
                  by (apply nth_error_Some; congruence).
                rewrite length_app in Hl. simpl in Hl. lia. }
              now subst i.
      * split.
        -- intros [H|H]; apply IH1; [left|now right].
           intros Hin. apply H, in_or_app. now left.
        -- intros i Hi Hkey Hlast. now apply Hold.
Qed.

Lemma route_record_fields_aux (header row : list string) (key : string) :
  NoDup header ->
  (forall i,
      nth_error header i = Some key ->
      key <> "__proto__" ->
      Route.field key (Route.toObject header row) = nth_error row i)
  /\ (~ In key header \/ key = "__proto__" ->
      Route.field key (Route.toObject header row) = None).
Proof.
  intros Hnd. destruct (toObject_get header row key) as [H1 H2]. split.
  - intros i Hi Hkey. unfold Route.field. rewrite (H2 i Hi Hkey).
    + now destruct (nth_error row i).
    + intros j Hj E.
      assert (i = j); [|lia].
      apply (proj1 (NoDup_nth_error header) Hnd); [|congruence].
      apply nth_error_Some. congruence.
  - intros H. unfold Route.field. now rewrite (H1 H).
Qed.

(** X16.  A record of the route gives, for each column of the header
    other than [__proto__], the cell of its row in that column (for a
    header without repeated names), and nothing for a name the header
    lacks, for a cell the row lacks, or for the column [__proto__], whose
    cells the record cannot store. *)
Theorem route_record_fields (header row : list string) (key : string) :
  NoDup header ->
  (forall i,
      nth_error header i = Some key ->
      key <> "__proto__" ->
      Route.field key (Route.toObject header row) = nth_error row i)
  /\ (~ In key header \/ key = "__proto__" ->
      Route.field key (Route.toObject header row) = None).
Proof. apply route_record_fields_aux. Qed.

(** The theorem on the columns of the sheet and a row that stops after
    its client. *)
Lemma route_record_fields_witness :
  (forall i,
      nth_error ["Date"; "Sales"; "Sales Person"; "Client"; "Revenue"] i
      = Some "Revenue" ->
      "Revenue" <> "__proto__" ->
      Route.field "Revenue"
        (Route.toObject ["Date"; "Sales"; "Sales Person"; "Client"; "Revenue"]
           ["2024-04-01"; "1"; "Asha"; "A"])
      = nth_error ["2024-04-01"; "1"; "Asha"; "A"] i)
  /\ (~ In "Revenue" ["Date"; "Sales"; "Sales Person"; "Client"; "Revenue"]
      \/ "Revenue" = "__proto__" ->
      Route.field "Revenue"
        (Route.toObject ["Date"; "Sales"; "Sales Person"; "Client"; "Revenue"]
           ["2024-04-01"; "1"; "Asha"; "A"])
      = None).
Proof.
  apply route_record_fields.
  repeat constructor; simpl; intuition discriminate.
Defined.

(** A column named [__proto__] leaves no field in the record. *)
Example proto_column_is_dropped :
  Route.toObject ["Date"; "__proto__"; "Revenue"] ["2024-04-01"; "x"; "100"]
  = [("Date", Some "2024-04-01"); ("Revenue", Some "100")].
Proof. reflexivity. Qed.

(** X17.  With its three settings present, the route configured through
    the environment answers exactly as the route of the key file, and
    with one of them absent or empty it answers with an error; an answer
    with data has one record per row below the header. *)
Theorem routes_agree (clientEmail privateKey spreadsheetId : option string)
    (reply : Route.Reply) :
  (JS.truthy clientEmail = true -> JS.truthy privateKey = true ->
   JS.truthy spreadsheetId = true ->
   Route.GET_env clientEmail privateKey spreadsheetId reply
   = Route.GET_keyFile reply)
  /\ (JS.truthy clientEmail = false \/ JS.truthy privateKey = false
      \/ JS.truthy spreadsheetId = false ->
      Route.GET_env clientEmail privateKey spreadsheetId reply
      = Route.Failed "Missing Google API environment variables.")
  /\ (forall header rows,
         reply = Route.Values (Some (header :: rows)) ->
         exists data,
           Route.GET_keyFile reply = Route.Json data
           /\ List.length data = List.length rows).
Proof.
  split; [|split].
  - unfold Route.GET_env, Route.GET_keyFile. intros -> -> ->. simpl.
    destruct reply as [m|values]; [reflexivity|].
    destruct (Route.orEmpty values) as [|header rows]; [reflexivity|].
    now destruct rows.
  - unfold Route.GET_env. intros [-> |[-> | ->]]; simpl.
    + reflexivity.
    + now rewrite orb_true_r.
    + now rewrite orb_true_r.
  - intros header rows ->. simpl. destruct rows as [|r rows].
    + now exists [].
    + exists (map (Route.toObject header) (r :: rows)).
      split; [reflexivity|apply length_map].
Qed.

(** The theorem for a sheet of a header and two rows. *)
Lemma routes_agree_witness :
  Route.GET_env (Some "bot@example.com") (Some "key") (Some "sheet")
    (Route.Values (Some [["Date"; "Revenue"]; ["2024-04-01"; "100"];
                         ["2024-04-02"]]))
  = Route.GET_keyFile
      (Route.Values (Some [["Date"; "Revenue"]; ["2024-04-01"; "100"];
                           ["2024-04-02"]]))
  /\ Route.GET_env None (Some "key") (Some "sheet") (Route.Thrown "unused")
     = Route.Failed "Missing Google API environment variables."
  /\ exists data,
       Route.GET_keyFile
         (Route.Values (Some [["Date"; "Revenue"]; ["2024-04-01"; "100"];
                              ["2024-04-02"]]))
       = Route.Json data
       /\ List.length data = 2%nat.
Proof.
  split; [|split].
  - apply (proj1 (routes_agree (Some "bot@example.com") (Some "key")
                    (Some "sheet") _)); reflexivity.
  - apply (proj1 (proj2 (routes_agree None (Some "key") (Some "sheet") _))).
    left. reflexivity.
  - apply (proj2 (proj2 (routes_agree None None None _))
             ["Date"; "Revenue"] [["2024-04-01"; "100"]; ["2024-04-02"]]).
    reflexivity.
Defined.

(** X18.  From sheet to page: a row of the sheet becomes a valid row of
    the page exactly when its cells in the Date and Revenue columns exist
    and are not empty, so a row that stops before its Revenue column is
    not counted as a sale. *)
Theorem sheet_row_validity (header row : list string) (i j : nat) :
  NoDup header ->
  nth_error header i = Some "Date" ->
  nth_error header j = Some "Revenue" ->
  (validRow (Route.rawRow (Route.toObject header row)) = true
   <-> (exists d, nth_error row i = Some d /\ d <> "")
       /\ (exists v, nth_error row j = Some v /\ v <> "")).
Proof.
  intros Hnd Hi Hj. unfold validRow, Route.rawRow. cbn [RawRow.Date RawRow.Revenue].
  rewrite (proj1 (route_record_fields_aux header row "Date" Hnd) i Hi)
    by discriminate.
  rewrite (proj1 (route_record_fields_aux header row "Revenue" Hnd) j Hj)
    by discriminate.
  rewrite andb_true_iff, !truthy_iff. reflexivity.
Qed.

(** The theorem on the columns of the sheet and a row that stops after
    its client. *)
Lemma sheet_row_validity_witness :
  validRow
    (Route.rawRow
       (Route.toObject ["Date"; "Sales"; "Sales Person"; "Client"; "Revenue"]
          ["2024-04-01"; "1"; "Asha"; "A"])) = true
  <-> (exists d, nth_error ["2024-04-01"; "1"; "Asha"; "A"] 0 = Some d /\ d <> "")
      /\ (exists v, nth_error ["2024-04-01"; "1"; "Asha"; "A"] 4 = Some v
                    /\ v <> "").
Proof.
  apply (sheet_row_validity
           ["Date"; "Sales"; "Sales Person"; "Client"; "Revenue"]
           ["2024-04-01"; "1"; "Asha"; "A"] 0 4).
  - repeat constructor; simpl; intuition discriminate.
  - reflexivity.
  - reflexivity.
Defined.

(** ** Further facts and properties: the order of the aggregates *)

Section SortFacts.
Context {A : Type} (cmp : A -> A -> Z).
Context (Htotal : forall a b, cmp a b <= 0 \/ cmp b a <= 0).
Context (Htrans : forall a b c, cmp a b <= 0 -> cmp b c <= 0 -> cmp a c <= 0).

Lemma insert_sorted_sorted x l :
  StronglySorted (fun a b => cmp a b <= 0) l ->
  StronglySorted (fun a b => cmp a b <= 0) (JS.insert_sorted cmp x l).
Proof.
  induction 1 as [|y l Hs IH Hy]; simpl.
  - repeat constructor.
  - destruct (Z.leb_spec (cmp x y) 0) as [Hle|Hgt].
    + constructor; [now constructor|].
      constructor; [assumption|].
      eapply Forall_impl; [|exact Hy]. intros z Hz. now apply (Htrans x y z).
    + constructor; [assumption|].
      assert (Hyx : cmp y x <= 0) by (destruct (Htotal x y); lia).
      apply Forall_forall. intros z Hz.
      apply (Permutation_in _ (insert_sorted_perm cmp x l)) in Hz.
      destruct Hz as [<-|Hz]; [assumption|].
      rewrite Forall_forall in Hy. now apply Hy.
Qed.

Lemma sort_sorted l : StronglySorted (fun a b => cmp a b <= 0) (JS.sort cmp l).
Proof.
  induction l as [|x l IH]; simpl; [constructor|].
  now apply insert_sorted_sorted.
Qed.

End SortFacts.

(** X19.  When the collation is a total and transitive order, the
    aggregates [fetchData] stores are in ascending order of their Date
    text: no aggregate is followed, anywhere later in the list, by one
    whose Date collates before its own. *)
Theorem aggregated_sorted (env : Env) (rows : list RawRow.t) :
  (forall a b, localeCompare env a b <= 0 \/ localeCompare env b a <= 0) ->
  (forall a b c,
      localeCompare env a b <= 0 -> localeCompare env b c <= 0 ->
      localeCompare env a c <= 0) ->
  StronglySorted
    (fun a b =>
       localeCompare env (AggregatedRow.Date a) (AggregatedRow.Date b) <= 0)
    (aggregated env rows).
Proof.
  intros Htotal Htrans. unfold aggregated.
  apply (sort_sorted (byDate env)); unfold byDate.
  - intros a b. apply Htotal.
  - intros a b c. apply Htrans.
Qed.

Lemma sample_collation_total a b :
  Sample.localeCompare a b <= 0 \/ Sample.localeCompare b a <= 0.
Proof.
  unfold Sample.localeCompare. rewrite (String.compare_antisym a b).
  destruct (String.compare b a); simpl; lia.
Qed.

Lemma sample_collation_le a b :
  Sample.localeCompare a b <= 0 <-> String_as_OT.lt a b \/ a = b.
Proof.
  unfold Sample.localeCompare.
  rewrite <- String_as_OT.cmp_lt, <- String_as_OT.cmp_eq.
  unfold String_as_OT.cmp. destruct (String.compare a b); split; try lia;
    try tauto; intros [H|H]; discriminate H.
Qed.

Lemma sample_collation_trans a b c :
  Sample.localeCompare a b <= 0 -> Sample.localeCompare b c <= 0 ->
  Sample.localeCompare a c <= 0.
Proof.
  rewrite !sample_collation_le. intros [H1| ->] [H2| ->]; auto.
  left. eapply String_as_OT.lt_trans; eassumption.
Qed.

(** The theorem at the sample runtime, which collates by character
    codes, on a sheet whose rows are not in date order. *)
Lemma aggregated_sorted_witness :
  StronglySorted
    (fun a b =>
       Sample.localeCompare (AggregatedRow.Date a) (AggregatedRow.Date b) <= 0)
    (aggregated Sample.env
       [Sample.row "2024-04-02" "75" "B"; Sample.row "soon" "50" "B";
        Sample.row "2024-04-01" "100" "A"]).
Proof.
  apply (aggregated_sorted Sample.env).
  - apply sample_collation_total.
  - apply sample_collation_trans.
Defined.

(** ** Further facts and properties: polls and clicks *)

Lemma handle_keeps_months env e st :
  PageState.availableMonths (handle env e st) = PageState.availableMonths st.
Proof.
  destruct e; cbn; auto.
  - destruct (negb _); cbn; auto.
  - destruct (_ && _); auto. destruct (nth_error _ _); cbn; auto.
Qed.

Lemma onUi_keeps_months env st e :
  PageState.availableMonths (onUi env st e) = PageState.availableMonths st.
Proof.
  unfold onUi, filterEffect, monthEffect.
  destruct (PageState.data _); destruct (_ =? _)%string; cbn;
    apply handle_keeps_months.
Qed.

(** X20.  No click and no selection changes what was fetched: after any
    sequence of them the aggregates and the month list are those of the
    last poll. *)
Theorem ui_keeps_fetched_data (env : Env) (evs : list UiEvent)
    (st : PageState.t) :
  PageState.data (fold_left (onUi env) evs st) = PageState.data st
  /\ PageState.availableMonths (fold_left (onUi env) evs st)
     = PageState.availableMonths st.
Proof.
  revert st. induction evs as [|e evs IH]; intros st; simpl; [auto|].
  destruct (IH (onUi env st e)) as [-> ->].
  split; [apply onUi_keeps_fetched|apply onUi_keeps_months].
Qed.


Section PollFacts.
Context (env : Env) (rows : list RawRow.t).

Lemma handle_holding e fd st :
  handle env e (holding env rows fd st)
  = holding env rows fd (handle env e st).
Proof.
  destruct st as [d0 fd0 sp f m am sw w c y].
  destruct e; cbn [handle];
    unfold holding, setFilteredData, fetched, setFilter, setSelectedWeek,
      setShowWeekPicker, setSelectedMonth, setSelectedChart, setSelectedYear;
    state_fields; try reflexivity.
  - destruct (negb (m =? "all")%string); reflexivity.
  - destruct (sw && negb (m =? "all")%string); [|reflexivity].
    match goal with
    | |- context [nth_error (weeks env ?a) i] =>
        match goal with
        | |- context [nth_error (weeks env ?b) i] =>
            lazymatch a with
            | b => fail
            | _ => rewrite (weeks_of_month env a b) by reflexivity
            end
        end
    end.
    match goal with
    | |- context [nth_error ?l i] => destruct (nth_error l i)
    end; reflexivity.
Qed.

Lemma monthEffect_holding fd st0 st1 :
  monthEffect (holding env rows fd st0) (holding env rows fd st1)
  = holding env rows fd (monthEffect st0 st1).
Proof.
  destruct st0, st1.
  unfold monthEffect, holding, setFilteredData, fetched, setSelectedWeek.
  state_fields. destruct (_ =? _)%string; reflexivity.
Qed.

Lemma filterEffect_holding fd st :
  (aggregated env rows = [] -> fd = []) ->
  filterEffect env (holding env rows fd st)
  = holding env rows
      (applyFilters env (PageState.filter st) (PageState.selectedMonth st)
         (PageState.selectedWeek st) (aggregated env rows)) st.
Proof.
  intros H. destruct st. unfold filterEffect, holding, setFilteredData, fetched.
  state_fields. destruct (aggregated env rows) eqn:E; [|reflexivity].
  rewrite applyFilters_nil, H; reflexivity.
Qed.

Lemma holding_filterEffect fd st :
  holding env rows fd (filterEffect env st) = holding env rows fd st.
Proof.
  destruct st as [d0 fd0 sp f m am sw w c y].
  unfold filterEffect, holding, setFilteredData, fetched. state_fields.
  destruct d0; reflexivity.
Qed.

Lemma onFetch_holding st :
  onFetch env rows st
  = holding env rows
      (applyFilters env (PageState.filter st) (PageState.selectedMonth st)
         (PageState.selectedWeek st) (aggregated env rows)) st.
Proof.
  unfold onFetch.
  replace (fetched env rows st)
    with (holding env rows (aggregated env rows) st) by (now destruct st).
  apply filterEffect_holding. auto.
Qed.

End PollFacts.

(** X22.  A poll and a click may land in either order: the page ends in
    the same state whether the sheet arrives before or after the handler of
    the click and its effects have run. *)
Theorem poll_and_click_commute (env : Env) (rows : list RawRow.t)
    (e : UiEvent) (st : PageState.t) :
  onFetch env rows (onUi env st e) = onUi env (onFetch env rows st) e.
Proof.
  unfold onUi at 2. rewrite (onFetch_holding env rows st).
  rewrite handle_holding, monthEffect_holding.
  rewrite filterEffect_holding by (intros ->; apply applyFilters_nil).
  rewrite onFetch_holding. unfold onUi.
  destruct (filterEffect_keeps env (monthEffect st (handle env e st)))
    as (_ & _ & Ef & Em & Ew).
  rewrite Ef, Em, Ew. apply holding_filterEffect.
Qed.
